(** * Pledge lifecycle of the pay-per-view donation backend

    A shallow embedding of the route handlers under [app/api]:
    - [admin/run-charges]: the amount calculator [computeAmountCents] and the
      batch charge run;
    - [pledge/create]: pledge creation and the setup checkout session;
    - [stripe/webhook] and the two client confirmation handlers
      ([src/unnamed/part_001], [src/unnamed/part_002]): setup
      reconciliation.

    Conventions of the embedding.
    - JavaScript numbers that hold integer columns (views, cents) are [Z];
      [Math.floor (x / 1000)] on such a number is [Z.div].  Dollar amounts of
      a request body are rationals ([Q]); [None] stands for a value that
      [Number.isFinite] refuses.
    - The record store is a pair of tables, each a list of rows.  A
      [.update(patch).eq("id", k)] that the store applies rewrites every row
      whose id is [k]; one that the store refuses leaves the table as it
      was.  Which updates are refused, and which selects and inserts fail,
      is decided by the oracles of [World].  Most handlers never look at the
      result of an update: they go on in the same way whether it was
      applied or refused.
    - Strings are sequences of bytes, the UTF-8 encoding of the JavaScript
      string.
    - [Math.round(x * 100)] on a dollar amount is floating-point arithmetic
      of the runtime; it is an oracle of [World] too.
    - The payment provider is a set of oracles in [World]; each call a
      handler issues is appended to a trace of [ProviderCall]s.
    - A response is its status code and its JSON body; the CORS headers and
      the random [requestId] some handlers add are left out. *)

From Stdlib Require Import ZArith List String Ascii Bool Lia QArith Qround.
From Stdlib Require Import DecimalString.
Import ListNotations.
Local Open Scope string_scope.
Local Open Scope Z_scope.

(** ** Amount calculator ([admin/run-charges/route.ts], lines 12-29) *)

Module Amount.

Record Params := {
  finalViews : Z;
  viewsCap : Z;
  ratePer1000Cents : Z;
  donorCapCents : option Z
}.

Record Result := {
  computedViews : Z;
  amountCents : Z
}.

Definition computeAmountCents (params : Params) : Result :=
  let countedViews := Z.min (finalViews params) (viewsCap params) in
  let units := countedViews / 1000 in
  let amount := units * ratePer1000Cents params in
  let amount :=
    match donorCapCents params with
    | Some cap => Z.min amount cap
    | None => amount
    end in
  let amount :=
    if (amount >? 0) && (amount <? 100) then 100 else amount in
  {| computedViews := countedViews; amountCents := amount |}.

End Amount.

(** ** Rows of the record store *)

Module SetupStatus.
Inductive t := pending | complete | failed.
Definition eqb (a b : t) : bool :=
  match a, b with
  | pending, pending | complete, complete | failed, failed => true
  | _, _ => false
  end.
End SetupStatus.

Module ChargeStatus.
Inductive t := not_charged | charged | skipped | failed | requires_action.
Definition eqb (a b : t) : bool :=
  match a, b with
  | not_charged, not_charged | charged, charged | skipped, skipped
  | failed, failed | requires_action, requires_action => true
  | _, _ => false
  end.
End ChargeStatus.

Module CampaignStatus.
Inductive t := open | locked | charged.
Definition eqb (a b : t) : bool :=
  match a, b with
  | open, open | locked, locked | charged, charged => true
  | _, _ => false
  end.
End CampaignStatus.

Record Campaign := {
  c_id : string;
  c_name : option string;
  c_views_cap : option Z;
  c_final_views : option Z;
  c_status : CampaignStatus.t
}.

Record Pledge := {
  p_id : string;
  p_campaign_id : string;
  p_name : string;
  p_email : string;
  p_rate_per_1000_cents : Z;
  p_cap_amount_cents : option Z;
  p_views_cap : Z;
  p_setup_status : SetupStatus.t;
  p_charge_status : ChargeStatus.t;
  p_stripe_customer_id : option string;
  p_stripe_payment_method_id : option string;
  p_stripe_payment_intent_id : option string;
  p_computed_views : option Z;
  p_computed_amount_cents : option Z;
  p_error_message : option string;
  p_created_at : Z
}.

Record Db := {
  campaigns : list Campaign;
  pledges : list Pledge
}.

(** One [column: value] entry of the object passed to [.update(...)] on
    the pledges table; a patch is the list of its entries. *)
Inductive PledgeAssign :=
| setup_status_ (v : SetupStatus.t)
| charge_status_ (v : ChargeStatus.t)
| stripe_customer_id_ (v : option string)
| stripe_payment_method_id_ (v : option string)
| stripe_payment_intent_id_ (v : option string)
| computed_views_ (v : Z)
| computed_amount_cents_ (v : Z)
| error_message_ (v : option string).

Definition assign (a : PledgeAssign) (p : Pledge) : Pledge :=
  let mk ss cs cu pm pi cv ca em :=
    {| p_id := p_id p; p_campaign_id := p_campaign_id p;
       p_name := p_name p; p_email := p_email p;
       p_rate_per_1000_cents := p_rate_per_1000_cents p;
       p_cap_amount_cents := p_cap_amount_cents p;
       p_views_cap := p_views_cap p;
       p_setup_status := ss; p_charge_status := cs;
       p_stripe_customer_id := cu; p_stripe_payment_method_id := pm;
       p_stripe_payment_intent_id := pi;
       p_computed_views := cv; p_computed_amount_cents := ca;
       p_error_message := em; p_created_at := p_created_at p |} in
  let ss := p_setup_status p in
  let cs := p_charge_status p in
  let cu := p_stripe_customer_id p in
  let pm := p_stripe_payment_method_id p in
  let pi := p_stripe_payment_intent_id p in
  let cv := p_computed_views p in
  let ca := p_computed_amount_cents p in
  let em := p_error_message p in
  match a with
  | setup_status_ v => mk v cs cu pm pi cv ca em
  | charge_status_ v => mk ss v cu pm pi cv ca em
  | stripe_customer_id_ v => mk ss cs v pm pi cv ca em
  | stripe_payment_method_id_ v => mk ss cs cu v pi cv ca em
  | stripe_payment_intent_id_ v => mk ss cs cu pm v cv ca em
  | computed_views_ v => mk ss cs cu pm pi (Some v) ca em
  | computed_amount_cents_ v => mk ss cs cu pm pi cv (Some v) em
  | error_message_ v => mk ss cs cu pm pi cv ca v
  end.

Definition apply_patch (patch : list PledgeAssign) (p : Pledge) : Pledge :=
  fold_left (fun row a => assign a row) patch p.

(** The effect of [from("pledges").update(patch).eq("id", k)] on the table
    when the store applies it. *)
Definition update_pledges (patch : list PledgeAssign) (k : string)
    (rows : list Pledge) : list Pledge :=
  map (fun row => if String.eqb (p_id row) k then apply_patch patch row else row)
      rows.

Definition set_campaign_status (v : CampaignStatus.t) (c : Campaign) : Campaign :=
  {| c_id := c_id c; c_name := c_name c; c_views_cap := c_views_cap c;
     c_final_views := c_final_views c; c_status := v |}.

(** The effect of [from("campaigns").update({ status: v }).eq("id", k)] on
    the table when the store applies it. *)
Definition update_campaign_status (v : CampaignStatus.t) (k : string)
    (rows : list Campaign) : list Campaign :=
  map (fun row => if String.eqb (c_id row) k then set_campaign_status v row else row)
      rows.

(** [.eq("id", k).single()]: the row when exactly one matches, an error
    otherwise. *)
Definition single {A : Type} (rows : list A) : option A :=
  match rows with
  | [row] => Some row
  | _ => None
  end.

Definition select_campaign (k : string) (rows : list Campaign) : option Campaign :=
  single (filter (fun row => String.eqb (c_id row) k) rows).

(** [!v] on a nullable string: true on [null] and on the empty string. *)
Definition falsy (v : option string) : bool :=
  match v with
  | None => true
  | Some s => String.eqb s ""
  end.

(** [Number.isFinite(v) && Number(v) > 0 ? Number(v) : 20000] on the
    nullable [views_cap] column of a campaign (run-charges lines 63-66,
    pledge/create lines 75-78). *)
Definition views_cap_or_default (views_cap : option Z) : Z :=
  match views_cap with
  | Some v => if v >? 0 then v else 20000
  | None => 20000
  end.

(** The string behind a nullable string that is known to be truthy. *)
Definition text (v : option string) : string :=
  match v with
  | Some s => s
  | None => ""
  end.

(** ** Responses *)

Inductive Body :=
| ErrorBody (error : string)
| CountsBody (charged skipped failed requiresAction : Z)
| UrlBody (url : option string)
| PledgeBody (pledge_id : string)
| ReceivedBody
| UnhandledBody.

Record Response := {
  status : Z;
  body : Body
}.

Definition json (b : Body) (code : Z) : Response :=
  {| status := code; body := b |}.

(** ** The payment provider and the environment *)

(** A field that holds an id, an expanded object with an [id] property, or
    neither ([null], [undefined], any other value). *)
Inductive Ref :=
| RefId (id : string)
| RefObject (id : option string)
| RefNone.

Record Metadata := {
  md_flow : option string;
  md_pledge_id : option string
}.

Record Session := {
  s_metadata : option Metadata;
  s_setup_intent : Ref;
  s_customer : Ref
}.

Record SetupIntent := {
  si_payment_method : Ref;
  si_customer : Ref;
  si_metadata : option Metadata
}.

(** The session object of a webhook event, with [setup_intent] as the
    handler casts it ([string | undefined]). *)
Record EventSession := {
  es_metadata : option Metadata;
  es_setup_intent : option string;
  es_customer : Ref
}.

Record Event := {
  ev_type : string;
  ev_object : EventSession
}.

Record PaymentIntentRef := {
  pi_id : option string;
  pi_status : option string
}.

(** A value thrown by a provider call, as the handlers read it. *)
Record Thrown := {
  e_message : option string;
  e_code : option string;
  e_payment_intent : option PaymentIntentRef
}.

Inductive Outcome (A : Type) :=
| Returned (a : A)
| Threw (e : Thrown).
Arguments Returned {A} a.
Arguments Threw {A} e.

Record PaymentIntentCreate := {
  pic_amount : Z;
  pic_currency : string;
  pic_customer : string;
  pic_payment_method : string;
  pic_off_session : bool;
  pic_confirm : bool;
  pic_description : string;
  pic_pledge_id : string;
  pic_campaign_id : string;
  pic_computed_views : string
}.

Record CustomerCreate := {
  cc_email : string;
  cc_name : string;
  cc_pledge_id : string;
  cc_campaign_id : string
}.

Record SessionCreate := {
  sc_mode : string;
  sc_customer : string;
  sc_success_url : option string;
  sc_cancel_url : option string;
  sc_pledge_id : string;
  sc_campaign_id : string;
  sc_flow : string
}.

Inductive ProviderCall :=
| paymentIntents_create_ (params : PaymentIntentCreate)
| checkout_sessions_retrieve_ (id : string)
| checkout_sessions_create_ (params : SessionCreate)
| setupIntents_retrieve_ (id : string)
| customers_create_ (params : CustomerCreate).

Inductive InsertOutcome :=
| Inserted (id : string) (created_at : Z)
| InsertError (message : option string).

Record World := {
  (* process.env *)
  ADMIN_PASSWORD : option string;
  SUCCESS_URL : option string;
  CANCEL_URL : option string;
  STRIPE_WEBHOOK_SECRET : option string;
  STRIPE_SECRET_KEY : option string;
  SUPABASE_URL : option string;
  SUPABASE_SERVICE_ROLE_KEY : option string;
  (* record store: the errors the handlers read *)
  campaigns_select_error : bool;
  pledges_select_error : option string;
  pledges_lookup_error : bool;
  pledges_insert : list Pledge -> InsertOutcome;
  (* record store: whether it refuses an update, given the patch, the key
     and the table it would rewrite *)
  pledges_update_error : list PledgeAssign -> string -> list Pledge -> bool;
  campaigns_update_error : CampaignStatus.t -> string -> list Campaign -> bool;
  (* runtime: Math.round(x * 100) on the double x *)
  Math_round_times_100 : Q -> Z;
  (* payment provider *)
  paymentIntents_create : PaymentIntentCreate -> Outcome string;
  checkout_sessions_retrieve : string -> Outcome Session;
  checkout_sessions_create : SessionCreate -> Outcome (option string);
  setupIntents_retrieve : string -> Outcome SetupIntent;
  customers_create : CustomerCreate -> Outcome string;
  webhooks_constructEvent : string -> string -> option string -> Outcome Event
}.

Definition Error (message : string) : Thrown :=
  {| e_message := Some message; e_code := None; e_payment_intent := None |}.

(** [getStripe] of [src/lib/stripe] ([src/unnamed/part_000]): the client,
    or the error thrown when the key is not configured. *)
Definition getStripe (w : World) : Outcome unit :=
  if falsy (STRIPE_SECRET_KEY w) then Threw (Error "Missing STRIPE_SECRET_KEY")
  else Returned tt.

(** [src/lib/supabaseAdmin.ts] *)
Definition getSupabaseAdmin (w : World) : Outcome unit :=
  if falsy (SUPABASE_URL w) || falsy (SUPABASE_SERVICE_ROLE_KEY w) then
    Threw (Error "Missing SUPABASE_URL or SUPABASE_SERVICE_ROLE_KEY")
  else Returned tt.

(** [String(e.message)] when the thrown value has a message, the given
    default otherwise. *)
Definition message_of (e : Thrown) (default : string) : string :=
  match e_message e with
  | Some m => m
  | None => default
  end.

(** [await from("pledges").update(patch).eq("id", k)] with the result
    thrown away: the table afterwards, rewritten when the store applied the
    update and untouched when it refused it. *)
Definition write_pledges (w : World) (patch : list PledgeAssign) (k : string)
    (rows : list Pledge) : list Pledge :=
  if pledges_update_error w patch k rows then rows
  else update_pledges patch k rows.

(** [await from("campaigns").update({ status: v }).eq("id", k)], likewise. *)
Definition write_campaign_status (w : World) (v : CampaignStatus.t) (k : string)
    (rows : list Campaign) : list Campaign :=
  if campaigns_update_error w v k rows then rows
  else update_campaign_status v k rows.

(** What a handler leaves behind: its response, the tables, and the
    provider calls it issued, in order. *)
Record Run := {
  response : Response;
  db : Db;
  calls : list ProviderCall
}.

Definition reject (r : Response) (d : Db) : Run :=
  {| response := r; db := d; calls := [] |}.

(** ** Charge run ([admin/run-charges/route.ts], lines 31-201) *)

Module RunCharges.

Record Body := {
  password : option string;
  campaign_id : option string
}.

Record Counts := {
  charged : Z;
  skipped : Z;
  failed : Z;
  requiresAction : Z
}.

(** The columns the handler selects from a pledge. *)
Record Selected := {
  id : string;
  rate_per_1000_cents : Z;
  cap_amount_cents : option Z;
  stripe_customer_id : option string;
  stripe_payment_method_id : option string
}.

Definition columns (p : Pledge) : Selected :=
  {| id := p_id p;
     rate_per_1000_cents := p_rate_per_1000_cents p;
     cap_amount_cents := p_cap_amount_cents p;
     stripe_customer_id := p_stripe_customer_id p;
     stripe_payment_method_id := p_stripe_payment_method_id p |}.

Definition eligible (campaignId : string) (p : Pledge) : bool :=
  String.eqb (p_campaign_id p) campaignId
  && SetupStatus.eqb (p_setup_status p) SetupStatus.complete
  && ChargeStatus.eqb (p_charge_status p) ChargeStatus.not_charged.

Definition select_eligible (campaignId : string) (rows : list Pledge) : list Selected :=
  map columns (filter (eligible campaignId) rows).

(** The loop variables: the four counters, the pledges table and the
    provider calls issued so far. *)
Record Loop := {
  counts : Counts;
  rows : list Pledge;
  issued : list ProviderCall
}.

Definition incr_charged (c : Counts) : Counts :=
  {| charged := charged c + 1; skipped := skipped c;
     failed := failed c; requiresAction := requiresAction c |}.
Definition incr_skipped (c : Counts) : Counts :=
  {| charged := charged c; skipped := skipped c + 1;
     failed := failed c; requiresAction := requiresAction c |}.
Definition incr_failed (c : Counts) : Counts :=
  {| charged := charged c; skipped := skipped c;
     failed := failed c + 1; requiresAction := requiresAction c |}.
Definition incr_requiresAction (c : Counts) : Counts :=
  {| charged := charged c; skipped := skipped c;
     failed := failed c; requiresAction := requiresAction c + 1 |}.

Definition string_of_Z (z : Z) : string :=
  DecimalString.NilZero.string_of_int (Z.to_int z).

Definition needsAction (err : Thrown) : bool :=
  match e_code err with
  | Some code => String.eqb code "authentication_required"
  | None => false
  end
  || match e_payment_intent err with
     | Some pi =>
         match pi_status pi with
         | Some st => String.eqb st "requires_action"
         | None => false
         end
     | None => false
     end.

(** The argument of [stripe.paymentIntents.create] (lines 128-141). *)
Definition charge_params (campaign : Campaign) (campaignId : string)
    (pledge : Selected) (computedViews amountCents : Z) : PaymentIntentCreate :=
  {| pic_amount := amountCents;
     pic_currency := "usd";
     pic_customer := text (stripe_customer_id pledge);
     pic_payment_method := text (stripe_payment_method_id pledge);
     pic_off_session := true;
     pic_confirm := true;
     pic_description :=
       "Donation pledge charge ("
       ++ match c_name campaign with Some n => n | None => "Campaign" end
       ++ ")";
     pic_pledge_id := id pledge;
     pic_campaign_id := campaignId;
     pic_computed_views := string_of_Z computedViews |}.

(** The amount calculator on one selected pledge (lines 89-95). *)
Definition amount_of (finalViews viewsCap : Z) (pledge : Selected) : Amount.Result :=
  Amount.computeAmountCents
    {| Amount.finalViews := finalViews;
       Amount.viewsCap := viewsCap;
       Amount.ratePer1000Cents := rate_per_1000_cents pledge;
       Amount.donorCapCents := cap_amount_cents pledge |}.

(** The body of the [for] loop (lines 86-187) for one selected pledge. *)
Definition charge_pledge (w : World) (campaign : Campaign) (campaignId : string)
    (finalViews viewsCap : Z) (st : Loop) (pledge : Selected) : Loop :=
  let pledgeId := id pledge in
  let r := amount_of finalViews viewsCap pledge in
  let computedViews := Amount.computedViews r in
  let amountCents := Amount.amountCents r in
  let rows1 :=
    write_pledges w [computed_views_ computedViews;
                    computed_amount_cents_ amountCents] pledgeId (rows st) in
  if amountCents <=? 0 then
    {| counts := incr_skipped (counts st);
       rows := write_pledges w [charge_status_ ChargeStatus.skipped] pledgeId rows1;
       issued := issued st |}
  else
    let customerId := stripe_customer_id pledge in
    let paymentMethodId := stripe_payment_method_id pledge in
    if falsy customerId || falsy paymentMethodId then
      {| counts := incr_failed (counts st);
         rows := write_pledges w
                   [charge_status_ ChargeStatus.failed;
                    error_message_ (Some "Missing Stripe customer or payment method")]
                   pledgeId rows1;
         issued := issued st |}
    else
      let params := charge_params campaign campaignId pledge computedViews amountCents in
      let issued1 := (issued st ++ [paymentIntents_create_ params])%list in
      match paymentIntents_create w params with
      | Returned pi =>
          {| counts := incr_charged (counts st);
             rows := write_pledges w
                       [charge_status_ ChargeStatus.charged;
                        stripe_payment_intent_id_ (Some pi);
                        error_message_ None]
                       pledgeId rows1;
             issued := issued1 |}
      | Threw err =>
          let message := message_of err "Charge failed" in
          let paymentIntentId :=
            match e_payment_intent err with
            | Some pi => pi_id pi
            | None => None
            end in
          if needsAction err then
            {| counts := incr_requiresAction (counts st);
               rows := write_pledges w
                         [charge_status_ ChargeStatus.requires_action;
                          error_message_ (Some message);
                          stripe_payment_intent_id_ paymentIntentId]
                         pledgeId rows1;
               issued := issued1 |}
          else
            {| counts := incr_failed (counts st);
               rows := write_pledges w
                         [charge_status_ ChargeStatus.failed;
                          error_message_ (Some message);
                          stripe_payment_intent_id_ paymentIntentId]
                         pledgeId rows1;
               issued := issued1 |}
      end.

(** [body.password !== process.env.ADMIN_PASSWORD] is false. *)
Definition authorized (w : World) (body : Body) : bool :=
  match password body, ADMIN_PASSWORD w with
  | Some a, Some b => String.eqb a b
  | None, None => true
  | _, _ => false
  end.

Definition zero : Counts :=
  {| charged := 0; skipped := 0; failed := 0; requiresAction := 0 |}.

Definition POST (w : World) (req : Outcome Body) (d : Db) : Run :=
  match getStripe w, getSupabaseAdmin w, req with
  | Returned _, Returned _, Returned body =>
  if negb (authorized w body) then
    reject (json (ErrorBody "Unauthorized") 401) d
  else
  let campaignId := match campaign_id body with Some s => s | None => "" end in
  if String.eqb campaignId "" then
    reject (json (ErrorBody "Invalid input") 400) d
  else
  match (if campaigns_select_error w then None
         else select_campaign campaignId (campaigns d)) with
  | None => reject (json (ErrorBody "Campaign not found") 404) d
  | Some campaign =>
  match c_final_views campaign with
  | None => reject (json (ErrorBody "final_views not set yet") 400) d
  | Some finalViews =>
  let viewsCap := views_cap_or_default (c_views_cap campaign) in
  match pledges_select_error w with
  | Some message => reject (json (ErrorBody message) 500) d
  | None =>
  let selected := select_eligible campaignId (pledges d) in
  let st :=
    fold_left (charge_pledge w campaign campaignId finalViews viewsCap)
              selected
              {| counts := zero; rows := pledges d; issued := [] |} in
  {| response :=
       json (CountsBody (charged (counts st)) (skipped (counts st))
                        (failed (counts st)) (requiresAction (counts st))) 200;
     db := {| campaigns :=
                write_campaign_status w CampaignStatus.charged campaignId (campaigns d);
              pledges := rows st |};
     calls := issued st |}
  end end end
  | _, _, _ => reject (json (ErrorBody "Request failed") 500) d
  end.

End RunCharges.

(** ** Helpers shared by the setup handlers *)

(** The white space and line terminators that [String.prototype.trim]
    removes, by the bytes of their UTF-8 encoding.  One byte: tab, line
    feed, vertical tab, form feed, carriage return (9 to 13) and space
    (32). *)
Definition is_white (c : ascii) : bool :=
  let n := nat_of_ascii c in
  (Nat.leb 9 n && Nat.leb n 13) || Nat.eqb n 32.

(** Two bytes: U+00A0 (C2 A0). *)
Definition is_white2 (c1 c2 : ascii) : bool :=
  Nat.eqb (nat_of_ascii c1) 194 && Nat.eqb (nat_of_ascii c2) 160.

(** Three bytes: U+1680 (E1 9A 80), U+2000 to U+200A (E2 80 80 to
    E2 80 8A), U+2028 and U+2029 (E2 80 A8, E2 80 A9), U+202F (E2 80 AF),
    U+205F (E2 81 9F), U+3000 (E3 80 80) and U+FEFF (EF BB BF). *)
Definition is_white3 (c1 c2 c3 : ascii) : bool :=
  let a := nat_of_ascii c1 in
  let b := nat_of_ascii c2 in
  let c := nat_of_ascii c3 in
  (Nat.eqb a 225 && Nat.eqb b 154 && Nat.eqb c 128)
  || (Nat.eqb a 226 && Nat.eqb b 128
      && ((Nat.leb 128 c && Nat.leb c 138)
          || Nat.eqb c 168 || Nat.eqb c 169 || Nat.eqb c 175))
  || (Nat.eqb a 226 && Nat.eqb b 129 && Nat.eqb c 159)
  || (Nat.eqb a 227 && Nat.eqb b 128 && Nat.eqb c 128)
  || (Nat.eqb a 239 && Nat.eqb b 187 && Nat.eqb c 191).

(** [s.trim().length === 0]: the string holds nothing but white space. *)
Fixpoint blank (s : string) : bool :=
  match s with
  | EmptyString => true
  | String c1 rest1 =>
      if is_white c1 then blank rest1
      else
        match rest1 with
        | EmptyString => false
        | String c2 rest2 =>
            if is_white2 c1 c2 then blank rest2
            else
              match rest2 with
              | EmptyString => false
              | String c3 rest3 =>
                  if is_white3 c1 c2 c3 then blank rest3 else false
              end
        end
  end.

(** [typeof value === "string" && value.trim().length > 0]; [None] is a
    value that is not a string. *)
Definition isNonEmptyString (value : option string) : bool :=
  match value with
  | Some s => negb (blank s)
  | None => false
  end.

Definition getStringId (value : Ref) : option string :=
  match value with
  | RefId s => Some s
  | RefObject id => id
  | RefNone => None
  end.

(** [typeof value === "string" ? value : null] *)
Definition string_or_null (value : Ref) : option string :=
  match value with
  | RefId s => Some s
  | _ => None
  end.

(** [metadata?.flow] and [metadata?.pledge_id] *)
Definition flow_of (metadata : option Metadata) : option string :=
  match metadata with
  | Some md => md_flow md
  | None => None
  end.

Definition pledge_id_of (metadata : option Metadata) : option string :=
  match metadata with
  | Some md => md_pledge_id md
  | None => None
  end.

Definition is_pledge_setup (flow : option string) : bool :=
  match flow with
  | Some f => String.eqb f "pledge_setup"
  | None => false
  end.

Definition set_pledges (rows : list Pledge) (d : Db) : Db :=
  {| campaigns := campaigns d; pledges := rows |}.

(** ** Setup reconciliation from the provider's webhook
       ([stripe/webhook/route.ts]) *)

Module Webhook.

Record Request := {
  signature : option string;
  rawBody : string
}.

Definition received : Response := json ReceivedBody 200.

Definition POST (w : World) (req : Request) (d : Db) : Run :=
  match getStripe w, getSupabaseAdmin w with
  | Returned _, Returned _ =>
  if falsy (signature req) then
    reject (json (ErrorBody "Missing signature") 400) d
  else
  match webhooks_constructEvent w (rawBody req) (text (signature req))
          (STRIPE_WEBHOOK_SECRET w) with
  | Threw _ => reject (json (ErrorBody "Invalid signature") 400) d
  | Returned event =>
  if String.eqb (ev_type event) "checkout.session.completed" then
    let session := ev_object event in
    let metadata := es_metadata session in
    let flow := flow_of metadata in
    let pledgeId := pledge_id_of metadata in
    if is_pledge_setup flow && negb (falsy pledgeId) then
      let setupIntentId := es_setup_intent session in
      if falsy setupIntentId then
        {| response := received;
           db := set_pledges
                   (write_pledges w
                      [setup_status_ SetupStatus.failed;
                       error_message_ (Some "Missing setup_intent on checkout completion")]
                      (text pledgeId) (pledges d)) d;
           calls := [] |}
      else
        match setupIntents_retrieve w (text setupIntentId) with
        | Returned setupIntent =>
            let paymentMethodId := string_or_null (si_payment_method setupIntent) in
            let customerId := string_or_null (es_customer session) in
            if negb (falsy paymentMethodId) && negb (falsy customerId) then
              {| response := received;
                 db := set_pledges
                         (write_pledges w
                            [stripe_customer_id_ customerId;
                             stripe_payment_method_id_ paymentMethodId;
                             setup_status_ SetupStatus.complete]
                            (text pledgeId) (pledges d)) d;
                 calls := [setupIntents_retrieve_ (text setupIntentId)] |}
            else
              {| response := received;
                 db := set_pledges
                         (write_pledges w
                            [setup_status_ SetupStatus.failed;
                             error_message_
                               (Some "Missing customer or payment method on setup completion")]
                            (text pledgeId) (pledges d)) d;
                 calls := [setupIntents_retrieve_ (text setupIntentId)] |}
        | Threw e =>
            let message := message_of e "Webhook processing failed" in
            {| response := received;
               db := set_pledges
                       (write_pledges w
                          [setup_status_ SetupStatus.failed;
                           error_message_ (Some message)]
                          (text pledgeId) (pledges d)) d;
               calls := [setupIntents_retrieve_ (text setupIntentId)] |}
        end
    else reject received d
  else reject received d
  end
  | _, _ => reject (json UnhandledBody 500) d
  end.

End Webhook.

(** ** Setup reconciliation confirmed by the client, from a session id
       ([src/unnamed/part_001]) *)

Module ConfirmSession.

Record Body := {
  session_id : option string
}.

Definition POST (w : World) (req : Outcome Body) (d : Db) : Run :=
  match req with
  | Threw e => reject (json (ErrorBody (message_of e "Request failed")) 500) d
  | Returned body =>
  if negb (isNonEmptyString (session_id body)) then
    reject (json (ErrorBody "session_id is required") 400) d
  else
  match getStripe w, getSupabaseAdmin w with
  | Threw e, _ | Returned _, Threw e =>
      reject (json (ErrorBody (message_of e "Request failed")) 500) d
  | Returned _, Returned _ =>
  let sessionId := text (session_id body) in
  match checkout_sessions_retrieve w sessionId with
  | Threw _ =>
      {| response := json (ErrorBody "Unable to retrieve checkout session") 502;
         db := d;
         calls := [checkout_sessions_retrieve_ sessionId] |}
  | Returned session =>
  let metadata := s_metadata session in
  let flow := flow_of metadata in
  let pledgeId := pledge_id_of metadata in
  if negb (is_pledge_setup flow) || falsy pledgeId then
    {| response := json (ErrorBody "Session is not a pledge setup") 400;
       db := d;
       calls := [checkout_sessions_retrieve_ sessionId] |}
  else
  let setupIntentId := getStringId (s_setup_intent session) in
  let customerId := getStringId (s_customer session) in
  if falsy setupIntentId then
    {| response := json (ErrorBody "Missing setup intent") 409;
       db := set_pledges
               (write_pledges w
                  [setup_status_ SetupStatus.failed;
                   error_message_ (Some "Missing setup_intent on checkout session")]
                  (text pledgeId) (pledges d)) d;
       calls := [checkout_sessions_retrieve_ sessionId] |}
  else
  let issued := [checkout_sessions_retrieve_ sessionId;
                 setupIntents_retrieve_ (text setupIntentId)] in
  match setupIntents_retrieve w (text setupIntentId) with
  | Threw _ =>
      {| response := json (ErrorBody "Unable to retrieve setup intent") 502;
         db := d;
         calls := issued |}
  | Returned setupIntent =>
  let paymentMethodId := getStringId (si_payment_method setupIntent) in
  if falsy customerId || falsy paymentMethodId then
    {| response := json (ErrorBody "Setup completed without payment method") 409;
       db := set_pledges
               (write_pledges w
                  [setup_status_ SetupStatus.failed;
                   error_message_
                     (Some "Missing customer or payment method on setup completion")]
                  (text pledgeId) (pledges d)) d;
       calls := issued |}
  else
    {| response := json (PledgeBody (text pledgeId)) 200;
       db := set_pledges
               (write_pledges w
                  [stripe_customer_id_ customerId;
                   stripe_payment_method_id_ paymentMethodId;
                   setup_status_ SetupStatus.complete;
                   error_message_ None]
                  (text pledgeId) (pledges d)) d;
       calls := issued |}
  end end end end.

End ConfirmSession.

(** ** Setup reconciliation confirmed by the client, from a session id or a
       setup intent id ([src/unnamed/part_002], lines 1-182) *)

Module ConfirmSetup.

Record Body := {
  session_id : option string;
  setup_intent : option string
}.

(** [.order("created_at", { ascending: false }).limit(1)]: the row created
    last; among rows created at the same instant, the first of the table. *)
Fixpoint most_recent (best : option Pledge) (rows : list Pledge) : option Pledge :=
  match rows with
  | [] => best
  | row :: rest =>
      most_recent
        (match best with
         | Some b => if p_created_at b <? p_created_at row then Some row else best
         | None => Some row
         end)
        rest
  end.

Definition has_customer (customerId : string) (row : Pledge) : bool :=
  match p_stripe_customer_id row with
  | Some c => String.eqb c customerId
  | None => false
  end.

(** The id of the pledge the fallback query finds (lines 124-132); [None]
    when it finds none or fails. *)
Definition lookup_by_customer (w : World) (customerId : string)
    (rows : list Pledge) : option string :=
  if pledges_lookup_error w then None
  else option_map p_id (most_recent None (filter (has_customer customerId) rows)).

(** What the handler has resolved when it reaches line 93. *)
Record Resolved := {
  pledgeId : option string;
  customerId : option string;
  setupIntentId : option string
}.

(** Lines 66-91: the session, when the body names one, gives the pledge,
    the customer and the setup intent; otherwise the body gives the setup
    intent.  [inl] is an early response. *)
Definition resolve (w : World) (body : Body) (d : Db)
    : Run + (Resolved * list ProviderCall) :=
  if isNonEmptyString (session_id body) then
    let sessionId := text (session_id body) in
    match checkout_sessions_retrieve w sessionId with
    | Threw _ =>
        inl {| response := json (ErrorBody "Unable to retrieve checkout session") 502;
               db := d;
               calls := [checkout_sessions_retrieve_ sessionId] |}
    | Returned session =>
        let metadata := s_metadata session in
        let flow := flow_of metadata in
        let pledgeId := pledge_id_of metadata in
        if negb (is_pledge_setup flow) || falsy pledgeId then
          inl {| response := json (ErrorBody "Session is not a pledge setup") 400;
                 db := d;
                 calls := [checkout_sessions_retrieve_ sessionId] |}
        else
          inr ({| pledgeId := pledgeId;
                  customerId := getStringId (s_customer session);
                  setupIntentId := getStringId (s_setup_intent session) |},
               [checkout_sessions_retrieve_ sessionId])
    end
  else
    inr ({| pledgeId := None; customerId := None;
            setupIntentId :=
              if isNonEmptyString (setup_intent body) then setup_intent body
              else None |}, []).

(** Lines 93-170, on what [resolve] found. *)
Definition reconcile (w : World) (resolved : Resolved)
    (issued : list ProviderCall) (d : Db) : Run :=
  if falsy (setupIntentId resolved) then
    {| response := json (ErrorBody "Missing setup intent") 409;
       db := d;
       calls := issued |}
  else
  let issued := (issued ++ [setupIntents_retrieve_ (text (setupIntentId resolved))])%list in
  match setupIntents_retrieve w (text (setupIntentId resolved)) with
  | Threw _ =>
      {| response := json (ErrorBody "Unable to retrieve setup intent") 502;
         db := d;
         calls := issued |}
  | Returned setupIntent =>
  let customerId :=
    if falsy (customerId resolved) then getStringId (si_customer setupIntent)
    else customerId resolved in
  let paymentMethodId := getStringId (si_payment_method setupIntent) in
  let pledgeId :=
    if falsy (pledgeId resolved) then pledge_id_of (si_metadata setupIntent)
    else pledgeId resolved in
  let pledgeId :=
    if falsy pledgeId && negb (falsy customerId) then
      lookup_by_customer w (text customerId) (pledges d)
    else pledgeId in
  if falsy pledgeId then
    {| response := json (ErrorBody "Unable to locate pledge for this setup") 409;
       db := d;
       calls := issued |}
  else
  if falsy paymentMethodId then
    {| response := json (ErrorBody "Setup completed without payment method") 409;
       db := set_pledges
               (write_pledges w
                  [setup_status_ SetupStatus.failed;
                   error_message_ (Some "Missing payment method on setup completion")]
                  (text pledgeId) (pledges d)) d;
       calls := issued |}
  else
    {| response := json (PledgeBody (text pledgeId)) 200;
       db := set_pledges
               (write_pledges w
                  [stripe_customer_id_ customerId;
                   stripe_payment_method_id_ paymentMethodId;
                   setup_status_ SetupStatus.complete;
                   error_message_ None]
                  (text pledgeId) (pledges d)) d;
       calls := issued |}
  end.

Definition POST (w : World) (req : Outcome Body) (d : Db) : Run :=
  match req with
  | Threw e => reject (json (ErrorBody (message_of e "Request failed")) 500) d
  | Returned body =>
  if negb (isNonEmptyString (session_id body))
     && negb (isNonEmptyString (setup_intent body)) then
    reject (json (ErrorBody "session_id or setup_intent is required") 400) d
  else
  match getStripe w, getSupabaseAdmin w with
  | Threw e, _ | Returned _, Threw e =>
      reject (json (ErrorBody (message_of e "Request failed")) 500) d
  | Returned _, Returned _ =>
  match resolve w body d with
  | inl early => early
  | inr (resolved, issued) => reconcile w resolved issued d
  end end end.

End ConfirmSetup.

(** ** Pledge creation ([pledge/create/route.ts], lines 1-138)

    The file holds two further variants of this handler (lines 139-306 and
    307-594) that add CORS headers and finer error reports around the same
    sequence of guards; the first one is embedded. *)

Module PledgeCreate.

(** The request body after [Number(...)]: [rate_per_1000] is [None] when
    the number is not finite; [cap_amount] is [None] when the field is null,
    undefined or the empty string, and [Some None] when it is not finite. *)
Record Body := {
  campaign_id : option string;
  name : option string;
  email : option string;
  rate_per_1000 : option Q;
  cap_amount : option (option Q)
}.

(** [Math.round(x * 100)] *)
Definition cents (w : World) (x : Q) : Z := Math_round_times_100 w x.

(** [!Number.isFinite(x) || x < 1] *)
Definition below_one (x : option Q) : bool :=
  match x with
  | Some q => negb (Qle_bool 1%Q q)
  | None => true
  end.

Definition new_pledge (id : string) (created_at : Z) (body : Body)
    (ratePer1000Cents : Z) (capAmountCents : option Z) (viewsCap : Z) : Pledge :=
  {| p_id := id;
     p_campaign_id := text (campaign_id body);
     p_name := text (name body);
     p_email := text (email body);
     p_rate_per_1000_cents := ratePer1000Cents;
     p_cap_amount_cents := capAmountCents;
     p_views_cap := viewsCap;
     p_setup_status := SetupStatus.pending;
     p_charge_status := ChargeStatus.not_charged;
     p_stripe_customer_id := None;
     p_stripe_payment_method_id := None;
     p_stripe_payment_intent_id := None;
     p_computed_views := None;
     p_computed_amount_cents := None;
     p_error_message := None;
     p_created_at := created_at |}.

Definition failed_with (e : Thrown) (d : Db) (issued : list ProviderCall) : Run :=
  {| response := json (ErrorBody (message_of e "Request failed")) 500;
     db := d;
     calls := issued |}.

Definition POST (w : World) (req : Outcome Body) (d : Db) : Run :=
  match req with
  | Threw e => failed_with e d []
  | Returned body =>
  if negb (isNonEmptyString (campaign_id body))
     || negb (isNonEmptyString (name body))
     || negb (isNonEmptyString (email body)) then
    reject (json (ErrorBody "Missing required fields") 400) d
  else
  if below_one (rate_per_1000 body) then
    reject (json (ErrorBody "rate_per_1000 must be at least $1") 400) d
  else
  if match cap_amount body with
     | Some capAmount => below_one capAmount
     | None => false
     end then
    reject (json (ErrorBody "cap_amount must be at least $1 when provided") 400) d
  else
  match getSupabaseAdmin w with
  | Threw e => failed_with e d []
  | Returned _ =>
  match (if campaigns_select_error w then None
         else select_campaign (text (campaign_id body)) (campaigns d)) with
  | None => reject (json (ErrorBody "Campaign not found") 404) d
  | Some campaign =>
  if negb (CampaignStatus.eqb (c_status campaign) CampaignStatus.open) then
    reject (json (ErrorBody "Campaign is not accepting new pledges") 400) d
  else
  let viewsCap := views_cap_or_default (c_views_cap campaign) in
  let ratePer1000Cents :=
    match rate_per_1000 body with Some q => cents w q | None => 0 end in
  let capAmountCents :=
    match cap_amount body with
    | Some (Some q) => Some (cents w q)
    | _ => None
    end in
  match pledges_insert w (pledges d) with
  | InsertError message =>
      reject (json (ErrorBody match message with
                              | Some m => m
                              | None => "Failed to create pledge"
                              end) 500) d
  | Inserted id created_at =>
  let d1 := set_pledges
              (pledges d ++ [new_pledge id created_at body ratePer1000Cents
                                        capAmountCents viewsCap])%list d in
  match getStripe w with
  | Threw e => failed_with e d1 []
  | Returned _ =>
  let customer_params :=
    {| cc_email := text (email body); cc_name := text (name body);
       cc_pledge_id := id; cc_campaign_id := text (campaign_id body) |} in
  match customers_create w customer_params with
  | Threw e => failed_with e d1 [customers_create_ customer_params]
  | Returned customer =>
  let session_params :=
    {| sc_mode := "setup";
       sc_customer := customer;
       sc_success_url := SUCCESS_URL w;
       sc_cancel_url := CANCEL_URL w;
       sc_pledge_id := id;
       sc_campaign_id := text (campaign_id body);
       sc_flow := "pledge_setup" |} in
  let issued := [customers_create_ customer_params;
                 checkout_sessions_create_ session_params] in
  match checkout_sessions_create w session_params with
  | Threw e => failed_with e d1 issued
  | Returned url =>
      {| response := json (UrlBody url) 200;
         db := set_pledges
                 (write_pledges w [stripe_customer_id_ (Some customer)] id (pledges d1))
                 d1;
         calls := issued |}
  end end end end end end end.

End PledgeCreate.

(** ** Vocabulary of the properties *)

(** A charge status a charge run leaves behind. *)
Definition settled (s : ChargeStatus.t) : Prop :=
  s = ChargeStatus.charged \/ s = ChargeStatus.skipped
  \/ s = ChargeStatus.failed \/ s = ChargeStatus.requires_action.

(** The store applies every update of the pledges table. *)
Definition applies_pledge_updates (w : World) : Prop :=
  forall patch k rows, pledges_update_error w patch k rows = false.

(** The store applies every update that sets the charge status of the
    pledge [k]. *)
Definition applies_status_updates (w : World) (k : string) : Prop :=
  forall patch rows v,
    In (charge_status_ v) patch -> pledges_update_error w patch k rows = false.

(** The store applies every update of the campaigns table. *)
Definition applies_campaign_updates (w : World) : Prop :=
  forall v k rows, campaigns_update_error w v k rows = false.

(** [tracked P done before after]: the row [after] is the row [before] of
    the same table position; it satisfies [P] when its pledge was processed
    ([done] holds of its id) and is untouched otherwise. *)
Definition tracked (P : Pledge -> Prop) (done : string -> Prop)
    (before after : Pledge) : Prop :=
  p_id after = p_id before
  /\ (done (p_id before) -> P after)
  /\ (~ done (p_id before) -> after = before).

(** What a charge run leaves on a row it processed: a settled charge
    status, provided the store applies the status updates of that pledge. *)
Definition settled_if_applied (w : World) (row : Pledge) : Prop :=
  applies_status_updates w (p_id row) -> settled (p_charge_status row).

Definition total (c : RunCharges.Counts) : Z :=
  RunCharges.charged c + RunCharges.skipped c
  + RunCharges.failed c + RunCharges.requiresAction c.

Definition counts_body (c : RunCharges.Counts) : Body :=
  CountsBody (RunCharges.charged c) (RunCharges.skipped c)
             (RunCharges.failed c) (RunCharges.requiresAction c).

(** What a setup handler asks of the store: nothing, or one patch on the
    rows of one pledge. *)
Definition Plan : Type := option (list PledgeAssign * string).

Definition run_plan (w : World) (plan : Plan) (d : Db) : Db :=
  match plan with
  | Some (patch, k) => set_pledges (write_pledges w patch k (pledges d)) d
  | None => d
  end.

Definition settles_twice (plan : Plan) : Prop :=
  match plan with
  | Some (patch, _) =>
      forall row, apply_patch patch (apply_patch patch row) = apply_patch patch row
  | None => True
  end.

(** The patch that binds a payment method to a pledge. *)
Definition binds (customer method : option string) (k : string) (plan : Plan) : Prop :=
  plan = Some ([stripe_customer_id_ customer; stripe_payment_method_id_ method;
                setup_status_ SetupStatus.complete; error_message_ None], k).

(** [converges d run1 run2]: [run1] started from the tables [d] and
    [run2], the same call again, from the tables [run1] left.  The two
    answer the same and leave the same tables; no row was added or removed;
    and when the answer is the 200 for pledge [k], every row of [k] is
    complete and holds one customer id and one payment method id. *)
Definition converges (d : Db) (run1 run2 : Run) : Prop :=
  response run2 = response run1
  /\ db run2 = db run1
  /\ map p_id (pledges (db run1)) = map p_id (pledges d)
  /\ campaigns (db run1) = campaigns d
  /\ forall k, response run1 = json (PledgeBody k) 200 ->
       exists customer method,
         falsy method = false
         /\ Forall (fun row =>
                      p_id row = k ->
                      p_setup_status row = SetupStatus.complete
                      /\ p_stripe_customer_id row = customer
                      /\ p_stripe_payment_method_id row = method
                      /\ p_error_message row = None)
                   (pledges (db run1)).

(** [bound k customer method d d']: the tables [d'] are the tables [d] with
    every row of pledge [k] complete and holding the given customer id and
    payment method id; no row was added, removed or moved, and every other
    row and the campaigns are as they were. *)
Definition bound (k : string) (customer method : option string) (d d' : Db) : Prop :=
  campaigns d' = campaigns d
  /\ Forall2 (fun before after =>
                p_id after = p_id before
                /\ (p_id before = k ->
                    p_setup_status after = SetupStatus.complete
                    /\ p_stripe_customer_id after = customer
                    /\ p_stripe_payment_method_id after = method)
                /\ (p_id before <> k -> after = before))
             (pledges d) (pledges d').

(** The provider reports, through the checkout session [sessionId], that
    the setup of pledge [k] is finished: the session is of flow
    [pledge_setup], names the pledge, the customer and a setup intent, and
    that setup intent holds the payment method. *)
Definition session_issued (w : World) (sessionId k customer method : string) : Prop :=
  exists session intent setupIntent,
    checkout_sessions_retrieve w sessionId = Returned session
    /\ flow_of (s_metadata session) = Some "pledge_setup"
    /\ pledge_id_of (s_metadata session) = Some k
    /\ getStringId (s_setup_intent session) = Some intent
    /\ getStringId (s_customer session) = Some customer
    /\ setupIntents_retrieve w intent = Returned setupIntent
    /\ getStringId (si_payment_method setupIntent) = Some method
    /\ k <> "" /\ intent <> "" /\ customer <> "" /\ method <> "".

(** The same, reported by the setup intent [intent] alone: its metadata
    name the pledge and it holds the payment method; [customer] is the
    customer it names, if any. *)
Definition intent_issued (w : World) (intent k : string) (customer : option string)
    (method : string) : Prop :=
  exists setupIntent,
    setupIntents_retrieve w intent = Returned setupIntent
    /\ pledge_id_of (si_metadata setupIntent) = Some k
    /\ getStringId (si_customer setupIntent) = customer
    /\ getStringId (si_payment_method setupIntent) = Some method
    /\ k <> "" /\ method <> "".

(** The same, reported by a webhook event: a completed checkout session of
    flow [pledge_setup] that names the pledge, the customer and a setup
    intent which holds the payment method, both as plain ids. *)
Definition event_issued (w : World) (event : Event) (k customer method : string) : Prop :=
  exists intent setupIntent,
    ev_type event = "checkout.session.completed"
    /\ flow_of (es_metadata (ev_object event)) = Some "pledge_setup"
    /\ pledge_id_of (es_metadata (ev_object event)) = Some k
    /\ es_setup_intent (ev_object event) = Some intent
    /\ es_customer (ev_object event) = RefId customer
    /\ setupIntents_retrieve w intent = Returned setupIntent
    /\ si_payment_method setupIntent = RefId method
    /\ k <> "" /\ intent <> "" /\ customer <> "" /\ method <> "".

(** [related f k best best']: the candidates of two scans for the most
    recent row, one over a table and one over the table rewritten by [f];
    either they are the same row, or the second is a row of pledge [k] at
    least as recent as the first. *)
Definition related (f : Pledge -> Pledge) (k : string)
    (best best' : option Pledge) : Prop :=
  best' = option_map f best
  \/ exists u, best' = Some u /\ p_id u = k
               /\ forall b, best = Some b -> p_created_at b <= p_created_at u.

(** ** Sample data *)

Module Sample.

Definition declined : Thrown :=
  {| e_message := Some "Your card was declined.";
     e_code := Some "card_declined";
     e_payment_intent :=
       Some {| pi_id := Some "pi_declined";
               pi_status := Some "requires_payment_method" |} |}.

Definition authentication : Thrown :=
  {| e_message := Some "Authentication required";
     e_code := Some "authentication_required";
     e_payment_intent :=
       Some {| pi_id := Some "pi_auth"; pi_status := Some "requires_action" |} |}.

Definition session (id : string) : Outcome Session :=
  if String.eqb id "cs_1" then
    Returned {| s_metadata :=
                  Some {| md_flow := Some "pledge_setup"; md_pledge_id := Some "p1" |};
                s_setup_intent := RefId "seti_1";
                s_customer := RefId "cus_ok" |}
  else if String.eqb id "cs_2" then
    Returned {| s_metadata :=
                  Some {| md_flow := Some "pledge_setup"; md_pledge_id := Some "p2" |};
                s_setup_intent := RefId "seti_down";
                s_customer := RefId "cus_auth" |}
  else Threw (Error "No such checkout session").

Definition setup_intent (id : string) : Outcome SetupIntent :=
  if String.eqb id "seti_1" then
    Returned {| si_payment_method := RefId "pm_1";
                si_customer := RefId "cus_ok";
                si_metadata := None |}
  else Threw (Error "No such setupintent").

Definition event : Event :=
  {| ev_type := "checkout.session.completed";
     ev_object := {| es_metadata :=
                       Some {| md_flow := Some "pledge_setup";
                               md_pledge_id := Some "p1" |};
                     es_setup_intent := Some "seti_down";
                     es_customer := RefId "cus_ok" |} |}.

(** A world whose store refuses every update ([refuses = true]) or applies
    every update, and whose provider creates customers as given. *)
Definition world_with (refuses : bool) (customers : CustomerCreate -> Outcome string)
    (events : Event) : World :=
  {| ADMIN_PASSWORD := Some "secret";
     SUCCESS_URL := Some "https://example.org/ok";
     CANCEL_URL := Some "https://example.org/cancel";
     STRIPE_WEBHOOK_SECRET := Some "whsec";
     STRIPE_SECRET_KEY := Some "sk_test";
     SUPABASE_URL := Some "https://db.example.org";
     SUPABASE_SERVICE_ROLE_KEY := Some "service";
     campaigns_select_error := false;
     pledges_select_error := None;
     pledges_lookup_error := false;
     pledges_insert := fun _ => Inserted "p9" 9;
     pledges_update_error := fun _ _ _ => refuses;
     campaigns_update_error := fun _ _ _ => refuses;
     Math_round_times_100 := fun x => Qfloor (x * 100 + (1 # 2))%Q;
     paymentIntents_create := fun params =>
       if String.eqb (pic_customer params) "cus_ok" then Returned "pi_ok"
       else if String.eqb (pic_customer params) "cus_auth" then Threw authentication
       else Threw declined;
     checkout_sessions_retrieve := session;
     checkout_sessions_create := fun _ => Returned (Some "https://checkout.example.org/cs_9");
     setupIntents_retrieve := setup_intent;
     customers_create := customers;
     webhooks_constructEvent := fun _ _ _ => Returned events |}.

(** The store applies every update. *)
Definition world : World :=
  world_with false (fun _ => Returned "cus_9") event.

(** The store refuses every update. *)
Definition refusing : World :=
  world_with true (fun _ => Returned "cus_9") event.

(** An event whose setup intent the provider knows. *)
Definition event_ok : Event :=
  {| ev_type := "checkout.session.completed";
     ev_object := {| es_metadata :=
                       Some {| md_flow := Some "pledge_setup";
                               md_pledge_id := Some "p1" |};
                     es_setup_intent := Some "seti_1";
                     es_customer := RefId "cus_ok" |} |}.

Definition pledge (k : string) (rate : Z) (cap : option Z)
    (setup : SetupStatus.t) (customer method : option string) (at_ : Z) : Pledge :=
  {| p_id := k; p_campaign_id := "c1"; p_name := "Ada"; p_email := "ada@example.org";
     p_rate_per_1000_cents := rate; p_cap_amount_cents := cap; p_views_cap := 20000;
     p_setup_status := setup; p_charge_status := ChargeStatus.not_charged;
     p_stripe_customer_id := customer; p_stripe_payment_method_id := method;
     p_stripe_payment_intent_id := None;
     p_computed_views := None; p_computed_amount_cents := None;
     p_error_message := None; p_created_at := at_ |}.

Definition campaign (st : CampaignStatus.t) (final_views : option Z) : Campaign :=
  {| c_id := "c1"; c_name := Some "Spring"; c_views_cap := Some 20000;
     c_final_views := final_views; c_status := st |}.

Definition table : list Pledge :=
  [ pledge "p1" 500 None SetupStatus.complete (Some "cus_ok") (Some "pm_1") 1;
    pledge "p2" 500 (Some 6000) SetupStatus.complete (Some "cus_auth") (Some "pm_2") 2;
    pledge "p3" 500 None SetupStatus.complete (Some "cus_bad") (Some "pm_3") 3;
    pledge "p4" 500 (Some 0) SetupStatus.complete (Some "cus_ok") (Some "pm_4") 4;
    pledge "p5" 500 None SetupStatus.complete None None 5;
    pledge "p6" 500 None SetupStatus.pending (Some "cus_ok") None 6 ].

Definition locked_db : Db :=
  {| campaigns := [campaign CampaignStatus.locked (Some 15000)]; pledges := table |}.

Definition open_db : Db :=
  {| campaigns := [campaign CampaignStatus.open None]; pledges := table |}.

Definition charged_db : Db :=
  {| campaigns := [campaign CampaignStatus.charged (Some 15000)]; pledges := table |}.

(** The open sample campaign with one pledge whose setup is pending. *)
Definition pending_db : Db :=
  {| campaigns := [campaign CampaignStatus.open None];
     pledges := [pledge "p1" 500 None SetupStatus.pending None None 1] |}.

Definition run_request : Outcome RunCharges.Body :=
  Returned {| RunCharges.password := Some "secret"; RunCharges.campaign_id := Some "c1" |}.

End Sample.

(** ** Final view count ([admin/set-views/route.ts]) *)

Module SetViews.

(** [final_views] is [Number(body.final_views)], [None] when it is not
    finite. *)
Record Body := {
  password : option string;
  campaign_id : option string;
  final_views : option Q
}.

(** [{ ok: true }] is [None]; [{ error }] is [Some error]. *)
Record Reply := {
  code : Z;
  error : option string
}.

Record Result := {
  reply : Reply;
  after : Db
}.

Definition fail (message : string) (code : Z) (d : Db) : Result :=
  {| reply := {| code := code; error := Some message |}; after := d |}.

Definition authorized (w : World) (body : Body) : bool :=
  match password body, ADMIN_PASSWORD w with
  | Some a, Some b => String.eqb a b
  | None, None => true
  | _, _ => false
  end.

Definition lock (finalViews : Z) (c : Campaign) : Campaign :=
  {| c_id := c_id c; c_name := c_name c; c_views_cap := c_views_cap c;
     c_final_views := Some finalViews; c_status := CampaignStatus.locked |}.

(** [from("campaigns").update({ final_views, status: "locked" }).eq("id", k)] *)
Definition update_campaign (finalViews : Z) (k : string)
    (rows : list Campaign) : list Campaign :=
  map (fun row => if String.eqb (c_id row) k then lock finalViews row else row) rows.

(** [update_error] is the [error] of the update, which this handler
    reads (lines 45-55). *)
Definition POST (w : World) (update_error : option string)
    (req : Outcome Body) (d : Db) : Result :=
  match req with
  | Threw e => fail (message_of e "Request failed") 500 d
  | Returned body =>
  if negb (authorized w body) then fail "Unauthorized" 401 d
  else
  let campaignId := match campaign_id body with Some s => s | None => "" end in
  if String.eqb campaignId ""
     || match final_views body with
        | Some finalViews => negb (Qle_bool 0%Q finalViews)
        | None => true
        end then
    fail "Invalid input" 400 d
  else
  match getSupabaseAdmin w with
  | Threw e => fail (message_of e "Request failed") 500 d
  | Returned _ =>
  match (if campaigns_select_error w then None
         else select_campaign campaignId (campaigns d)) with
  | None => fail "Campaign not found" 404 d
  | Some campaign =>
  if CampaignStatus.eqb (c_status campaign) CampaignStatus.charged then
    fail "Campaign is already charged" 400 d
  else
  match update_error with
  | Some message => fail message 500 d
  | None =>
      {| reply := {| code := 200; error := None |};
         after := {| campaigns :=
                       update_campaign
                         (match final_views body with
                          | Some finalViews => Qfloor finalViews
                          | None => 0
                          end)
                         campaignId (campaigns d);
                     pledges := pledges d |} |}
  end end end end.

End SetViews.

(** ** One-off donation ([donate-now/create/route.ts]) *)

Module DonateNow.

(** [amount] is [Number(body.amount)], [None] when it is not finite;
    [email] is [None] when the field is not a string. *)
Record Body := {
  amount : option Q;
  email : option string
}.

(** The argument of [stripe.checkout.sessions.create] (lines 28-45). *)
Record SessionParams := {
  mode : string;
  success_url : option string;
  cancel_url : option string;
  customer_email : option string;
  currency : string;
  product_name : string;
  unit_amount : Z;
  quantity : Z;
  flow : string
}.

Record Result := {
  reply : Response;
  created : list SessionParams
}.

Definition POST (w : World)
    (sessions_create : SessionParams -> Outcome (option string))
    (req : Outcome Body) : Result :=
  match req with
  | Threw e =>
      {| reply := json (ErrorBody (message_of e "Request failed")) 500;
         created := [] |}
  | Returned body =>
  match amount body with
  | None =>
      {| reply := json (ErrorBody "Minimum donation is $1") 400; created := [] |}
  | Some amount =>
  if negb (Qle_bool 1%Q amount) then
    {| reply := json (ErrorBody "Minimum donation is $1") 400; created := [] |}
  else
  let amountCents := PledgeCreate.cents w amount in
  match getStripe w with
  | Threw e =>
      {| reply := json (ErrorBody (message_of e "Request failed")) 500;
         created := [] |}
  | Returned _ =>
  let params :=
    {| mode := "payment";
       success_url := SUCCESS_URL w;
       cancel_url := CANCEL_URL w;
       customer_email := email body;
       currency := "usd";
       product_name := "Donation";
       unit_amount := amountCents;
       quantity := 1;
       flow := "donate_now" |} in
  match sessions_create params with
  | Threw e =>
      {| reply := json (ErrorBody (message_of e "Request failed")) 500;
         created := [params] |}
  | Returned url =>
      {| reply := json (UrlBody url) 200; created := [params] |}
  end end end end.

End DonateNow.

(** ** CORS headers of the public handlers ([src/unnamed/part_001] and
       [part_002], lines 8-31) *)

Module Cors.

(** The two request headers [corsHeaders] reads; [None] when absent. *)
Record Request := {
  origin : option string;
  access_control_request_headers : option string
}.

Record Headers := {
  Access_Control_Allow_Origin : string;
  Access_Control_Allow_Methods : string;
  Access_Control_Allow_Headers : string;
  Access_Control_Max_Age : string;
  Vary : string
}.

Definition allowed : list string :=
  ["https://www.sixplusone.com"; "https://sixplusone.com";
   "http://localhost:3000"; "http://localhost:5173"].

Definition corsHeaders (req : Request) : Headers :=
  let origin := match origin req with Some o => o | None => "" end in
  let requestHeaders := access_control_request_headers req in
  let allowOrigin :=
    if existsb (String.eqb origin) allowed then origin
    else "https://www.sixplusone.com" in
  {| Access_Control_Allow_Origin := allowOrigin;
     Access_Control_Allow_Methods := "POST, OPTIONS";
     Access_Control_Allow_Headers :=
       match requestHeaders with Some h => h | None => "Content-Type" end;
     Access_Control_Max_Age := "86400";
     Vary := "Origin, Access-Control-Request-Headers" |}.

(** [new NextResponse(null, { status: 204, headers: corsHeaders(req) })] *)
Definition OPTIONS (req : Request) : Z * Headers := (204, corsHeaders req).

End Cors.

(** ** The cached clients ([src/unnamed/part_000],
       [src/lib/supabaseAdmin.ts])

    A client is identified by the configuration it was built from; the
    module variable [cached] is threaded through the calls. *)

Module Clients.

Record Env := {
  env_STRIPE_SECRET_KEY : option string;
  env_SUPABASE_URL : option string;
  env_SUPABASE_SERVICE_ROLE_KEY : option string
}.

Definition getStripe (env : Env) (cached : option string)
    : Outcome string * option string :=
  match cached with
  | Some client => (Returned client, cached)
  | None =>
      if falsy (env_STRIPE_SECRET_KEY env) then
        (Threw (Error "Missing STRIPE_SECRET_KEY"), None)
      else
        let client := text (env_STRIPE_SECRET_KEY env) in
        (Returned client, Some client)
  end.

Definition getSupabaseAdmin (env : Env) (cached : option (string * string))
    : Outcome (string * string) * option (string * string) :=
  match cached with
  | Some client => (Returned client, cached)
  | None =>
      if falsy (env_SUPABASE_URL env) || falsy (env_SUPABASE_SERVICE_ROLE_KEY env) then
        (Threw (Error "Missing SUPABASE_URL or SUPABASE_SERVICE_ROLE_KEY"), None)
      else
        let client := (text (env_SUPABASE_URL env),
                       text (env_SUPABASE_SERVICE_ROLE_KEY env)) in
        (Returned client, Some client)
  end.

(** Successive calls of [getStripe], one per environment of the list,
    starting from the given cache: the results, in order. *)
Fixpoint stripe_calls (envs : list Env) (cached : option string)
    : list (Outcome string) :=
  match envs with
  | [] => []
  | env :: rest =>
      let (result, cached') := getStripe env cached in
      result :: stripe_calls rest cached'
  end.

End Clients.

(** ** Vocabulary of the further properties *)

(** The columns a charge run never writes. *)
Definition same_terms (before after : Pledge) : Prop :=
  p_id after = p_id before
  /\ p_campaign_id after = p_campaign_id before
  /\ p_name after = p_name before
  /\ p_email after = p_email before
  /\ p_rate_per_1000_cents after = p_rate_per_1000_cents before
  /\ p_cap_amount_cents after = p_cap_amount_cents before
  /\ p_views_cap after = p_views_cap before
  /\ p_setup_status after = p_setup_status before
  /\ p_stripe_customer_id after = p_stripe_customer_id before
  /\ p_stripe_payment_method_id after = p_stripe_payment_method_id before
  /\ p_created_at after = p_created_at before.

(** The columns setup reconciliation never writes. *)
Definition same_charge_side (before after : Pledge) : Prop :=
  p_id after = p_id before
  /\ p_campaign_id after = p_campaign_id before
  /\ p_name after = p_name before
  /\ p_email after = p_email before
  /\ p_rate_per_1000_cents after = p_rate_per_1000_cents before
  /\ p_cap_amount_cents after = p_cap_amount_cents before
  /\ p_views_cap after = p_views_cap before
  /\ p_charge_status after = p_charge_status before
  /\ p_stripe_payment_intent_id after = p_stripe_payment_intent_id before
  /\ p_computed_views after = p_computed_views before
  /\ p_computed_amount_cents after = p_computed_amount_cents before
  /\ p_created_at after = p_created_at before.

(** [recorded finalViews viewsCap xs row]: the row carries what the charge
    run wrote for one of the selected pledges [xs] with its id: the counted
    views, the amount computed for that pledge, and a charge status that
    agrees with them. *)
Definition recorded (finalViews viewsCap : Z) (xs : list RunCharges.Selected)
    (row : Pledge) : Prop :=
  exists x,
    In x xs
    /\ RunCharges.id x = p_id row
    /\ p_computed_views row = Some (Z.min finalViews viewsCap)
    /\ p_computed_amount_cents row
       = Some (Amount.amountCents (RunCharges.amount_of finalViews viewsCap x))
    /\ (p_charge_status row = ChargeStatus.skipped
        <-> Amount.amountCents (RunCharges.amount_of finalViews viewsCap x) <= 0)
    /\ (p_charge_status row = ChargeStatus.charged ->
        p_stripe_payment_intent_id row <> None /\ p_error_message row = None)
    /\ (p_charge_status row = ChargeStatus.failed
        \/ p_charge_status row = ChargeStatus.requires_action ->
        p_error_message row <> None).


(** The rounding of the runtime takes every amount of at least one dollar
    to at least 100 cents. *)
Definition rounds_dollars_up (w : World) : Prop :=
  forall q, Qle_bool 1%Q q = true -> 100 <= Math_round_times_100 w q.

(** Two worlds that differ at most in what the store does with updates:
    what the charge run reads of the environment, of the store's selects
    and of the provider is the same in both. *)
Definition same_but_updates (w w' : World) : Prop :=
  ADMIN_PASSWORD w' = ADMIN_PASSWORD w
  /\ STRIPE_SECRET_KEY w' = STRIPE_SECRET_KEY w
  /\ SUPABASE_URL w' = SUPABASE_URL w
  /\ SUPABASE_SERVICE_ROLE_KEY w' = SUPABASE_SERVICE_ROLE_KEY w
  /\ campaigns_select_error w' = campaigns_select_error w
  /\ pledges_select_error w' = pledges_select_error w
  /\ forall params, paymentIntents_create w' params = paymentIntents_create w params.

(** The assignments setup reconciliation makes. *)
Definition is_setup_assign (a : PledgeAssign) : Prop :=
  match a with
  | setup_status_ _ | stripe_customer_id_ _ | stripe_payment_method_id_ _
  | error_message_ _ => True
  | _ => False
  end.

Definition setup_only (plan : Plan) : Prop :=
  match plan with
  | Some (patch, _) => Forall is_setup_assign patch
  | None => True
  end.

(** The pledge a plan writes to, if any. *)
Definition target (plan : Plan) : option string :=
  match plan with
  | Some (_, k) => Some k
  | None => None
  end.

(** * Properties *)

(** ** Amount calculator *)

Lemma minimum_charge_cases (a : Z) :
  (if (a >? 0) && (a <? 100) then 100 else a) = 100 /\ 0 < a < 100
  \/ (if (a >? 0) && (a <? 100) then 100 else a) = a /\ ~ 0 < a < 100.
Proof.
  destruct (Z.gtb_spec a 0); destruct (Z.ltb_spec a 100); simpl;
    solve [left; lia | right; lia].
Qed.

(** C1.  [computeAmountCents] counts [min(finalViews, viewsCap)] views and
    bills whole thousands of them at the pledged rate, capped by the donor's
    cap when one is set; a result strictly between 0 and 100 becomes 100 and
    every other result, an exact zero included, is kept.  It holds for all
    integers, hence for the non-negative and positive ones of the contract. *)
Theorem computeAmount_algorithm (finalViews viewsCap ratePer1000Cents : Z)
    (donorCapCents : option Z) :
  let result :=
    Amount.computeAmountCents
      {| Amount.finalViews := finalViews; Amount.viewsCap := viewsCap;
         Amount.ratePer1000Cents := ratePer1000Cents;
         Amount.donorCapCents := donorCapCents |} in
  let countedViews := Z.min finalViews viewsCap in
  let units := countedViews / 1000 in
  let amount := units * ratePer1000Cents in
  let capped :=
    match donorCapCents with
    | Some cap => Z.min amount cap
    | None => amount
    end in
  Amount.computedViews result = countedViews
  /\ 1000 * units <= countedViews < 1000 * units + 1000
  /\ (0 < capped < 100 -> Amount.amountCents result = 100)
  /\ (capped = 0 -> Amount.amountCents result = 0)
  /\ (~ 0 < capped < 100 -> Amount.amountCents result = capped).
Proof.
  cbv zeta. split; [reflexivity|]. split.
  - pose proof (Z.div_mod (Z.min finalViews viewsCap) 1000 ltac:(lia)) as E.
    pose proof (Z.mod_pos_bound (Z.min finalViews viewsCap) 1000 ltac:(lia)). lia.
  - unfold Amount.computeAmountCents.
    cbn [Amount.computedViews Amount.amountCents Amount.finalViews Amount.viewsCap
         Amount.ratePer1000Cents Amount.donorCapCents].
    set (capped := match donorCapCents with Some c => _ | None => _ end).
    destruct (minimum_charge_cases capped) as [[-> ?]|[-> ?]];
      repeat split; intros; lia.
Qed.

(** C2, as amended.  With a donor cap of at least 100 cents, the least cap
    pledge creation stores, the amount never exceeds the cap. *)
Theorem computeAmount_within_cap (finalViews viewsCap ratePer1000Cents cap : Z) :
  100 <= cap ->
  Amount.amountCents
    (Amount.computeAmountCents
       {| Amount.finalViews := finalViews; Amount.viewsCap := viewsCap;
          Amount.ratePer1000Cents := ratePer1000Cents;
          Amount.donorCapCents := Some cap |})
  <= cap.
Proof.
  intros Hc. unfold Amount.computeAmountCents.
  cbn [Amount.amountCents Amount.finalViews Amount.viewsCap
       Amount.ratePer1000Cents Amount.donorCapCents].
  set (capped := Z.min _ cap).
  destruct (minimum_charge_cases capped) as [[-> ?]|[-> ?]]; subst capped; lia.
Qed.

(** C2, witness: Scenario D of the design (30000 views, cap 20000, rate 500,
    donor cap 6000). *)
Lemma computeAmount_within_cap_witness :
  100 <= 6000
  /\ Amount.amountCents
       (Amount.computeAmountCents
          {| Amount.finalViews := 30000; Amount.viewsCap := 20000;
             Amount.ratePer1000Cents := 500; Amount.donorCapCents := Some 6000 |})
     <= 6000.
Proof.
  split; [lia|].
  apply (computeAmount_within_cap 30000 20000 500 6000). lia.
Defined.

(** C2, as stated, fails: a positive donor cap below 100 is exceeded by the
    minimum charge (1000 views at 100 cents, cap 50: the amount is 100). *)
Lemma computeAmount_cap_exceeded :
  ~ (forall fv vc rate c : Z,
        0 <= fv -> 0 < vc -> 0 < rate -> 0 < c ->
        Amount.amountCents
          (Amount.computeAmountCents
             {| Amount.finalViews := fv; Amount.viewsCap := vc;
                Amount.ratePer1000Cents := rate; Amount.donorCapCents := Some c |})
        <= c).
Proof.
  intros H.
  specialize (H 1000 20000 100 50 ltac:(lia) ltac:(lia) ltac:(lia) ltac:(lia)).
  vm_compute in H. apply H. reflexivity.
Qed.

(** ** Tables *)

Lemma assign_id (a : PledgeAssign) (p : Pledge) : p_id (assign a p) = p_id p.
Proof. destruct a; reflexivity. Qed.

Lemma apply_patch_id (patch : list PledgeAssign) (p : Pledge) :
  p_id (apply_patch patch p) = p_id p.
Proof.
  unfold apply_patch. revert p.
  induction patch as [|a patch IH]; intros p; simpl; [reflexivity|].
  rewrite IH. apply assign_id.
Qed.

Lemma Forall2_compose {A : Type} (P Q R : A -> A -> Prop) (l1 l2 l3 : list A) :
  (forall a b c, P a b -> Q b c -> R a c) ->
  Forall2 P l1 l2 -> Forall2 Q l2 l3 -> Forall2 R l1 l3.
Proof.
  intros HR H12. revert l3.
  induction H12 as [|a b l1 l2 Hab _ IH]; intros l3 H23; inversion H23; subst.
  - constructor.
  - constructor; eauto.
Qed.

Lemma Forall2_same {A : Type} (P : A -> A -> Prop) (l : list A) :
  (forall a, P a a) -> Forall2 P l l.
Proof. intros H. induction l; constructor; auto. Qed.

Lemma Forall2_In_left {A : Type} (P : A -> A -> Prop) (l1 l2 : list A) :
  Forall2 P l1 l2 -> Forall2 (fun b a => In b l1 /\ P b a) l1 l2.
Proof.
  induction 1 as [|b a l1 l2 H _ IH]; constructor.
  - split; [left; reflexivity | exact H].
  - eapply Forall2_impl; [|exact IH]. intros x y [Hx Hy].
    split; [right; exact Hx | exact Hy].
Qed.

(** Two updates on the same key, row by row. *)
Lemma update_pledges_twice (P : Pledge -> Pledge -> Prop)
    (p1 p2 : list PledgeAssign) (k : string) (rows : list Pledge) :
  (forall row, P row (apply_patch p2 (apply_patch p1 row))) ->
  Forall2 (fun b a => if String.eqb (p_id b) k then P b a else a = b)
          rows (update_pledges p2 k (update_pledges p1 k rows)).
Proof.
  intros HP. unfold update_pledges.
  induction rows as [|row rows IH]; simpl; constructor; [|exact IH].
  destruct (String.eqb (p_id row) k) eqn:E.
  - rewrite apply_patch_id, E. apply HP.
  - rewrite E. reflexivity.
Qed.

Lemma update_pledges_rows (P : Pledge -> Pledge -> Prop)
    (patch : list PledgeAssign) (k : string) (rows : list Pledge) :
  (forall row, P row (apply_patch patch row)) ->
  Forall2 (fun b a => if String.eqb (p_id b) k then P b a else a = b)
          rows (update_pledges patch k rows).
Proof.
  intros HP. unfold update_pledges.
  induction rows as [|row rows IH]; simpl; constructor; [|exact IH].
  destruct (String.eqb (p_id row) k); [apply HP | reflexivity].
Qed.

Lemma write_pledges_applied (w : World) (patch : list PledgeAssign) (k : string)
    (rows : list Pledge) :
  pledges_update_error w patch k rows = false ->
  write_pledges w patch k rows = update_pledges patch k rows.
Proof. intros E. unfold write_pledges. rewrite E. reflexivity. Qed.

Lemma write_pledges_refused (w : World) (patch : list PledgeAssign) (k : string)
    (rows : list Pledge) :
  pledges_update_error w patch k rows = true ->
  write_pledges w patch k rows = rows.
Proof. intros E. unfold write_pledges. rewrite E. reflexivity. Qed.

(** One write, applied or refused, row by row. *)
Lemma write_pledges_rows (P : Pledge -> Pledge -> Prop) (w : World)
    (patch : list PledgeAssign) (k : string) (rows : list Pledge) :
  (forall row, P row row) ->
  (forall row, P row (apply_patch patch row)) ->
  Forall2 (fun b a => if String.eqb (p_id b) k then P b a else a = b)
          rows (write_pledges w patch k rows).
Proof.
  intros H0 H1. unfold write_pledges.
  destruct (pledges_update_error w patch k rows).
  - apply Forall2_same. intros row.
    destruct (String.eqb (p_id row) k); [apply H0 | reflexivity].
  - apply update_pledges_rows, H1.
Qed.

(** Two writes on the same key, each applied or refused, row by row; what
    is known of the rows may depend on the fate of the second write. *)
Lemma write_pledges_twice (P : Pledge -> Pledge -> Prop) (w : World)
    (p1 p2 : list PledgeAssign) (k : string) (rows : list Pledge) :
  (pledges_update_error w p2 k (write_pledges w p1 k rows) = true ->
   forall row, P row row /\ P row (apply_patch p1 row)) ->
  (pledges_update_error w p2 k (write_pledges w p1 k rows) = false ->
   forall row, P row (apply_patch p2 row)
               /\ P row (apply_patch p2 (apply_patch p1 row))) ->
  Forall2 (fun b a => if String.eqb (p_id b) k then P b a else a = b)
          rows (write_pledges w p2 k (write_pledges w p1 k rows)).
Proof.
  intros H1 H2.
  destruct (pledges_update_error w p2 k (write_pledges w p1 k rows)) eqn:E2.
  - rewrite (write_pledges_refused _ _ _ _ E2). specialize (H1 eq_refl).
    apply write_pledges_rows; intros row; apply H1.
  - rewrite (write_pledges_applied _ _ _ _ E2). specialize (H2 eq_refl).
    unfold write_pledges. destruct (pledges_update_error w p1 k rows).
    + apply update_pledges_rows. intros row. apply H2.
    + apply update_pledges_twice. intros row. apply H2.
Qed.

Lemma write_campaign_status_applied (w : World) (v : CampaignStatus.t) (k : string)
    (rows : list Campaign) :
  campaigns_update_error w v k rows = false ->
  write_campaign_status w v k rows = update_campaign_status v k rows.
Proof. intros E. unfold write_campaign_status. rewrite E. reflexivity. Qed.

Lemma filter_update_campaign_status (v : CampaignStatus.t) (k : string)
    (rows : list Campaign) :
  filter (fun row => String.eqb (c_id row) k) (update_campaign_status v k rows)
  = map (set_campaign_status v) (filter (fun row => String.eqb (c_id row) k) rows).
Proof.
  unfold update_campaign_status.
  induction rows as [|row rows IH]; simpl; [reflexivity|].
  destruct (String.eqb (c_id row) k) eqn:E; simpl; rewrite E, IH; reflexivity.
Qed.

Lemma select_updated_campaign (v : CampaignStatus.t) (k : string)
    (rows : list Campaign) :
  select_campaign k (update_campaign_status v k rows)
  = option_map (set_campaign_status v) (select_campaign k rows).
Proof.
  unfold select_campaign. rewrite filter_update_campaign_status.
  destruct (filter _ rows) as [|c [|c' l]]; reflexivity.
Qed.

Lemma update_campaign_status_twice (v : CampaignStatus.t) (k : string)
    (rows : list Campaign) :
  update_campaign_status v k (update_campaign_status v k rows)
  = update_campaign_status v k rows.
Proof.
  unfold update_campaign_status. rewrite map_map. apply map_ext.
  intros row. destruct (String.eqb (c_id row) k) eqn:E; simpl; rewrite E; reflexivity.
Qed.

(** ** Charge run *)

Section ChargeRun.
Import RunCharges.

Variables (w : World) (campaign : Campaign) (campaignId : string)
          (finalViews viewsCap : Z).

Let step := charge_pledge w campaign campaignId finalViews viewsCap.

(** One iteration leaves the rows of every other pledge alone and keeps the
    ids of the rows of the pledge it processes; it settles their charge
    status when the store applies the status update. *)
Lemma charge_pledge_rows (st : Loop) (x : Selected) :
  Forall2 (fun b a => if String.eqb (p_id b) (id x)
                      then p_id a = p_id b /\ settled_if_applied w a
                      else a = b)
          (rows st) (rows (step st x)).
Proof.
  subst step. unfold charge_pledge.
  destruct (_ <=? 0); [|destruct (_ || _); [|destruct (paymentIntents_create _ _);
    [|destruct (needsAction _)]]]; cbn [rows].
  all: (eapply Forall2_impl;
    [|apply write_pledges_twice with
        (P := fun b a => String.eqb (p_id b) (id x) = true ->
                         p_id a = p_id b /\ settled_if_applied w a)];
    [intros b0 a0 H0; cbv beta in H0;
     destruct (String.eqb (p_id b0) (id x)); auto| |]).
  all: intros E row; split; intros Hrow; apply String.eqb_eq in Hrow;
    (split; [rewrite ?apply_patch_id; reflexivity|]);
    unfold settled_if_applied; rewrite ?apply_patch_id, Hrow; intros A;
    first [ solve [cbn; unfold settled; tauto]
          | exfalso; rewrite A in E; [discriminate E | left; reflexivity] ].
Qed.

(** One iteration adds one to exactly one of the four counters. *)
Lemma charge_pledge_counts (st : Loop) (x : Selected) :
  counts (step st x) = incr_charged (counts st)
  \/ counts (step st x) = incr_skipped (counts st)
  \/ counts (step st x) = incr_failed (counts st)
  \/ counts (step st x) = incr_requiresAction (counts st).
Proof.
  subst step. unfold charge_pledge.
  destruct (_ <=? 0); [|destruct (_ || _); [|destruct (paymentIntents_create _ _);
    [|destruct (needsAction _)]]]; cbn [counts]; tauto.
Qed.

Lemma charge_pledge_total (st : Loop) (x : Selected) :
  total (counts (step st x)) = total (counts st) + 1.
Proof.
  destruct (charge_pledge_counts st x) as [E|[E|[E|E]]]; rewrite E;
    unfold total; simpl; lia.
Qed.

Lemma loop_total (xs : list Selected) (st : Loop) :
  total (counts (fold_left step xs st)) = total (counts st) + Z.of_nat (List.length xs).
Proof.
  revert st. induction xs as [|x xs IH]; intros st.
  - simpl. lia.
  - cbn [fold_left]. rewrite IH, charge_pledge_total.
    cbn [List.length]. lia.
Qed.

Lemma loop_counts_nonneg (xs : list Selected) (st : Loop) :
  let c := counts st in
  let c' := counts (fold_left step xs st) in
  charged c <= charged c' /\ skipped c <= skipped c'
  /\ failed c <= failed c' /\ requiresAction c <= requiresAction c'.
Proof.
  revert st. induction xs as [|x xs IH]; intros st; cbn zeta.
  - simpl. lia.
  - cbn [fold_left]. specialize (IH (step st x)). cbn zeta in IH.
    destruct (charge_pledge_counts st x) as [E|[E|[E|E]]]; rewrite E in IH;
      simpl in IH; lia.
Qed.

Section Tracking.

(** What every iteration over a pledge of [all] leaves on the rows of that
    pledge. *)
Variables (P : Pledge -> Prop) (all : list Selected).

Hypothesis step_rows :
  forall st x, In x all ->
    Forall2 (fun b a => if String.eqb (p_id b) (id x)
                        then p_id a = p_id b /\ P a
                        else a = b)
            (rows st) (rows (step st x)).

Lemma tracked_step (done : string -> Prop) (x : Selected) (r s t : Pledge) :
  tracked P done r s ->
  (if String.eqb (p_id s) (id x) then p_id t = p_id s /\ P t else t = s) ->
  tracked P (fun k => k = id x \/ done k) r t.
Proof.
  intros (Hid & Hdone & Hkeep) Hst. rewrite Hid in Hst.
  destruct (String.eqb_spec (p_id r) (id x)) as [E|E].
  - destruct Hst as [Hid' Hs]. repeat split.
    + congruence.
    + intros _. exact Hs.
    + intros N. exfalso. apply N. left. exact E.
  - subst t. repeat split.
    + exact Hid.
    + intros [K|K]; [contradiction | auto].
    + intros N. apply Hkeep. intros K. apply N. right. exact K.
Qed.

(** The loop invariant: after the pledges [xs], every row of a processed
    pledge satisfies [P] and every other row is as it was. *)
Lemma loop_tracked (xs : list Selected) (st : Loop) (before : list Pledge)
    (done : string -> Prop) :
  incl xs all ->
  Forall2 (tracked P done) before (rows st) ->
  Forall2 (tracked P (fun k => In k (map id xs) \/ done k))
          before (rows (fold_left step xs st)).
Proof.
  revert st done. induction xs as [|x xs IH]; intros st done I H.
  - simpl. eapply Forall2_impl; [|exact H].
    intros b a (Hid & Hd & Hk). repeat split; [exact Hid| |].
    + intros [[]|K]. auto.
    + intros N. apply Hk. intros K. apply N. right. exact K.
  - cbn [fold_left].
    assert (H1 : Forall2 (tracked P (fun k => k = id x \/ done k))
                         before (rows (step st x))).
    { eapply Forall2_compose;
        [|exact H|apply step_rows; apply I; left; reflexivity].
      intros r s t. apply tracked_step. }
    assert (I' : incl xs all) by (intros y Hy; apply I; right; exact Hy).
    specialize (IH _ _ I' H1).
    eapply Forall2_impl; [|exact IH].
    intros b a (Hid & Hd & Hk). repeat split; [exact Hid| |].
    + intros [K|K]; apply Hd.
      * simpl in K. destruct K as [K|K]; [right; left; auto | left; exact K].
      * right. right. exact K.
    + intros N. apply Hk. intros [K|[K|K]]; apply N.
      * left. simpl. right. exact K.
      * left. simpl. left. auto.
      * right. exact K.
Qed.

(** The whole loop, from the table as the run found it. *)
Lemma loop_tracked_from_start (before : list Pledge) :
  Forall2 (tracked P (fun k => In k (map id all)))
          before
          (rows (fold_left step all {| counts := zero; rows := before; issued := [] |})).
Proof.
  eapply Forall2_impl;
    [|apply loop_tracked with (done := fun _ => False); [apply incl_refl|cbn [rows]]].
  - intros b a (Ha & Hd & Hk). repeat split; [exact Ha| |].
    + intros K. apply Hd. left. exact K.
    + intros N. apply Hk. intros [K|[]]. contradiction.
  - apply Forall2_same. intros a. repeat split; tauto.
Qed.

End Tracking.

Lemma loop_settles (xs : list Selected) (before : list Pledge) :
  Forall2 (tracked (settled_if_applied w) (fun k => In k (map id xs)))
          before
          (rows (fold_left step xs {| counts := zero; rows := before; issued := [] |})).
Proof.
  apply loop_tracked_from_start. intros st x _. apply charge_pledge_rows.
Qed.

Lemma selected_id (p : Pledge) (before : list Pledge) :
  In p before -> eligible campaignId p = true ->
  In (p_id p) (map id (select_eligible campaignId before)).
Proof.
  intros Hin He. unfold select_eligible. rewrite map_map.
  apply in_map_iff. exists p. split; [reflexivity|].
  apply filter_In. split; assumption.
Qed.

(** Once the selected pledges are processed by a store that applies the
    status updates, the filter selects nothing. *)
Lemma loop_leaves_none_eligible (before after : list Pledge) :
  (forall k, applies_status_updates w k) ->
  Forall2 (tracked (settled_if_applied w)
                   (fun k => In k (map id (select_eligible campaignId before))))
          before after ->
  select_eligible campaignId after = [].
Proof.
  intros A H. apply Forall2_In_left in H.
  set (ids := map id (select_eligible campaignId before)) in H.
  set (R := fun b a => In b before
                       /\ tracked (settled_if_applied w) (fun k => In k ids) b a) in H.
  assert (K : forall b a, R b a -> eligible campaignId a = false).
  { intros b a (Hin & _ & Hd & Hk).
    destruct (in_dec string_dec (p_id b) ids) as [I|I].
    - unfold eligible. destruct (Hd I (A _)) as [S|[S|[S|S]]]; rewrite S;
        simpl; apply andb_false_r.
    - rewrite (Hk I). destruct (eligible campaignId b) eqn:E; [|reflexivity].
      exfalso. apply I. apply selected_id; assumption. }
  clearbody R. clear ids. unfold select_eligible.
  induction H as [|b a l1 l2 Hba _ IH]; [reflexivity|].
  simpl. rewrite (K b a Hba). exact IH.
Qed.

End ChargeRun.

Section ChargeRunRoute.
Import RunCharges.

Variables (w : World) (req : Outcome Body) (d : Db).

(** What a run that answers 200 went through. *)
Lemma POST_completed :
  status (response (POST w req d)) = 200 ->
  exists body campaignId campaign finalViews,
    (req = Returned body
     /\ campaign_id body = Some campaignId
     /\ select_campaign campaignId (campaigns d) = Some campaign
     /\ c_final_views campaign = Some finalViews)
    /\ (getStripe w = Returned tt
        /\ getSupabaseAdmin w = Returned tt
        /\ authorized w body = true
        /\ String.eqb campaignId "" = false
        /\ campaigns_select_error w = false
        /\ pledges_select_error w = None)
    /\ POST w req d =
       let st := fold_left
                   (charge_pledge w campaign campaignId finalViews
                      (views_cap_or_default (c_views_cap campaign)))
                   (select_eligible campaignId (pledges d))
                   {| counts := zero; rows := pledges d; issued := [] |} in
       {| response := json (counts_body (counts st)) 200;
          db := {| campaigns := write_campaign_status w CampaignStatus.charged
                                  campaignId (campaigns d);
                   pledges := rows st |};
          calls := issued st |}.
Proof.
  unfold POST.
  destruct (getStripe w) as [[]|]; [|discriminate].
  destruct (getSupabaseAdmin w) as [[]|]; [|discriminate].
  destruct req as [body|]; [|discriminate].
  destruct (authorized w body) eqn:Ea; [|discriminate].
  destruct (campaign_id body) as [campaignId|] eqn:Ei; [|discriminate].
  destruct (String.eqb campaignId "") eqn:En; [discriminate|].
  destruct (campaigns_select_error w) eqn:Es; [discriminate|].
  destruct (select_campaign campaignId (campaigns d)) as [campaign|] eqn:Ec;
    [|discriminate].
  destruct (c_final_views campaign) as [finalViews|] eqn:Ef; [|discriminate].
  destruct (pledges_select_error w); [discriminate|].
  intros _. exists body, campaignId, campaign, finalViews.
  cbn [negb]. repeat split; try reflexivity; assumption.
Qed.

End ChargeRunRoute.

Section ChargeRunClaims.
Import RunCharges.

Variables (w : World) (req : Outcome Body) (d : Db).

Let run := POST w req d.

(** C10.  Each iteration of the loop adds one to exactly one of the four
    counters, and a run that completes reports counts whose sum is the
    number of pledges the eligibility filter selected at loop start. *)
Theorem charge_run_counts_partition :
  status (response run) = 200 ->
  exists body campaignId c,
    req = Returned body
    /\ campaign_id body = Some campaignId
    /\ response run = json (counts_body c) 200
    /\ 0 <= charged c /\ 0 <= skipped c /\ 0 <= failed c /\ 0 <= requiresAction c
    /\ charged c + skipped c + failed c + requiresAction c
       = Z.of_nat (List.length (select_eligible campaignId (pledges d)))
    /\ forall campaign finalViews viewsCap st pledge,
         let c' := counts (charge_pledge w campaign campaignId finalViews viewsCap st pledge) in
         c' = incr_charged (counts st) \/ c' = incr_skipped (counts st)
         \/ c' = incr_failed (counts st) \/ c' = incr_requiresAction (counts st).
Proof.
  intros H. subst run.
  destruct (POST_completed w req d H)
    as (body & campaignId & campaign & finalViews & (-> & Hid & _ & _) & _ & E).
  rewrite E. cbv zeta. cbn [response].
  set (step := charge_pledge _ _ _ _ _).
  set (st0 := {| counts := zero; rows := pledges d; issued := [] |}).
  exists body, campaignId, (counts (fold_left step (select_eligible campaignId (pledges d)) st0)).
  pose proof (loop_total w campaign campaignId finalViews
                (views_cap_or_default (c_views_cap campaign))
                (select_eligible campaignId (pledges d)) st0) as Ht.
  pose proof (loop_counts_nonneg w campaign campaignId finalViews
                (views_cap_or_default (c_views_cap campaign))
                (select_eligible campaignId (pledges d)) st0) as Hn.
  cbv zeta in Hn. fold step in Ht, Hn. unfold total in Ht. simpl in Ht, Hn.
  repeat split; try tauto; try lia.
  intros. apply charge_pledge_counts.
Qed.

(** C3, as amended.  After a run that completes, the pledges table has
    the same rows in the same places, and every row that was eligible when
    the run started (its campaign, setup complete, not charged) and whose
    status updates the store applies now carries one of charged, skipped,
    failed, requires_action. *)
Theorem charge_run_settles_eligible :
  status (response run) = 200 ->
  exists body campaignId,
    req = Returned body
    /\ campaign_id body = Some campaignId
    /\ Forall2 (fun before after =>
                  p_id after = p_id before
                  /\ (eligible campaignId before = true ->
                      applies_status_updates w (p_id before) ->
                      p_charge_status after <> ChargeStatus.not_charged
                      /\ settled (p_charge_status after)))
               (pledges d) (pledges (db run)).
Proof.
  intros H. subst run.
  destruct (POST_completed w req d H)
    as (body & campaignId & campaign & finalViews & (-> & Hid & _ & _) & _ & E).
  rewrite E. cbv zeta. cbn [db pledges].
  exists body, campaignId. repeat split; [exact Hid|].
  eapply Forall2_impl; [|apply Forall2_In_left, loop_settles].
  intros b a (Hin & Ha & Hd & _). split; [exact Ha|]. intros Hb A.
  assert (S : settled (p_charge_status a)).
  { apply Hd; [apply selected_id; assumption | rewrite Ha; exact A]. }
  split; [|exact S].
  destruct S as [S|[S|[S|S]]]; rewrite S; discriminate.
Qed.

(** C4, as amended.  When the store applies the updates of the run, a run
    that completes leaves the campaign charged, whatever happened to each
    pledge, and the same request run again at once selects no pledge,
    issues no charge, changes nothing and reports four zeros. *)
Theorem charge_run_terminal_and_repeatable :
  applies_campaign_updates w ->
  (forall k, applies_status_updates w k) ->
  status (response run) = 200 ->
  exists body campaignId campaign,
    req = Returned body
    /\ campaign_id body = Some campaignId
    /\ select_campaign campaignId (campaigns (db run)) = Some campaign
    /\ c_status campaign = CampaignStatus.charged
    /\ Forall (fun c => c_id c = campaignId -> c_status c = CampaignStatus.charged)
              (campaigns (db run))
    /\ select_eligible campaignId (pledges (db run)) = []
    /\ POST w req (db run)
       = {| response := json (CountsBody 0 0 0 0) 200; db := db run; calls := [] |}.
Proof.
  intros Ac Ap H. subst run.
  destruct (POST_completed w req d H)
    as (body & campaignId & campaign & finalViews & (-> & Hid & Hc & Hf)
        & (G1 & G2 & G3 & G4 & G5 & G6) & E).
  rewrite E. cbv zeta. cbn [db campaigns pledges].
  rewrite (write_campaign_status_applied w _ _ _ (Ac _ _ _)).
  set (after := rows (fold_left _ _ _)).
  assert (Hsel : select_campaign campaignId
                   (update_campaign_status CampaignStatus.charged campaignId (campaigns d))
                 = Some (set_campaign_status CampaignStatus.charged campaign)).
  { rewrite select_updated_campaign, Hc. reflexivity. }
  assert (Hnone : select_eligible campaignId after = []).
  { apply loop_leaves_none_eligible with (w := w) (before := pledges d); [exact Ap|].
    subst after. apply loop_settles. }
  exists body, campaignId, (set_campaign_status CampaignStatus.charged campaign).
  repeat split; try assumption; try reflexivity.
  - apply Forall_forall. intros c Hin Hcid. unfold update_campaign_status in Hin.
    apply in_map_iff in Hin. destruct Hin as (c0 & <- & Hin).
    destruct (String.eqb_spec (c_id c0) campaignId) as [K|K]; [reflexivity|].
    contradiction.
  - unfold POST. rewrite G1, G2, G3, Hid, G4. cbn [negb campaigns pledges].
    rewrite G5, Hsel. cbn [set_campaign_status c_final_views c_views_cap].
    rewrite Hf, G6, Hnone. cbn [fold_left counts rows issued].
    rewrite (write_campaign_status_applied w _ _ _ (Ac _ _ _)).
    rewrite update_campaign_status_twice. reflexivity.
Qed.

End ChargeRunClaims.

Lemma sample_applies_status_updates (k : string) :
  applies_status_updates Sample.world k.
Proof. intros patch rows v _. reflexivity. Qed.

Lemma sample_applies_pledge_updates : applies_pledge_updates Sample.world.
Proof. intros patch k rows. reflexivity. Qed.

Lemma sample_applies_campaign_updates : applies_campaign_updates Sample.world.
Proof. intros v k rows. reflexivity. Qed.

(** C3, witness: the sample campaign, with five eligible pledges, on a
    store that applies the updates. *)
Lemma charge_run_settles_eligible_witness :
  let run := RunCharges.POST Sample.world Sample.run_request Sample.locked_db in
  status (response run) = 200
  /\ map (fun row => (p_id row, RunCharges.eligible "c1" row)) (pledges Sample.locked_db)
     = [("p1", true); ("p2", true); ("p3", true); ("p4", true); ("p5", true);
        ("p6", false)]
  /\ map p_charge_status (pledges (db run))
     = [ChargeStatus.charged; ChargeStatus.requires_action; ChargeStatus.failed;
        ChargeStatus.skipped; ChargeStatus.failed; ChargeStatus.not_charged]
  /\ Forall2 (fun before after =>
                p_id after = p_id before
                /\ (RunCharges.eligible "c1" before = true ->
                    p_charge_status after <> ChargeStatus.not_charged
                    /\ settled (p_charge_status after)))
             (pledges Sample.locked_db) (pledges (db run)).
Proof.
  intros run. split; [reflexivity|]. split; [reflexivity|]. split; [reflexivity|].
  destruct (charge_run_settles_eligible Sample.world Sample.run_request
              Sample.locked_db eq_refl)
    as (body & campaignId & Hb & Hid & F).
  injection Hb as <-. injection Hid as <-.
  eapply Forall2_impl; [|exact F].
  intros b a [Ha Hs]. split; [exact Ha|]. intros Hb.
  apply Hs; [exact Hb | apply sample_applies_status_updates].
Defined.

(** C3, as stated, fails: on a store that refuses the updates the sample
    run completes, answers 200 and counts the five eligible pledges, and
    each of them is still not charged. *)
Lemma charge_run_leaves_not_charged :
  let run := RunCharges.POST Sample.refusing Sample.run_request Sample.locked_db in
  response run = json (CountsBody 1 1 2 1) 200
  /\ map (fun row => (p_id row, RunCharges.eligible "c1" row)) (pledges Sample.locked_db)
     = [("p1", true); ("p2", true); ("p3", true); ("p4", true); ("p5", true);
        ("p6", false)]
  /\ map p_charge_status (pledges (db run))
     = [ChargeStatus.not_charged; ChargeStatus.not_charged; ChargeStatus.not_charged;
        ChargeStatus.not_charged; ChargeStatus.not_charged; ChargeStatus.not_charged]
  /\ ~ (exists body campaignId,
          Sample.run_request = Returned body
          /\ RunCharges.campaign_id body = Some campaignId
          /\ Forall2 (fun before after =>
                        p_id after = p_id before
                        /\ (RunCharges.eligible campaignId before = true ->
                            p_charge_status after <> ChargeStatus.not_charged
                            /\ settled (p_charge_status after)))
                     (pledges Sample.locked_db) (pledges (db run))).
Proof.
  intros run. split; [reflexivity|]. split; [reflexivity|]. split; [reflexivity|].
  intros (body & campaignId & Hb & Hid & F).
  injection Hb as <-. injection Hid as <-.
  inversion F as [|b a l1 l2 [_ Hs] _]; subst.
  destruct (Hs eq_refl) as [N _]. apply N. reflexivity.
Qed.

(** C4, witness: the sample run on a store that applies the updates. *)
Lemma charge_run_terminal_and_repeatable_witness :
  let run := RunCharges.POST Sample.world Sample.run_request Sample.locked_db in
  status (response run) = 200
  /\ map c_status (campaigns (db run)) = [CampaignStatus.charged]
  /\ RunCharges.POST Sample.world Sample.run_request (db run)
     = {| response := json (CountsBody 0 0 0 0) 200; db := db run; calls := [] |}.
Proof.
  intros run. split; [reflexivity|]. split; [reflexivity|].
  destruct (charge_run_terminal_and_repeatable
              Sample.world Sample.run_request Sample.locked_db
              sample_applies_campaign_updates sample_applies_status_updates eq_refl)
    as (_ & _ & _ & _ & _ & _ & _ & _ & _ & E).
  exact E.
Defined.

(** C4, as stated, fails: on a store that refuses the updates the sample
    run completes and answers 200, the campaign is still locked, and the
    same request run again at once selects the same five pledges and issues
    the same three charges. *)
Lemma charge_run_repeated_charges_again :
  let run := RunCharges.POST Sample.refusing Sample.run_request Sample.locked_db in
  let again := RunCharges.POST Sample.refusing Sample.run_request (db run) in
  response run = json (CountsBody 1 1 2 1) 200
  /\ map c_status (campaigns (db run)) = [CampaignStatus.locked]
  /\ response again = json (CountsBody 1 1 2 1) 200
  /\ List.length (calls again) = 3%nat
  /\ calls again = calls run.
Proof. intros run again. repeat split. Qed.

(** C10, witness: one charged, one skipped, two failed, one requiring
    action out of five selected. *)
Lemma charge_run_counts_partition_witness :
  status (response (RunCharges.POST Sample.world Sample.run_request Sample.locked_db)) = 200
  /\ response (RunCharges.POST Sample.world Sample.run_request Sample.locked_db)
     = json (CountsBody 1 1 2 1) 200
  /\ exists body campaignId c,
       Sample.run_request = Returned body
       /\ RunCharges.campaign_id body = Some campaignId
       /\ response (RunCharges.POST Sample.world Sample.run_request Sample.locked_db)
          = json (counts_body c) 200
       /\ RunCharges.charged c + RunCharges.skipped c
          + RunCharges.failed c + RunCharges.requiresAction c
          = Z.of_nat (List.length (RunCharges.select_eligible campaignId
                                     (pledges Sample.locked_db))).
Proof.
  split; [reflexivity|]. split; [reflexivity|].
  destruct (charge_run_counts_partition
              Sample.world Sample.run_request Sample.locked_db eq_refl)
    as (body & campaignId & c & E1 & E2 & E3 & _ & _ & _ & _ & E4 & _).
  exists body, campaignId, c. repeat split; assumption.
Defined.

(** A handler that answered an error and touched nothing: closes the
    first three conjuncts and leaves the last, with its premises, to the
    caller. *)
Ltac rejected :=
  split; [reflexivity|];
  split; [reflexivity|];
  split; [eexists _, _; split; [reflexivity|lia]|];
  intros.

(** C5.  A run requested for a campaign whose [final_views] is null is
    rejected: the tables are left as they were, no provider call is issued,
    and the response is an error (the 400 [final_views not set yet] when the
    request gets as far as the campaign). *)
Theorem charge_run_rejects_unset_final_views
    (w : World) (body : RunCharges.Body) (d : Db)
    (campaignId : string) (campaign : Campaign) :
  RunCharges.campaign_id body = Some campaignId ->
  select_campaign campaignId (campaigns d) = Some campaign ->
  c_final_views campaign = None ->
  let run := RunCharges.POST w (Returned body) d in
  db run = d
  /\ calls run = []
  /\ (exists message code, response run = json (ErrorBody message) code /\ 400 <= code)
  /\ (getStripe w = Returned tt -> getSupabaseAdmin w = Returned tt ->
      RunCharges.authorized w body = true -> campaignId <> "" ->
      campaigns_select_error w = false ->
      response run = json (ErrorBody "final_views not set yet") 400).
Proof.
  intros Hid Hc Hf. cbv zeta. unfold RunCharges.POST.
  rewrite Hid.
  destruct (getStripe w) as [[]|]; [|rejected; discriminate].
  destruct (getSupabaseAdmin w) as [[]|]; [|rejected; discriminate].
  destruct (RunCharges.authorized w body); [|rejected; discriminate].
  cbn [negb].
  destruct (String.eqb_spec campaignId ""); [rejected; contradiction|].
  destruct (campaigns_select_error w); [rejected; discriminate|].
  rewrite Hc, Hf. rejected. reflexivity.
Qed.

(** C5, witness: the sample campaign while it is still open. *)
Lemma charge_run_rejects_unset_final_views_witness :
  let run := RunCharges.POST Sample.world Sample.run_request Sample.open_db in
  db run = Sample.open_db /\ calls run = []
  /\ response run = json (ErrorBody "final_views not set yet") 400.
Proof.
  destruct (@charge_run_rejects_unset_final_views Sample.world
              {| RunCharges.password := Some "secret"; RunCharges.campaign_id := Some "c1" |}
              Sample.open_db "c1" (Sample.campaign CampaignStatus.open None)
              eq_refl eq_refl eq_refl)
    as (E1 & E2 & _ & E3).
  split; [exact E1|]. split; [exact E2|].
  apply E3; try reflexivity. discriminate.
Defined.

Lemma needsAction_signal (err : Thrown) :
  RunCharges.needsAction err = true
  <-> (e_code err = Some "authentication_required"
       \/ exists pi, e_payment_intent err = Some pi
                     /\ pi_status pi = Some "requires_action").
Proof.
  unfold RunCharges.needsAction. rewrite orb_true_iff. split.
  - intros [H|H].
    + left. destruct (e_code err) as [code|]; [|discriminate].
      apply String.eqb_eq in H. congruence.
    + right. destruct (e_payment_intent err) as [pi|]; [|discriminate].
      exists pi. split; [reflexivity|].
      destruct (pi_status pi) as [st|]; [|discriminate].
      apply String.eqb_eq in H. congruence.
  - intros [H|(pi & H1 & H2)].
    + left. rewrite H. reflexivity.
    + right. rewrite H1, H2. reflexivity.
Qed.

(** C6, as amended.  When the charge of a pledge is attempted and the
    provider call throws, requiresAction is the one counter incremented
    exactly when the failure has code authentication_required or a payment
    intent in status requires_action, and failed is the one counter
    incremented otherwise.  When the store applies the status update, the
    rows of that pledge get the charge status requires_action in the first
    case and failed in the second, the message of the failure ([Charge
    failed] when it has none) and the payment-intent id the failure carries
    (null when it carries none).  No other row changes. *)
Theorem failed_charge_is_classified
    (w : World) (campaign : Campaign) (campaignId : string)
    (finalViews viewsCap : Z) (st : RunCharges.Loop)
    (pledge : RunCharges.Selected) (err : Thrown) :
  let r := RunCharges.amount_of finalViews viewsCap pledge in
  0 < Amount.amountCents r ->
  falsy (RunCharges.stripe_customer_id pledge) = false ->
  falsy (RunCharges.stripe_payment_method_id pledge) = false ->
  paymentIntents_create w
    (RunCharges.charge_params campaign campaignId pledge
       (Amount.computedViews r) (Amount.amountCents r)) = Threw err ->
  let st' := RunCharges.charge_pledge w campaign campaignId finalViews viewsCap st pledge in
  let signal :=
    e_code err = Some "authentication_required"
    \/ exists pi, e_payment_intent err = Some pi
                  /\ pi_status pi = Some "requires_action" in
  let message :=
    match e_message err with
    | Some m => m
    | None => "Charge failed"
    end in
  let reference :=
    match e_payment_intent err with
    | Some pi => pi_id pi
    | None => None
    end in
  let persisted (outcome : ChargeStatus.t) :=
    Forall2 (fun before after =>
               if String.eqb (p_id before) (RunCharges.id pledge) then
                 p_id after = p_id before
                 /\ (applies_status_updates w (RunCharges.id pledge) ->
                     p_charge_status after = outcome
                     /\ p_error_message after = Some message
                     /\ p_stripe_payment_intent_id after = reference)
               else after = before)
            (RunCharges.rows st) (RunCharges.rows st') in
  (signal /\ persisted ChargeStatus.requires_action
   /\ RunCharges.counts st' = RunCharges.incr_requiresAction (RunCharges.counts st))
  \/ (~ signal /\ persisted ChargeStatus.failed
      /\ RunCharges.counts st' = RunCharges.incr_failed (RunCharges.counts st)).
Proof.
  intros r Hpos Hc Hm Herr. cbv zeta.
  unfold RunCharges.charge_pledge, message_of. fold r.
  destruct (Z.leb_spec (Amount.amountCents r) 0) as [K|_]; [lia|].
  rewrite Hc, Hm. cbn [orb]. rewrite Herr.
  pose proof (needsAction_signal err) as Hs.
  destruct (RunCharges.needsAction err); [left|right];
    (split; [|split; [|reflexivity]]).
  1: apply Hs; reflexivity.
  2: intros S; apply Hs in S; discriminate.
  all: cbn [RunCharges.rows]; apply write_pledges_twice; intros E row;
    split;
    (split; [rewrite ?apply_patch_id; reflexivity|]); intros A;
    first [ solve [cbn; auto]
          | exfalso; rewrite A in E; [discriminate E | left; reflexivity] ].
Qed.

(** C6, witness: the second sample pledge, whose card needs
    authentication, on a store that applies the updates. *)
Lemma failed_charge_is_classified_witness :
  let pledge := {| RunCharges.id := "p2"; RunCharges.rate_per_1000_cents := 500;
                   RunCharges.cap_amount_cents := Some 6000;
                   RunCharges.stripe_customer_id := Some "cus_auth";
                   RunCharges.stripe_payment_method_id := Some "pm_2" |} in
  let st := {| RunCharges.counts := RunCharges.zero;
               RunCharges.rows := Sample.table; RunCharges.issued := [] |} in
  let st' := RunCharges.charge_pledge Sample.world
               (Sample.campaign CampaignStatus.locked (Some 15000)) "c1" 15000 20000
               st pledge in
  RunCharges.counts st' = RunCharges.incr_requiresAction RunCharges.zero
  /\ map (fun row => (p_id row, p_charge_status row, p_error_message row,
                      p_stripe_payment_intent_id row))
         (firstn 2 (RunCharges.rows st'))
     = [("p1", ChargeStatus.not_charged, None, None);
        ("p2", ChargeStatus.requires_action, Some "Authentication required",
         Some "pi_auth")]
  /\ Forall2 (fun before after =>
                if String.eqb (p_id before) "p2" then
                  p_charge_status after = ChargeStatus.requires_action
                  /\ p_error_message after = Some "Authentication required"
                  /\ p_stripe_payment_intent_id after = Some "pi_auth"
                else after = before)
             Sample.table (RunCharges.rows st').
Proof.
  intros pledge st st'.
  destruct (@failed_charge_is_classified Sample.world
              (Sample.campaign CampaignStatus.locked (Some 15000)) "c1" 15000 20000
              st pledge Sample.authentication
              ltac:(vm_compute; reflexivity) eq_refl eq_refl eq_refl)
    as [(_ & F & E)|(N & _)].
  - split; [exact E|]. split; [reflexivity|].
    eapply Forall2_impl; [|exact F].
    intros b a H. cbv beta in H. cbn [RunCharges.id pledge] in H.
    destruct (String.eqb (p_id b) "p2"); [|exact H].
    destruct H as [_ H]. apply H. apply sample_applies_status_updates.
  - exfalso. apply N. left. reflexivity.
Defined.

(** C6, as stated, fails: on a store that refuses the updates the same
    iteration counts the pledge under requiresAction and leaves its row not
    charged, without message and without payment-intent id. *)
Lemma failed_charge_not_persisted :
  let pledge := {| RunCharges.id := "p2"; RunCharges.rate_per_1000_cents := 500;
                   RunCharges.cap_amount_cents := Some 6000;
                   RunCharges.stripe_customer_id := Some "cus_auth";
                   RunCharges.stripe_payment_method_id := Some "pm_2" |} in
  let st := {| RunCharges.counts := RunCharges.zero;
               RunCharges.rows := Sample.table; RunCharges.issued := [] |} in
  let st' := RunCharges.charge_pledge Sample.refusing
               (Sample.campaign CampaignStatus.locked (Some 15000)) "c1" 15000 20000
               st pledge in
  paymentIntents_create Sample.refusing
    (RunCharges.charge_params (Sample.campaign CampaignStatus.locked (Some 15000))
       "c1" pledge 15000 6000) = Threw Sample.authentication
  /\ RunCharges.issued st'
     = [paymentIntents_create_
          (RunCharges.charge_params (Sample.campaign CampaignStatus.locked (Some 15000))
             "c1" pledge 15000 6000)]
  /\ RunCharges.counts st' = RunCharges.incr_requiresAction RunCharges.zero
  /\ RunCharges.rows st' = Sample.table
  /\ map (fun row => (p_id row, p_charge_status row, p_error_message row,
                      p_stripe_payment_intent_id row))
         (firstn 2 (RunCharges.rows st'))
     = [("p1", ChargeStatus.not_charged, None, None);
        ("p2", ChargeStatus.not_charged, None, None)].
Proof. intros pledge st st'. repeat split. Qed.

(** ** Setup reconciliation *)




(** Follow a handler down every branch, keep the branches whose trace holds
    the given call, and identify that call with the one the oracle was
    asked. *)
Ltac walk_handler :=
  repeat match goal with
         | |- context [match ?x with _ => _ end] =>
             lazymatch x with
             | context [match _ with _ => _ end] => fail
             | _ => destruct x eqn:?; cbn [calls reject In app]
             end
         end;
  intros Hin;
  repeat match goal with
         | H : _ \/ _ |- _ => destruct H
         | H : False |- _ => destruct H
         | H : checkout_sessions_retrieve_ _ = setupIntents_retrieve_ _ |- _ =>
             discriminate H
         | H : setupIntents_retrieve_ _ = setupIntents_retrieve_ _ |- _ =>
             injection H as H; rewrite H in *
         end;
  try congruence;
  try (exfalso;
       match goal with
       | H : _ = _ |- _ => cbn in H; discriminate H
       end).

(** C7, as amended.  When the setup intent cannot be fetched, the two
    client-confirmed handlers answer 502 and leave every row as it was.
    The webhook handler acknowledges the event with 200 and sends one
    update for the pledge named by the metadata of the event's session:
    setup_status failed, with the message of the error ([Webhook processing
    failed] when it has none).  When the store applies that update the rows
    of that pledge carry the status and the message and nothing else
    changes; when the store refuses it the tables are as they were. *)
Theorem setup_intent_unavailable (w : World) (id : string) (e : Thrown) (d : Db) :
  setupIntents_retrieve w id = Threw e ->
  (forall req,
      In (setupIntents_retrieve_ id) (calls (ConfirmSession.POST w req d)) ->
      response (ConfirmSession.POST w req d)
      = json (ErrorBody "Unable to retrieve setup intent") 502
      /\ db (ConfirmSession.POST w req d) = d)
  /\ (forall req,
      In (setupIntents_retrieve_ id) (calls (ConfirmSetup.POST w req d)) ->
      response (ConfirmSetup.POST w req d)
      = json (ErrorBody "Unable to retrieve setup intent") 502
      /\ db (ConfirmSetup.POST w req d) = d)
  /\ (forall req,
      In (setupIntents_retrieve_ id) (calls (Webhook.POST w req d)) ->
      exists event pledgeId,
        webhooks_constructEvent w (Webhook.rawBody req) (text (Webhook.signature req))
          (STRIPE_WEBHOOK_SECRET w) = Returned event
        /\ es_setup_intent (ev_object event) = Some id
        /\ pledge_id_of (es_metadata (ev_object event)) = Some pledgeId
        /\ response (Webhook.POST w req d) = json ReceivedBody 200
        /\ campaigns (db (Webhook.POST w req d)) = campaigns d
        /\ let message :=
             match e_message e with
             | Some m => m
             | None => "Webhook processing failed"
             end in
           let patch := [setup_status_ SetupStatus.failed;
                         error_message_ (Some message)] in
           (pledges_update_error w patch pledgeId (pledges d) = true ->
            pledges (db (Webhook.POST w req d)) = pledges d)
           /\ (pledges_update_error w patch pledgeId (pledges d) = false ->
               Forall2 (fun before after =>
                          if String.eqb (p_id before) pledgeId then
                            p_setup_status after = SetupStatus.failed
                            /\ p_error_message after = Some message
                            /\ same_charge_side before after
                            /\ p_stripe_customer_id after = p_stripe_customer_id before
                            /\ p_stripe_payment_method_id after
                               = p_stripe_payment_method_id before
                          else after = before)
                       (pledges d) (pledges (db (Webhook.POST w req d))))).
Proof.
  intros He. split; [|split]; intros req.
  - unfold ConfirmSession.POST. walk_handler.
    all: split; reflexivity.
  - unfold ConfirmSetup.POST, ConfirmSetup.resolve, ConfirmSetup.reconcile.
    walk_handler.
    all: split; reflexivity.
  - unfold Webhook.POST, message_of.
    destruct (getStripe w); [|intros []].
    destruct (getSupabaseAdmin w); [|intros []].
    destruct (falsy (Webhook.signature req)); [intros []|].
    destruct (webhooks_constructEvent w _ _ _) as [event|] eqn:Ee; [|intros []].
    destruct (String.eqb (ev_type event) _); [|intros []].
    destruct (is_pledge_setup _ && negb _) eqn:Ef; [|intros []].
    apply andb_prop in Ef. destruct Ef as [_ Ep]. apply negb_true_iff in Ep.
    destruct (pledge_id_of (es_metadata (ev_object event))) as [pledgeId|] eqn:Epid;
      [|discriminate Ep].
    destruct (es_setup_intent (ev_object event)) as [intent|] eqn:Ei; [|intros []].
    cbn [falsy text].
    destruct (String.eqb intent ""); [intros []|].
    destruct (setupIntents_retrieve w intent) as [si|e'] eqn:Er.
    + destruct (_ && _); cbn [calls In]; intros [[= <-]|[]]; congruence.
    + cbn [calls In]. intros [[= <-]|[]].
      rewrite He in Er. injection Er as <-.
      exists event, pledgeId.
      repeat (split; [first [reflexivity | assumption]|]). cbv zeta. cbn [db set_pledges pledges]. split.
      * intros E. apply write_pledges_refused, E.
      * intros E. rewrite (write_pledges_applied _ _ _ _ E).
        apply update_pledges_rows. intros row. cbn. repeat split.
Qed.

(** C7, witness: the provider of the sample world knows no setup intent
    [seti_down]; the session [cs_2], a bare confirmation and the sample
    event all lead to it. *)
Lemma setup_intent_unavailable_witness :
  let session_req := Returned {| ConfirmSession.session_id := Some "cs_2" |} in
  let intent_req := Returned {| ConfirmSetup.session_id := None;
                                ConfirmSetup.setup_intent := Some "seti_down" |} in
  let event_req := {| Webhook.signature := Some "t=1,v1=0"; Webhook.rawBody := "{}" |} in
  setupIntents_retrieve Sample.world "seti_down" = Threw (Error "No such setupintent")
  /\ (response (ConfirmSession.POST Sample.world session_req Sample.open_db)
      = json (ErrorBody "Unable to retrieve setup intent") 502
      /\ db (ConfirmSession.POST Sample.world session_req Sample.open_db)
         = Sample.open_db)
  /\ (response (ConfirmSetup.POST Sample.world intent_req Sample.open_db)
      = json (ErrorBody "Unable to retrieve setup intent") 502
      /\ db (ConfirmSetup.POST Sample.world intent_req Sample.open_db) = Sample.open_db)
  /\ response (Webhook.POST Sample.world event_req Sample.open_db)
     = json ReceivedBody 200
  /\ Forall2 (fun before after =>
                if String.eqb (p_id before) "p1" then
                  p_setup_status after = SetupStatus.failed
                  /\ p_error_message after = Some "No such setupintent"
                else after = before)
             (pledges Sample.open_db)
             (pledges (db (Webhook.POST Sample.world event_req Sample.open_db))).
Proof.
  intros session_req intent_req event_req. split; [reflexivity|].
  destruct (@setup_intent_unavailable Sample.world "seti_down"
              (Error "No such setupintent") Sample.open_db eq_refl)
    as (H1 & H2 & H3).
  split; [apply H1; right; left; reflexivity|].
  split; [apply H2; left; reflexivity|].
  destruct (H3 event_req (or_introl eq_refl))
    as (event & pledgeId & Ee & _ & Ep & Er & _ & _ & F).
  injection Ee as <-. injection Ep as <-.
  split; [exact Er|].
  eapply Forall2_impl; [|exact (F eq_refl)].
  intros b a H. cbv beta in H.
  destruct (String.eqb (p_id b) "p1"); [|exact H].
  destruct H as (S & M & _). split; [exact S | exact M].
Defined.

(** C7, as stated, fails on the webhook: the event of the sample world
    names the setup intent [seti_down], the provider throws, and the handler
    answers 200 after marking pledge [p1] failed. *)
Lemma webhook_records_fetch_failure :
  let req := {| Webhook.signature := Some "t=1,v1=0"; Webhook.rawBody := "{}" |} in
  let run := Webhook.POST Sample.world req Sample.open_db in
  setupIntents_retrieve Sample.world "seti_down" = Threw (Error "No such setupintent")
  /\ calls run = [setupIntents_retrieve_ "seti_down"]
  /\ status (response run) = 200
  /\ db run <> Sample.open_db
  /\ map (fun row => (p_id row, p_setup_status row, p_error_message row))
         (firstn 2 (pledges (db run)))
     = [("p1", SetupStatus.failed, Some "No such setupintent");
        ("p2", SetupStatus.complete, None)].
Proof.
  intros req run. repeat split.
  intros E. apply (f_equal (fun x => map p_setup_status (pledges x))) in E.
  vm_compute in E. discriminate E.
Qed.

(** ** Charged campaigns *)





(** ** Idempotence of setup reconciliation *)

Lemma update_pledges_ids (patch : list PledgeAssign) (k : string) (rows : list Pledge) :
  map p_id (update_pledges patch k rows) = map p_id rows.
Proof.
  unfold update_pledges. rewrite map_map. apply map_ext.
  intros row. destruct (String.eqb (p_id row) k); [apply apply_patch_id | reflexivity].
Qed.

Lemma update_pledges_again (patch : list PledgeAssign) (k : string) (rows : list Pledge) :
  (forall row, apply_patch patch (apply_patch patch row) = apply_patch patch row) ->
  update_pledges patch k (update_pledges patch k rows) = update_pledges patch k rows.
Proof.
  intros H. unfold update_pledges. rewrite map_map. apply map_ext.
  intros row. destruct (String.eqb (p_id row) k) eqn:E.
  - rewrite apply_patch_id, E. apply H.
  - rewrite E. reflexivity.
Qed.

Section Lookup.
Import ConfirmSetup.

Variables (c k : string) (f : Pledge -> Pledge).
Hypothesis f_id : forall r, p_id (f r) = p_id r.
Hypothesis f_created : forall r, p_created_at (f r) = p_created_at r.
Hypothesis f_keeps : forall r, has_customer c r = true -> has_customer c (f r) = true.
Hypothesis f_new :
  forall r, has_customer c r = false -> has_customer c (f r) = true -> p_id r = k.

Lemma related_step (best best' : option Pledge) (x : Pledge) :
  related f k best best' ->
  (has_customer c x = true ->
   related f k
     (match best with
      | Some b => if p_created_at b <? p_created_at x then Some x else best
      | None => Some x
      end)
     (match best' with
      | Some b => if p_created_at b <? p_created_at (f x) then Some (f x) else best'
      | None => Some (f x)
      end))
  /\ (p_id x = k ->
      related f k best
        (match best' with
         | Some b => if p_created_at b <? p_created_at (f x) then Some (f x) else best'
         | None => Some (f x)
         end)).
Proof.
  intros [->|(u & -> & Hu & Hle)]; split; intros Hx.
  - left. destruct best as [b|]; simpl; [|reflexivity].
    rewrite !f_created. destruct (_ <? _); reflexivity.
  - destruct best as [b|]; simpl.
    + rewrite !f_created. destruct (Z.ltb_spec (p_created_at b) (p_created_at x)).
      * right. exists (f x). rewrite f_id, f_created. repeat split; [exact Hx|].
        intros b0 [= <-]. lia.
      * left. reflexivity.
    + right. exists (f x). rewrite f_id. repeat split; [exact Hx|]. discriminate.
  - rewrite f_created.
    destruct (Z.ltb_spec (p_created_at u) (p_created_at x)) as [L|L].
    + assert (E : match best with
                  | Some b => if p_created_at b <? p_created_at x then Some x else best
                  | None => Some x
                  end = Some x).
      { destruct best as [b|]; [|reflexivity].
        specialize (Hle b eq_refl).
        destruct (Z.ltb_spec (p_created_at b) (p_created_at x)); [reflexivity|lia]. }
      rewrite E. left. reflexivity.
    + right. exists u. repeat split; [exact Hu|].
      intros b0. destruct best as [b|].
      * specialize (Hle b eq_refl). destruct (_ <? _); intros [= <-]; lia.
      * intros [= <-]. lia.
  - rewrite f_created.
    destruct (Z.ltb_spec (p_created_at u) (p_created_at x)) as [L|L].
    + right. exists (f x). rewrite f_id, f_created. repeat split; [exact Hx|].
      intros b Hb. specialize (Hle b Hb). lia.
    + right. exists u. repeat split; assumption.
Qed.

Lemma most_recent_related (rows : list Pledge) (best best' : option Pledge) :
  related f k best best' ->
  option_map p_id (most_recent best (filter (has_customer c) rows)) = Some k ->
  option_map p_id (most_recent best' (filter (has_customer c) (map f rows))) = Some k.
Proof.
  revert best best'. induction rows as [|x rows IH]; intros best best' R.
  - simpl. destruct R as [->|(u & -> & Hu & _)].
    + destruct best; simpl; [rewrite f_id|]; trivial.
    + intros _. simpl. congruence.
  - simpl. destruct (related_step best best' x R) as [Hm Hn].
    destruct (has_customer c x) eqn:Ex.
    + rewrite (f_keeps x Ex). simpl. apply IH. apply Hm. reflexivity.
    + destruct (has_customer c (f x)) eqn:Ef.
      * simpl. apply IH. apply Hn. apply f_new; assumption.
      * apply IH. exact R.
Qed.

End Lookup.

Lemma lookup_after_update (w : World) (c k : string) (patch : list PledgeAssign)
    (rows : list Pledge) :
  (forall r, p_created_at (apply_patch patch r) = p_created_at r) ->
  (forall r, ConfirmSetup.has_customer c r = true ->
             ConfirmSetup.has_customer c (apply_patch patch r) = true) ->
  ConfirmSetup.lookup_by_customer w c rows = Some k ->
  ConfirmSetup.lookup_by_customer w c (update_pledges patch k rows) = Some k.
Proof.
  intros Hcreated Hkeeps. unfold ConfirmSetup.lookup_by_customer.
  destruct (pledges_lookup_error w); [discriminate|].
  apply most_recent_related; try (left; reflexivity); intros r.
  - destruct (String.eqb (p_id r) k); [apply apply_patch_id | reflexivity].
  - destruct (String.eqb (p_id r) k); [apply Hcreated | reflexivity].
  - destruct (String.eqb (p_id r) k); [apply Hkeeps | trivial].
  - destruct (String.eqb_spec (p_id r) k); [trivial | congruence].
Qed.

Lemma lookup_after_write (w : World) (c k : string) (patch : list PledgeAssign)
    (rows : list Pledge) :
  (forall r, p_created_at (apply_patch patch r) = p_created_at r) ->
  (forall r, ConfirmSetup.has_customer c r = true ->
             ConfirmSetup.has_customer c (apply_patch patch r) = true) ->
  ConfirmSetup.lookup_by_customer w c rows = Some k ->
  ConfirmSetup.lookup_by_customer w c (write_pledges w patch k rows) = Some k.
Proof.
  intros Hcreated Hkeeps L. unfold write_pledges.
  destruct (pledges_update_error w patch k rows); [exact L|].
  apply lookup_after_update; assumption.
Qed.

Lemma write_pledges_again (w : World) (patch : list PledgeAssign) (k : string)
    (rows : list Pledge) :
  (forall row, apply_patch patch (apply_patch patch row) = apply_patch patch row) ->
  write_pledges w patch k (write_pledges w patch k rows) = write_pledges w patch k rows.
Proof.
  intros H. destruct (pledges_update_error w patch k rows) eqn:E1.
  - rewrite !(write_pledges_refused _ _ _ _ E1). reflexivity.
  - rewrite (write_pledges_applied _ _ _ _ E1). unfold write_pledges.
    destruct (pledges_update_error w patch k (update_pledges patch k rows));
      [reflexivity|].
    apply update_pledges_again, H.
Qed.

Lemma write_pledges_ids (w : World) (patch : list PledgeAssign) (k : string)
    (rows : list Pledge) :
  map p_id (write_pledges w patch k rows) = map p_id rows.
Proof.
  unfold write_pledges. destruct (pledges_update_error w patch k rows);
    [reflexivity | apply update_pledges_ids].
Qed.

Lemma run_plan_twice (w : World) (plan : Plan) (d : Db) :
  settles_twice plan -> run_plan w plan (run_plan w plan d) = run_plan w plan d.
Proof.
  destruct plan as [[patch k]|]; simpl; [|reflexivity].
  intros H. unfold set_pledges. simpl. rewrite write_pledges_again by exact H.
  reflexivity.
Qed.

Lemma run_plan_ids (w : World) (plan : Plan) (d : Db) :
  map p_id (pledges (run_plan w plan d)) = map p_id (pledges d)
  /\ campaigns (run_plan w plan d) = campaigns d.
Proof.
  destruct plan as [[patch k]|]; simpl; split; try reflexivity.
  apply write_pledges_ids.
Qed.

(** A handler whose branch does not depend on the tables: it answers [resp]
    and runs one plan whatever the tables hold. *)
Ltac uniform_none :=
  eexists _, None, _;
  split; [intros; reflexivity|];
  split; [exact I|];
  intros ? [=].

Ltac uniform_patch :=
  eexists _, (Some (_, _)), _;
  split; [intros; reflexivity|];
  split; [intros []; reflexivity|].

Ltac branches :=
  repeat match goal with
         | |- context [match ?x with _ => _ end] =>
             lazymatch x with
             | context [match _ with _ => _ end] => fail
             | _ => destruct x eqn:?
             end
         end.

Lemma ConfirmSession_uniform (w : World) (req : Outcome ConfirmSession.Body) :
  exists resp plan issued,
    (forall d, ConfirmSession.POST w req d
               = {| response := resp; db := run_plan w plan d; calls := issued |})
    /\ settles_twice plan
    /\ (forall k, resp = json (PledgeBody k) 200 ->
        exists customer method,
          falsy customer = false /\ falsy method = false
          /\ binds customer method k plan).
Proof.
  unfold ConfirmSession.POST. branches;
    try solve [uniform_none | uniform_patch; intros ? [=]].
  uniform_patch. intros k0 [= <-].
  match goal with
  | H : _ || _ = false |- _ => apply orb_false_elim in H; destruct H
  end.
  eexists _, _. repeat split; eassumption.
Qed.

Lemma Webhook_uniform (w : World) (req : Webhook.Request) :
  exists resp plan issued,
    (forall d, Webhook.POST w req d
               = {| response := resp; db := run_plan w plan d; calls := issued |})
    /\ settles_twice plan
    /\ (forall k, resp <> json (PledgeBody k) 200).
Proof.
  unfold Webhook.POST. branches;
    solve [ eexists _, None, _;
            split; [intros; reflexivity | split; [exact I | intros ? [=]]]
          | eexists _, (Some (_, _)), _;
            split; [intros; reflexivity
                   | split; [intros []; reflexivity | intros ? [=]]] ].
Qed.

Lemma resolve_uniform (w : World) (body : ConfirmSetup.Body) :
  (exists message code issued,
      forall d, ConfirmSetup.resolve w body d
                = inl {| response := json (ErrorBody message) code;
                         db := d; calls := issued |})
  \/ (exists resolved issued,
         forall d, ConfirmSetup.resolve w body d = inr (resolved, issued)).
Proof.
  unfold ConfirmSetup.resolve. branches;
    solve [ left; eexists _, _, _; intros; reflexivity
          | right; eexists _, _; intros; reflexivity ].
Qed.

(** The second phase runs one plan, and runs it again, with the same
    answer, on the tables it leaves. *)
Lemma reconcile_shape (w : World) (resolved : ConfirmSetup.Resolved)
    (issued0 : list ProviderCall) (d : Db) :
  exists resp plan issued,
    ConfirmSetup.reconcile w resolved issued0 d
    = {| response := resp; db := run_plan w plan d; calls := issued |}
    /\ ConfirmSetup.reconcile w resolved issued0 (run_plan w plan d)
       = {| response := resp; db := run_plan w plan (run_plan w plan d);
            calls := issued |}
    /\ settles_twice plan
    /\ (forall k, resp = json (PledgeBody k) 200 ->
        exists customer method,
          falsy method = false /\ binds customer method k plan).
Proof.
  unfold ConfirmSetup.reconcile.
  destruct (falsy (ConfirmSetup.setupIntentId resolved));
    [eexists _, None, _; repeat split; intros ? [=]|].
  destruct (setupIntents_retrieve w _) as [setupIntent|];
    [|eexists _, None, _; repeat split; intros ? [=]].
  cbv zeta.
  set (customerId := if falsy (ConfirmSetup.customerId resolved) then _ else _).
  set (paymentMethodId := getStringId _).
  set (pledgeId0 := if falsy (ConfirmSetup.pledgeId resolved) then _ else _).
  destruct (falsy pledgeId0 && negb (falsy customerId)) eqn:G.
  - apply andb_prop in G. destruct G as [_ G]. apply negb_true_iff in G.
    destruct customerId as [c|] eqn:Ec; [|discriminate G]. cbn [text].
    destruct (ConfirmSetup.lookup_by_customer w c (pledges d)) as [k|] eqn:L;
      [|eexists _, None, _; cbn [run_plan]; rewrite L; repeat split; intros ? [=]].
    destruct (falsy (Some k)) eqn:Fk;
      [eexists _, None, _; cbn [run_plan]; rewrite L, Fk; repeat split; intros ? [=]|].
    cbn [text].
    destruct (falsy paymentMethodId) eqn:Fm.
    + eexists _, (Some (_, k)), _. split; [reflexivity|].
      split; [|split; [intros []; reflexivity | intros ? [=]]].
      cbn [run_plan set_pledges pledges].
      rewrite lookup_after_write; [rewrite Fk; reflexivity | | | exact L];
        intros []; trivial.
    + eexists _, (Some (_, k)), _. split; [reflexivity|].
      split; [|split; [intros []; reflexivity |]].
      * cbn [run_plan set_pledges pledges].
        rewrite lookup_after_write; [rewrite Fk; reflexivity | | | exact L];
          intros []; intros; trivial.
        unfold ConfirmSetup.has_customer. cbn. apply String.eqb_refl.
      * intros k0 [= <-]. eexists _, _. split; [exact Fm | reflexivity].
  - destruct (falsy pledgeId0);
      [eexists _, None, _; repeat split; intros ? [=]|].
    destruct (falsy paymentMethodId) eqn:Fm.
    + eexists _, (Some (_, _)), _. split; [reflexivity|].
      split; [reflexivity|]. split; [intros []; reflexivity | intros ? [=]].
    + eexists _, (Some (_, _)), _. split; [reflexivity|].
      split; [reflexivity|]. split; [intros []; reflexivity|].
      intros k0 [= <-]. eexists _, _. split; [exact Fm | reflexivity].
Qed.

Lemma binds_rows (w : World) (customer method : option string) (k : string)
    (plan : Plan) (d : Db) :
  applies_pledge_updates w ->
  binds customer method k plan ->
  Forall (fun row =>
            p_id row = k ->
            p_setup_status row = SetupStatus.complete
            /\ p_stripe_customer_id row = customer
            /\ p_stripe_payment_method_id row = method
            /\ p_error_message row = None)
         (pledges (run_plan w plan d)).
Proof.
  intros A ->. cbn [run_plan set_pledges pledges].
  rewrite (write_pledges_applied _ _ _ _ (A _ _ _)). unfold update_pledges.
  apply Forall_forall. intros row Hin Hk.
  apply in_map_iff in Hin. destruct Hin as (row0 & <- & _).
  destruct (String.eqb_spec (p_id row0) k) as [E|E].
  - cbn. repeat split.
  - contradiction.
Qed.

(** An applied update that completes the setup of pledge [k]. *)
Lemma update_pledges_bound (patch : list PledgeAssign) (k : string)
    (customer method : option string) (d : Db) :
  (forall row,
      p_setup_status (apply_patch patch row) = SetupStatus.complete
      /\ p_stripe_customer_id (apply_patch patch row) = customer
      /\ p_stripe_payment_method_id (apply_patch patch row) = method) ->
  bound k customer method d (set_pledges (update_pledges patch k (pledges d)) d).
Proof.
  intros H. split; [reflexivity|]. cbn [set_pledges pledges].
  eapply Forall2_impl;
    [|apply update_pledges_rows with
        (P := fun b a => p_id a = p_id b
                         /\ p_setup_status a = SetupStatus.complete
                         /\ p_stripe_customer_id a = customer
                         /\ p_stripe_payment_method_id a = method)].
  - intros b a Hba. cbv beta in Hba.
    destruct (String.eqb_spec (p_id b) k) as [E|E].
    + destruct Hba as (Hid & Hrest). split; [exact Hid|].
      split; [intros _; exact Hrest | intros N; contradiction].
    + subst a. split; [reflexivity|]. split; [intros K; contradiction | reflexivity].
  - intros row. split; [apply apply_patch_id | apply H].
Qed.

Lemma truthy (s : string) : s <> "" -> falsy (Some s) = false.
Proof.
  intros N. simpl. destruct (String.eqb_spec s ""); [contradiction | reflexivity].
Qed.

Lemma isNonEmptyString_truthy (v : option string) :
  isNonEmptyString v = true -> falsy v = false.
Proof.
  destruct v as [[|c s]|]; simpl; try discriminate. reflexivity.
Qed.

(** What the session handler does once the provider reports a finished
    setup and the store applies the update. *)
Lemma ConfirmSession_completes (w : World) (d : Db) (sessionId k customer method : string) :
  applies_pledge_updates w ->
  getStripe w = Returned tt ->
  getSupabaseAdmin w = Returned tt ->
  isNonEmptyString (Some sessionId) = true ->
  session_issued w sessionId k customer method ->
  let run := ConfirmSession.POST w
               (Returned {| ConfirmSession.session_id := Some sessionId |}) d in
  response run = json (PledgeBody k) 200
  /\ bound k (Some customer) (Some method) d (db run).
Proof.
  intros A Hs Hg Hn (session & intent & setupIntent & E1 & E2 & E3 & E4 & E5 & E6 & E7
                     & Nk & Ni & Nc & Nm).
  cbv zeta. unfold ConfirmSession.POST. cbn [ConfirmSession.session_id].
  rewrite Hn, Hs, Hg. cbn [negb text]. rewrite E1, E2, E3, E4, E5.
  rewrite (truthy k Nk), (truthy intent Ni), (truthy customer Nc).
  cbn [is_pledge_setup String.eqb Ascii.eqb Bool.eqb negb orb text].
  rewrite E6, E7, (truthy method Nm). cbn [response db].
  split; [reflexivity|].
  rewrite (write_pledges_applied _ _ _ _ (A _ _ _)).
  apply update_pledges_bound. intros row. cbn. repeat split.
Qed.

(** The second confirm handler follows the first on a session id that the
    first answers with 200. *)
Lemma ConfirmSetup_on_session (w : World) (session_id setup_intent : option string)
    (d : Db) :
  let run := ConfirmSession.POST w
               (Returned {| ConfirmSession.session_id := session_id |}) d in
  status (response run) = 200 ->
  ConfirmSetup.POST w
    (Returned {| ConfirmSetup.session_id := session_id;
                 ConfirmSetup.setup_intent := setup_intent |}) d
  = run.
Proof.
  cbv zeta.
  unfold ConfirmSession.POST, ConfirmSetup.POST, ConfirmSetup.resolve,
    ConfirmSetup.reconcile.
  cbn [ConfirmSession.session_id ConfirmSetup.session_id ConfirmSetup.setup_intent].
  destruct (isNonEmptyString session_id); [|discriminate]. cbn [negb andb].
  destruct (getStripe w); [|discriminate].
  destruct (getSupabaseAdmin w); [|discriminate].
  destruct (checkout_sessions_retrieve w (text session_id)) as [session|];
    [|discriminate].
  destruct (negb _ || falsy _) eqn:Ef; [discriminate|].
  apply orb_false_elim in Ef. destruct Ef as [_ Ep].
  cbn [ConfirmSetup.setupIntentId ConfirmSetup.customerId ConfirmSetup.pledgeId].
  destruct (falsy (getStringId (s_setup_intent session))); [discriminate|].
  destruct (setupIntents_retrieve w _) as [setupIntent|]; [|discriminate].
  destruct (falsy (getStringId (s_customer session))) eqn:Ec; [discriminate|].
  cbn [orb].
  destruct (falsy (getStringId (si_payment_method setupIntent))); [discriminate|].
  intros _. repeat (rewrite Ep; cbn [andb]). reflexivity.
Qed.

(** What the second confirm handler does with a bare setup intent whose
    metadata name the pledge. *)
Lemma ConfirmSetup_completes (w : World) (d : Db) (session_id : option string)
    (intent k : string) (customer : option string) (method : string) :
  applies_pledge_updates w ->
  getStripe w = Returned tt ->
  getSupabaseAdmin w = Returned tt ->
  isNonEmptyString session_id = false ->
  isNonEmptyString (Some intent) = true ->
  intent_issued w intent k customer method ->
  let run := ConfirmSetup.POST w
               (Returned {| ConfirmSetup.session_id := session_id;
                            ConfirmSetup.setup_intent := Some intent |}) d in
  response run = json (PledgeBody k) 200
  /\ bound k customer (Some method) d (db run).
Proof.
  intros A Hs Hg Hn Hi (setupIntent & E1 & E2 & E3 & E4 & Nk & Nm).
  cbv zeta. unfold ConfirmSetup.POST, ConfirmSetup.resolve, ConfirmSetup.reconcile.
  cbn [ConfirmSetup.session_id ConfirmSetup.setup_intent].
  rewrite Hn, Hi, Hs, Hg. cbn [negb andb].
  cbn [ConfirmSetup.setupIntentId ConfirmSetup.customerId ConfirmSetup.pledgeId].
  rewrite (isNonEmptyString_truthy _ Hi). cbn [text]. rewrite E1.
  cbn [falsy]. rewrite E2, E3, E4.
  repeat (rewrite ?(truthy k Nk), ?(truthy method Nm);
          cbn [andb text response db]).
  split; [reflexivity|].
  rewrite (write_pledges_applied _ _ _ _ (A _ _ _)).
  apply update_pledges_bound. intros row. cbn. repeat split.
Qed.

(** What the webhook does with the event of a finished setup. *)
Lemma Webhook_completes (w : World) (d : Db) (req : Webhook.Request) (event : Event)
    (k customer method : string) :
  applies_pledge_updates w ->
  getStripe w = Returned tt ->
  getSupabaseAdmin w = Returned tt ->
  falsy (Webhook.signature req) = false ->
  webhooks_constructEvent w (Webhook.rawBody req) (text (Webhook.signature req))
    (STRIPE_WEBHOOK_SECRET w) = Returned event ->
  event_issued w event k customer method ->
  let run := Webhook.POST w req d in
  response run = json ReceivedBody 200
  /\ bound k (Some customer) (Some method) d (db run).
Proof.
  intros A Hs Hg Hf He (intent & setupIntent & E1 & E2 & E3 & E4 & E5 & E6 & E7
                        & Nk & Ni & Nc & Nm).
  cbv zeta. unfold Webhook.POST.
  rewrite Hs, Hg, Hf, He, E1, E2, E3, E4, E5.
  rewrite (truthy k Nk), (truthy intent Ni).
  cbn [String.eqb Ascii.eqb Bool.eqb is_pledge_setup negb andb text].
  rewrite E6, E7. cbn [string_or_null].
  rewrite (truthy method Nm), (truthy customer Nc). cbn [negb andb response db].
  split; [reflexivity|].
  rewrite (write_pledges_applied _ _ _ _ (A _ _ _)).
  apply update_pledges_bound. intros row. cbn. repeat split.
Qed.

(** C8, as amended.  On a store that applies the updates, each setup
    handler, called again with the same request on the tables its first
    call left, answers the same and leaves the same tables; neither call
    adds, removes or moves a row; and a 200 for a pledge means that the
    rows of that pledge are complete with one customer id and one payment
    method id.  Once the provider reports the setup of a pledge as finished
    (through the session, through the setup intent named in a bare
    confirmation, or through the event), the call does end that way: the
    confirm handlers answer 200 for that pledge, the webhook acknowledges
    the event, and the rows of the pledge are complete with the customer id
    and the payment method id the provider reported, every other row being
    as it was. *)
Theorem setup_reconciliation_idempotent (w : World) (d : Db) :
  applies_pledge_updates w ->
  let twice (call : Db -> Run) := converges d (call d) (call (db (call d))) in
  ((forall req, twice (ConfirmSession.POST w req))
   /\ (forall req, twice (ConfirmSetup.POST w req))
   /\ (forall req, twice (Webhook.POST w req)))
  /\ (getStripe w = Returned tt ->
      getSupabaseAdmin w = Returned tt ->
      (forall sessionId k customer method setup_intent,
          isNonEmptyString (Some sessionId) = true ->
          session_issued w sessionId k customer method ->
          let run1 := ConfirmSession.POST w
                        (Returned {| ConfirmSession.session_id := Some sessionId |}) d in
          let run2 := ConfirmSetup.POST w
                        (Returned {| ConfirmSetup.session_id := Some sessionId;
                                     ConfirmSetup.setup_intent := setup_intent |}) d in
          response run1 = json (PledgeBody k) 200
          /\ bound k (Some customer) (Some method) d (db run1)
          /\ run2 = run1)
      /\ (forall session_id intent k customer method,
             isNonEmptyString session_id = false ->
             isNonEmptyString (Some intent) = true ->
             intent_issued w intent k customer method ->
             let run := ConfirmSetup.POST w
                          (Returned {| ConfirmSetup.session_id := session_id;
                                       ConfirmSetup.setup_intent := Some intent |}) d in
             response run = json (PledgeBody k) 200
             /\ bound k customer (Some method) d (db run))
      /\ (forall req event k customer method,
             falsy (Webhook.signature req) = false ->
             webhooks_constructEvent w (Webhook.rawBody req)
               (text (Webhook.signature req)) (STRIPE_WEBHOOK_SECRET w)
             = Returned event ->
             event_issued w event k customer method ->
             let run := Webhook.POST w req d in
             response run = json ReceivedBody 200
             /\ bound k (Some customer) (Some method) d (db run))).
Proof.
  intros A. cbv zeta. split; [split; [|split]; intros req; unfold converges|].
  - destruct (ConfirmSession_uniform w req) as (resp & plan & issued & E & T & B).
    rewrite !E. cbn [response db].
    split; [reflexivity|]. split; [apply run_plan_twice, T|].
    split; [apply run_plan_ids|]. split; [apply run_plan_ids|].
    intros k Hk. destruct (B k Hk) as (customer & method & _ & Fm & Hb).
    exists customer, method. split; [exact Fm|]. apply binds_rows; assumption.
  - unfold ConfirmSetup.POST.
    destruct req as [body|e]; [|repeat split; intros ? [=]].
    destruct (_ && _); [repeat split; intros ? [=]|].
    destruct (getStripe w); [|repeat split; intros ? [=]].
    destruct (getSupabaseAdmin w); [|repeat split; intros ? [=]].
    destruct (resolve_uniform w body)
      as [(message & code & issued & E)|(resolved & issued0 & E)]; rewrite !E.
    + repeat split. intros ? [=].
    + destruct (reconcile_shape w resolved issued0 d)
        as (resp & plan & issued & E1 & E2 & T & B).
      rewrite E1. cbn [response db]. rewrite E2. cbn [response db].
      split; [reflexivity|]. split; [apply run_plan_twice, T|].
      split; [apply run_plan_ids|]. split; [apply run_plan_ids|].
      intros k Hk. destruct (B k Hk) as (customer & method & Fm & Hb).
      exists customer, method. split; [exact Fm|]. apply binds_rows; assumption.
  - destruct (Webhook_uniform w req) as (resp & plan & issued & E & T & N).
    rewrite !E. cbn [response db].
    split; [reflexivity|]. split; [apply run_plan_twice, T|].
    split; [apply run_plan_ids|]. split; [apply run_plan_ids|].
    intros k Hk. destruct (N k Hk).
  - intros Hs Hg. split; [|split].
    + intros sessionId k customer method setup_intent Hn Hi.
      destruct (ConfirmSession_completes w d sessionId k customer method A Hs Hg Hn Hi)
        as [R B].
      split; [exact R|]. split; [exact B|].
      apply ConfirmSetup_on_session. cbv zeta. rewrite R. reflexivity.
    + intros session_id intent k customer method Hn Hi Hissued.
      apply ConfirmSetup_completes; assumption.
    + intros req event k customer method Hf He Hissued.
      apply Webhook_completes with (event := event); assumption.
Qed.

(** C8, witness: on a store that applies the updates, the sample session
    is confirmed twice and the event of the finished setup is delivered
    twice, for a pledge whose setup was pending. *)
Lemma setup_reconciliation_idempotent_witness :
  let req := Returned {| ConfirmSession.session_id := Some "cs_1" |} in
  let run1 := ConfirmSession.POST Sample.world req Sample.pending_db in
  let run2 := ConfirmSession.POST Sample.world req (db run1) in
  let w := Sample.world_with false (fun _ => Returned "cus_9") Sample.event_ok in
  let delivery := {| Webhook.signature := Some "t=1,v1=0"; Webhook.rawBody := "{}" |} in
  let hook1 := Webhook.POST w delivery Sample.pending_db in
  let hook2 := Webhook.POST w delivery (db hook1) in
  let stored (d : Db) :=
    map (fun row => (p_id row, p_setup_status row, p_stripe_customer_id row,
                     p_stripe_payment_method_id row)) (pledges d) in
  applies_pledge_updates Sample.world
  /\ stored Sample.pending_db = [("p1", SetupStatus.pending, None, None)]
  /\ (response run1 = json (PledgeBody "p1") 200
      /\ response run2 = response run1
      /\ db run2 = db run1
      /\ bound "p1" (Some "cus_ok") (Some "pm_1") Sample.pending_db (db run1)
      /\ stored (db run2) = [("p1", SetupStatus.complete, Some "cus_ok", Some "pm_1")])
  /\ (response hook1 = json ReceivedBody 200
      /\ response hook2 = response hook1
      /\ db hook2 = db hook1
      /\ bound "p1" (Some "cus_ok") (Some "pm_1") Sample.pending_db (db hook1)
      /\ stored (db hook2) = [("p1", SetupStatus.complete, Some "cus_ok", Some "pm_1")]).
Proof.
  intros req run1 run2 w delivery hook1 hook2 stored.
  split; [exact sample_applies_pledge_updates|]. split; [reflexivity|]. split.
  - destruct (setup_reconciliation_idempotent Sample.world Sample.pending_db
                sample_applies_pledge_updates) as [(C & _ & _) (L & _ & _)];
      [reflexivity | reflexivity |].
    destruct (C req) as (E1 & E2 & _).
    destruct (L "cs_1" "p1" "cus_ok" "pm_1" None eq_refl) as (R & B & _).
    { eexists _, _, _. repeat split; try reflexivity; discriminate. }
    split; [exact R|]. split; [exact E1|]. split; [exact E2|].
    split; [exact B | reflexivity].
  - assert (A : applies_pledge_updates w) by (intros patch k rows; reflexivity).
    destruct (setup_reconciliation_idempotent w Sample.pending_db A)
      as [(_ & _ & C) (_ & _ & L)]; [reflexivity | reflexivity |].
    destruct (C delivery) as (E1 & E2 & _).
    destruct (L delivery Sample.event_ok "p1" "cus_ok" "pm_1" eq_refl eq_refl)
      as (R & B).
    { eexists _, _. repeat split; try reflexivity; discriminate. }
    split; [exact R|]. split; [exact E1|]. split; [exact E2|].
    split; [exact B | reflexivity].
Defined.

(** C8, as stated, fails: on a store that refuses the updates, the sample
    session, for which the provider has issued the payment method, is
    confirmed twice; both calls answer 200 for the pledge, and after each
    the pledge is still pending, without customer id and without payment
    method id. *)
Lemma setup_reconciliation_not_recorded :
  let req := Returned {| ConfirmSession.session_id := Some "cs_1" |} in
  let run1 := ConfirmSession.POST Sample.refusing req Sample.pending_db in
  let run2 := ConfirmSession.POST Sample.refusing req (db run1) in
  let stored (d : Db) :=
    map (fun row => (p_id row, p_setup_status row, p_stripe_customer_id row,
                     p_stripe_payment_method_id row)) (pledges d) in
  session_issued Sample.refusing "cs_1" "p1" "cus_ok" "pm_1"
  /\ response run1 = json (PledgeBody "p1") 200
  /\ response run2 = json (PledgeBody "p1") 200
  /\ stored (db run1) = [("p1", SetupStatus.pending, None, None)]
  /\ stored (db run2) = [("p1", SetupStatus.pending, None, None)].
Proof.
  intros req run1 run2 stored. split; [|repeat split].
  eexists _, _, _. repeat split; try reflexivity; discriminate.
Qed.

(** ** Scenarios of the design *)

(** [trim] on the UTF-8 encoding: a tab, a no-break space (C2 A0) and an
    ideographic space (E3 80 80) are white; a letter is not, and neither is
    a zero-width space (E2 80 8B). *)
Example isNonEmptyString_examples :
  let s (bytes : list nat) := string_of_list_ascii (map ascii_of_nat bytes) in
  isNonEmptyString (Some (s [9; 194; 160; 227; 128; 128; 32])%nat) = false
  /\ isNonEmptyString (Some (s [32; 65; 32])%nat) = true
  /\ isNonEmptyString (Some (s [226; 128; 139])%nat) = true
  /\ isNonEmptyString (Some "") = false
  /\ isNonEmptyString None = false.
Proof. repeat split. Qed.

Example string_of_Z_examples :
  RunCharges.string_of_Z 15000 = "15000"
  /\ RunCharges.string_of_Z 0 = "0"
  /\ RunCharges.string_of_Z (-5) = "-5".
Proof. repeat split. Qed.

Example scenario_A :
  Amount.computeAmountCents
    {| Amount.finalViews := 15000; Amount.viewsCap := 20000;
       Amount.ratePer1000Cents := 500; Amount.donorCapCents := None |}
  = {| Amount.computedViews := 15000; Amount.amountCents := 7500 |}.
Proof. reflexivity. Qed.

Example scenario_B :
  Amount.computeAmountCents
    {| Amount.finalViews := 500; Amount.viewsCap := 20000;
       Amount.ratePer1000Cents := 1000; Amount.donorCapCents := None |}
  = {| Amount.computedViews := 500; Amount.amountCents := 0 |}.
Proof. reflexivity. Qed.

Example scenario_C :
  Amount.computeAmountCents
    {| Amount.finalViews := 1000; Amount.viewsCap := 20000;
       Amount.ratePer1000Cents := 50; Amount.donorCapCents := None |}
  = {| Amount.computedViews := 1000; Amount.amountCents := 100 |}.
Proof. reflexivity. Qed.

Example scenario_D :
  Amount.computeAmountCents
    {| Amount.finalViews := 30000; Amount.viewsCap := 20000;
       Amount.ratePer1000Cents := 500; Amount.donorCapCents := Some 6000 |}
  = {| Amount.computedViews := 20000; Amount.amountCents := 6000 |}.
Proof. reflexivity. Qed.

(** Scenario E: the same session id confirmed twice. *)
Example scenario_E :
  let req := Returned {| ConfirmSession.session_id := Some "cs_1" |} in
  let run1 := ConfirmSession.POST Sample.world req Sample.open_db in
  let run2 := ConfirmSession.POST Sample.world req (db run1) in
  response run1 = json (PledgeBody "p1") 200
  /\ response run2 = json (PledgeBody "p1") 200
  /\ db run2 = db run1
  /\ map (fun row => (p_id row, p_stripe_customer_id row, p_stripe_payment_method_id row))
         (firstn 1 (pledges (db run2)))
     = [("p1", Some "cus_ok", Some "pm_1")].
Proof. repeat split. Qed.

(** The fallback of the second confirm handler: a bare setup intent without
    metadata is bound to the pledge created last for its customer. *)
Example fallback_by_customer :
  let req := Returned {| ConfirmSetup.session_id := None;
                         ConfirmSetup.setup_intent := Some "seti_1" |} in
  response (ConfirmSetup.POST Sample.world req Sample.open_db)
  = json (PledgeBody "p6") 200.
Proof. reflexivity. Qed.

(** Scenario F and its neighbours: the statuses the sample run leaves. *)
Example scenario_F :
  map (fun row => (p_id row, p_charge_status row, p_stripe_payment_intent_id row))
      (pledges (db (RunCharges.POST Sample.world Sample.run_request Sample.locked_db)))
  = [("p1", ChargeStatus.charged, Some "pi_ok");
     ("p2", ChargeStatus.requires_action, Some "pi_auth");
     ("p3", ChargeStatus.failed, Some "pi_declined");
     ("p4", ChargeStatus.skipped, None);
     ("p5", ChargeStatus.failed, None);
     ("p6", ChargeStatus.not_charged, None)].
Proof. reflexivity. Qed.

(** * Further properties *)

(** ** Amount calculator *)

Lemma minimum_charge_monotone (a b : Z) :
  a <= b ->
  (if (a >? 0) && (a <? 100) then 100 else a)
  <= (if (b >? 0) && (b <? 100) then 100 else b).
Proof.
  intros H.
  destruct (minimum_charge_cases a) as [[-> ?]|[-> ?]];
    destruct (minimum_charge_cases b) as [[-> ?]|[-> ?]]; lia.
Qed.

(** X1.  The amount is never strictly between 0 and 100 cents; with
    non-negative views, rate and cap it is 0 or at least 100. *)
Theorem computeAmount_zero_or_dollar (finalViews viewsCap ratePer1000Cents : Z)
    (donorCapCents : option Z) :
  let amount :=
    Amount.amountCents
      (Amount.computeAmountCents
         {| Amount.finalViews := finalViews; Amount.viewsCap := viewsCap;
            Amount.ratePer1000Cents := ratePer1000Cents;
            Amount.donorCapCents := donorCapCents |}) in
  ~ 0 < amount < 100
  /\ (0 <= Z.min finalViews viewsCap -> 0 <= ratePer1000Cents ->
      match donorCapCents with Some cap => 0 <= cap | None => True end ->
      amount = 0 \/ 100 <= amount).
Proof.
  cbv zeta. unfold Amount.computeAmountCents.
  cbn [Amount.amountCents Amount.finalViews Amount.viewsCap
       Amount.ratePer1000Cents Amount.donorCapCents].
  set (units := Z.min finalViews viewsCap / 1000).
  set (capped := match donorCapCents with Some c => _ | None => _ end).
  split.
  - destruct (minimum_charge_cases capped) as [[-> ?]|[-> ?]]; lia.
  - intros Hv Hr Hc.
    assert (0 <= units) by (apply Z.div_pos; lia).
    assert (0 <= capped).
    { subst capped. destruct donorCapCents; nia. }
    destruct (minimum_charge_cases capped) as [[-> ?]|[-> ?]]; lia.
Qed.

Lemma computeAmount_zero_or_dollar_witness :
  let amount :=
    Amount.amountCents
      (Amount.computeAmountCents
         {| Amount.finalViews := 1000; Amount.viewsCap := 20000;
            Amount.ratePer1000Cents := 50; Amount.donorCapCents := Some 30 |}) in
  amount = 0 \/ 100 <= amount.
Proof.
  apply (proj2 (computeAmount_zero_or_dollar 1000 20000 50 (Some 30))); simpl; lia.
Defined.

(** X2.  With a non-negative rate the amount does not decrease when the
    final view count grows. *)
Theorem computeAmount_monotone (finalViews finalViews' viewsCap ratePer1000Cents : Z)
    (donorCapCents : option Z) :
  finalViews <= finalViews' ->
  0 <= ratePer1000Cents ->
  Amount.amountCents
    (Amount.computeAmountCents
       {| Amount.finalViews := finalViews; Amount.viewsCap := viewsCap;
          Amount.ratePer1000Cents := ratePer1000Cents;
          Amount.donorCapCents := donorCapCents |})
  <= Amount.amountCents
       (Amount.computeAmountCents
          {| Amount.finalViews := finalViews'; Amount.viewsCap := viewsCap;
             Amount.ratePer1000Cents := ratePer1000Cents;
             Amount.donorCapCents := donorCapCents |}).
Proof.
  intros Hv Hr. unfold Amount.computeAmountCents.
  cbn [Amount.amountCents Amount.finalViews Amount.viewsCap
       Amount.ratePer1000Cents Amount.donorCapCents].
  apply minimum_charge_monotone.
  assert (U : Z.min finalViews viewsCap / 1000 <= Z.min finalViews' viewsCap / 1000)
    by (apply Z.div_le_mono; lia).
  assert (Z.min finalViews viewsCap / 1000 * ratePer1000Cents
          <= Z.min finalViews' viewsCap / 1000 * ratePer1000Cents)
    by (apply Z.mul_le_mono_nonneg_r; assumption).
  destruct donorCapCents; lia.
Qed.

Lemma computeAmount_monotone_witness :
  Amount.amountCents
    (Amount.computeAmountCents
       {| Amount.finalViews := 999; Amount.viewsCap := 20000;
          Amount.ratePer1000Cents := 500; Amount.donorCapCents := Some 6000 |})
  <= Amount.amountCents
       (Amount.computeAmountCents
          {| Amount.finalViews := 15000; Amount.viewsCap := 20000;
             Amount.ratePer1000Cents := 500; Amount.donorCapCents := Some 6000 |}).
Proof.
  apply (computeAmount_monotone 999 15000 20000 500 (Some 6000)); lia.
Defined.

(** X3.  With non-negative views and a positive rate and cap, the amount is
    zero exactly when fewer than 1000 views are counted. *)
Theorem computeAmount_zero_iff (finalViews viewsCap ratePer1000Cents : Z)
    (donorCapCents : option Z) :
  0 <= Z.min finalViews viewsCap ->
  0 < ratePer1000Cents ->
  match donorCapCents with Some cap => 0 < cap | None => True end ->
  Amount.amountCents
    (Amount.computeAmountCents
       {| Amount.finalViews := finalViews; Amount.viewsCap := viewsCap;
          Amount.ratePer1000Cents := ratePer1000Cents;
          Amount.donorCapCents := donorCapCents |}) <= 0
  <-> Z.min finalViews viewsCap < 1000.
Proof.
  intros Hv Hr Hc. unfold Amount.computeAmountCents.
  cbn [Amount.amountCents Amount.finalViews Amount.viewsCap
       Amount.ratePer1000Cents Amount.donorCapCents].
  set (counted := Z.min finalViews viewsCap) in *.
  set (capped := match donorCapCents with Some c => _ | None => _ end).
  destruct (Z.lt_ge_cases counted 1000) as [L|L].
  - assert (U : counted / 1000 = 0) by (apply Z.div_small; lia).
    assert (capped = 0).
    { subst capped. rewrite U. destruct donorCapCents; lia. }
    destruct (minimum_charge_cases capped) as [[-> ?]|[-> ?]]; lia.
  - assert (U : 1 <= counted / 1000).
    { apply Z.div_le_lower_bound; lia. }
    assert (0 < capped).
    { subst capped. destruct donorCapCents; nia. }
    destruct (minimum_charge_cases capped) as [[-> ?]|[-> ?]]; lia.
Qed.

Lemma computeAmount_zero_iff_witness :
  Amount.amountCents
    (Amount.computeAmountCents
       {| Amount.finalViews := 500; Amount.viewsCap := 20000;
          Amount.ratePer1000Cents := 1000; Amount.donorCapCents := None |}) <= 0
  <-> Z.min 500 20000 < 1000.
Proof.
  apply (computeAmount_zero_iff 500 20000 1000 None); simpl; lia.
Defined.

(** X4.  For the terms pledge creation stores (rate at least 100, cap absent
    or at least 100) and non-negative views, the minimum-charge step never
    applies: the amount is exactly the billed thousands times the rate,
    capped. *)
Theorem computeAmount_stored_terms (finalViews viewsCap ratePer1000Cents : Z)
    (donorCapCents : option Z) :
  0 <= Z.min finalViews viewsCap ->
  100 <= ratePer1000Cents ->
  match donorCapCents with Some cap => 100 <= cap | None => True end ->
  Amount.amountCents
    (Amount.computeAmountCents
       {| Amount.finalViews := finalViews; Amount.viewsCap := viewsCap;
          Amount.ratePer1000Cents := ratePer1000Cents;
          Amount.donorCapCents := donorCapCents |})
  = match donorCapCents with
    | Some cap => Z.min (Z.min finalViews viewsCap / 1000 * ratePer1000Cents) cap
    | None => Z.min finalViews viewsCap / 1000 * ratePer1000Cents
    end.
Proof.
  intros Hv Hr Hc. unfold Amount.computeAmountCents.
  cbn [Amount.amountCents Amount.finalViews Amount.viewsCap
       Amount.ratePer1000Cents Amount.donorCapCents].
  set (units := Z.min finalViews viewsCap / 1000).
  assert (0 <= units) by (apply Z.div_pos; lia).
  set (capped := match donorCapCents with Some c => _ | None => _ end).
  destruct (minimum_charge_cases capped) as [[_ B]|[-> _]]; [|reflexivity].
  exfalso. subst capped.
  assert (units = 0 \/ 1 <= units) as [Z0|P] by lia.
  - rewrite Z0 in B. destruct donorCapCents; lia.
  - destruct donorCapCents; nia.
Qed.

Lemma computeAmount_stored_terms_witness :
  Amount.amountCents
    (Amount.computeAmountCents
       {| Amount.finalViews := 30000; Amount.viewsCap := 20000;
          Amount.ratePer1000Cents := 500; Amount.donorCapCents := Some 6000 |})
  = Z.min (Z.min 30000 20000 / 1000 * 500) 6000.
Proof.
  apply (computeAmount_stored_terms 30000 20000 500 (Some 6000)); simpl; lia.
Defined.

(** ** Charge run: what a run does and does not touch *)

Lemma POST_not_completed (w : World) (req : Outcome RunCharges.Body) (d : Db) :
  status (response (RunCharges.POST w req d)) <> 200 ->
  db (RunCharges.POST w req d) = d /\ calls (RunCharges.POST w req d) = [].
Proof.
  unfold RunCharges.POST.
  destruct (getStripe w); [|split; reflexivity].
  destruct (getSupabaseAdmin w); [|split; reflexivity].
  destruct req as [body|]; [|split; reflexivity].
  destruct (negb (RunCharges.authorized w body)); [split; reflexivity|].
  destruct (String.eqb _ ""); [split; reflexivity|].
  destruct (if campaigns_select_error w then None else _) as [campaign|];
    [|split; reflexivity].
  destruct (c_final_views campaign); [|split; reflexivity].
  destruct (pledges_select_error w); [split; reflexivity|].
  cbn [response status json]. intros N. exfalso. apply N. reflexivity.
Qed.

(** X5.  A charge run that does not answer 200 has touched nothing: the
    tables are as they were and no provider call was issued. *)
Theorem charge_run_all_or_nothing (w : World) (req : Outcome RunCharges.Body) (d : Db) :
  status (response (RunCharges.POST w req d)) <> 200 ->
  db (RunCharges.POST w req d) = d /\ calls (RunCharges.POST w req d) = [].
Proof. apply POST_not_completed. Qed.

(** X5, witness: a wrong password. *)
Lemma charge_run_all_or_nothing_witness :
  let req := Returned {| RunCharges.password := Some "guess";
                         RunCharges.campaign_id := Some "c1" |} in
  status (response (RunCharges.POST Sample.world req Sample.locked_db)) = 401
  /\ db (RunCharges.POST Sample.world req Sample.locked_db) = Sample.locked_db
  /\ calls (RunCharges.POST Sample.world req Sample.locked_db) = [].
Proof.
  intros req. split; [reflexivity|].
  apply (charge_run_all_or_nothing Sample.world req Sample.locked_db).
  discriminate.
Defined.

Lemma same_terms_refl (row : Pledge) : same_terms row row.
Proof. repeat split. Qed.

Lemma same_terms_trans (a b c : Pledge) :
  same_terms a b -> same_terms b c -> same_terms a c.
Proof.
  unfold same_terms.
  intros (A1 & A2 & A3 & A4 & A5 & A6 & A7 & A8 & A9 & A10 & A11)
         (B1 & B2 & B3 & B4 & B5 & B6 & B7 & B8 & B9 & B10 & B11).
  repeat split; congruence.
Qed.



Section ChargeRunFrame.
Import RunCharges.

Variables (w : World) (campaign : Campaign) (campaignId : string)
          (finalViews viewsCap : Z).

Let step := charge_pledge w campaign campaignId finalViews viewsCap.

(** The four ways out of one iteration. *)
Ltac iteration :=
  subst step; unfold charge_pledge;
  destruct (_ <=? 0) eqn:?;
    [|destruct (_ || _) eqn:?;
      [|destruct (paymentIntents_create _ _) eqn:?;
        [|destruct (needsAction _) eqn:?]]].

Lemma charge_pledge_frame (st : Loop) (x : Selected) :
  Forall2 same_terms (rows st) (rows (step st x)).
Proof.
  eapply Forall2_impl with
    (R1 := fun b a => if String.eqb (p_id b) (id x) then same_terms b a else a = b).
  - intros b a. destruct (String.eqb _ _); [trivial | intros ->; apply same_terms_refl].
  - iteration; cbn [rows]; apply write_pledges_twice; intros _ row;
      split; cbn; repeat split.
Qed.

Lemma loop_frame (xs : list Selected) (st : Loop) (before : list Pledge) :
  Forall2 same_terms before (rows st) ->
  Forall2 same_terms before (rows (fold_left step xs st)).
Proof.
  revert st. induction xs as [|x xs IH]; intros st H; [exact H|].
  cbn [fold_left]. apply IH.
  eapply Forall2_compose; [|exact H|apply charge_pledge_frame].
  apply same_terms_trans.
Qed.

(** The calls of one iteration: none, or one charge of the pledge. *)
Lemma charge_pledge_issued (st : Loop) (x : Selected) :
  (issued (step st x) = issued st
   /\ (counts (step st x) = incr_skipped (counts st)
       \/ counts (step st x) = incr_failed (counts st)))
  \/ (issued (step st x)
      = (issued st
         ++ [paymentIntents_create_
               (charge_params campaign campaignId x
                  (Amount.computedViews (amount_of finalViews viewsCap x))
                  (Amount.amountCents (amount_of finalViews viewsCap x)))])%list
      /\ 0 < Amount.amountCents (amount_of finalViews viewsCap x)
      /\ falsy (stripe_customer_id x) = false
      /\ falsy (stripe_payment_method_id x) = false
      /\ (counts (step st x) = incr_charged (counts st)
          \/ counts (step st x) = incr_requiresAction (counts st)
          \/ counts (step st x) = incr_failed (counts st))).
Proof.
  iteration; cbn [issued counts]; try (left; split; [reflexivity | tauto]);
    right;
    match goal with
    | H : (_ <=? 0) = false |- _ => apply Z.leb_gt in H
    end;
    match goal with
    | H : _ || _ = false |- _ => apply orb_false_elim in H; destruct H
    end;
    repeat split; try assumption; tauto.
Qed.

End ChargeRunFrame.

Section ChargeRunLoops.
Import RunCharges.

Variables (w : World) (campaign : Campaign) (campaignId : string)
          (finalViews viewsCap : Z).

Let step := charge_pledge w campaign campaignId finalViews viewsCap.


Lemma loop_call_count (xs : list Selected) (st : Loop) :
  charged (counts st) + requiresAction (counts st)
    <= Z.of_nat (List.length (issued st))
    <= charged (counts st) + requiresAction (counts st) + failed (counts st) ->
  let st' := fold_left step xs st in
  charged (counts st') + requiresAction (counts st')
    <= Z.of_nat (List.length (issued st'))
    <= charged (counts st') + requiresAction (counts st') + failed (counts st').
Proof.
  revert st. induction xs as [|x xs IH]; intros st H; [exact H|].
  cbn [fold_left]. apply IH.
  destruct (charge_pledge_issued w campaign campaignId finalViews viewsCap st x)
    as [[E [C|C]]|(E & _ & _ & _ & [C|[C|C]])]; fold step in E, C; rewrite E, C;
    try rewrite length_app; cbn [List.length]; simpl; lia.
Qed.

End ChargeRunLoops.



(** X7.  In a completed run, the provider was called at least once for
    every pledge counted as charged or as requiring action, and at most once
    for every pledge counted as charged, requiring action or failed; a
    skipped pledge costs no call. *)
Theorem charge_run_call_count (w : World) (req : Outcome RunCharges.Body) (d : Db)
    (charged skipped failed requiresAction : Z) :
  response (RunCharges.POST w req d)
  = json (CountsBody charged skipped failed requiresAction) 200 ->
  charged + requiresAction
    <= Z.of_nat (List.length (calls (RunCharges.POST w req d)))
    <= charged + requiresAction + failed.
Proof.
  intros H.
  assert (H200 : status (response (RunCharges.POST w req d)) = 200)
    by (rewrite H; reflexivity).
  destruct (POST_completed w req d H200)
    as (body & campaignId & campaign & finalViews & _ & _ & E).
  rewrite E in H |- *. cbv zeta in H |- *. cbn [response calls] in H |- *.
  injection H as <- _ <- <-.
  apply loop_call_count. simpl. lia.
Qed.

(** X7, witness: the sample run, three calls for one charged, one requiring
    action and two failed. *)
Lemma charge_run_call_count_witness :
  List.length (calls (RunCharges.POST Sample.world Sample.run_request Sample.locked_db))
  = 3%nat
  /\ 1 + 1
     <= Z.of_nat (List.length
                    (calls (RunCharges.POST Sample.world Sample.run_request
                              Sample.locked_db)))
     <= 1 + 1 + 2.
Proof.
  split; [reflexivity|].
  apply (charge_run_call_count Sample.world Sample.run_request Sample.locked_db 1 1 2 1).
  reflexivity.
Defined.

(** X8.  Whatever its outcome, a charge run keeps every pledge row in
    place and never writes its identity, terms or setup columns (campaign,
    donor, rate, cap, views cap, setup status, customer, payment method,
    creation time); every campaign row is left as it was or has only its
    status set to charged. *)
Theorem charge_run_frame (w : World) (req : Outcome RunCharges.Body) (d : Db) :
  Forall2 same_terms (pledges d) (pledges (db (RunCharges.POST w req d)))
  /\ Forall2 (fun before after =>
                after = before
                \/ after = set_campaign_status CampaignStatus.charged before)
             (campaigns d) (campaigns (db (RunCharges.POST w req d))).
Proof.
  destruct (Z.eq_dec (status (response (RunCharges.POST w req d))) 200) as [H|H].
  - destruct (POST_completed w req d H)
      as (body & campaignId & campaign & finalViews & _ & _ & E).
    rewrite E. cbv zeta. cbn [db pledges campaigns]. split.
    + apply loop_frame. cbn [RunCharges.rows].
      apply Forall2_same, same_terms_refl.
    + unfold write_campaign_status, update_campaign_status. clear E.
      destruct (campaigns_update_error w _ _ _).
      * apply Forall2_same. intros c. left. reflexivity.
      * generalize (campaigns d). intros cs.
        induction cs as [|c cs IH]; simpl; constructor; [|exact IH].
        destruct (String.eqb (c_id c) campaignId); [right|left]; reflexivity.
  - destruct (POST_not_completed w req d H) as [-> _]. split.
    + apply Forall2_same, same_terms_refl.
    + apply Forall2_same. intros c. left. reflexivity.
Qed.

(** X10.  A run for a campaign with no eligible pledge, once past the
    request checks, reports four zeros, issues no call and leaves every
    pledge row as it was. *)
Theorem charge_run_nothing_to_charge (w : World) (body : RunCharges.Body) (d : Db)
    (campaignId : string) :
  RunCharges.campaign_id body = Some campaignId ->
  RunCharges.select_eligible campaignId (pledges d) = [] ->
  status (response (RunCharges.POST w (Returned body) d)) = 200 ->
  response (RunCharges.POST w (Returned body) d) = json (CountsBody 0 0 0 0) 200
  /\ calls (RunCharges.POST w (Returned body) d) = []
  /\ pledges (db (RunCharges.POST w (Returned body) d)) = pledges d.
Proof.
  intros Hid Hnone H.
  destruct (POST_completed w (Returned body) d H)
    as (body' & campaignId' & campaign & finalViews & (Hb & Hid' & _) & _ & E).
  injection Hb as <-. rewrite Hid in Hid'. injection Hid' as <-.
  rewrite E. cbv zeta. rewrite Hnone. repeat split.
Qed.

(** X10, witness: the sample campaign restricted to its one pending
    pledge. *)
Lemma charge_run_nothing_to_charge_witness :
  let d := {| campaigns := campaigns Sample.locked_db;
              pledges := skipn 5 Sample.table |} in
  response (RunCharges.POST Sample.world Sample.run_request d)
  = json (CountsBody 0 0 0 0) 200
  /\ calls (RunCharges.POST Sample.world Sample.run_request d) = []
  /\ pledges (db (RunCharges.POST Sample.world Sample.run_request d)) = pledges d.
Proof.
  intros d.
  apply (charge_run_nothing_to_charge Sample.world
           {| RunCharges.password := Some "secret"; RunCharges.campaign_id := Some "c1" |}
           d "c1"); reflexivity.
Defined.

Section ChargeRunRecords.
Import RunCharges.

Variables (w : World) (campaign : Campaign) (campaignId : string)
          (finalViews viewsCap : Z).

Hypothesis applied : applies_pledge_updates w.

Let step := charge_pledge w campaign campaignId finalViews viewsCap.

Lemma charge_pledge_records (st : Loop) (x : Selected) :
  Forall2 (fun b a => if String.eqb (p_id b) (id x)
                      then p_id a = p_id b /\ recorded finalViews viewsCap [x] a
                      else a = b)
          (rows st) (rows (step st x)).
Proof.
  subst step. unfold charge_pledge.
  destruct (Z.leb_spec (Amount.amountCents (amount_of finalViews viewsCap x)) 0)
    as [Hle|Hgt];
    [|destruct (_ || _);
      [|destruct (paymentIntents_create _ _); [|destruct (needsAction _)]]];
    cbn [rows].
  all: rewrite !(write_pledges_applied w _ _ _ (applied _ _ _)).
  all: (eapply Forall2_impl;
    [|apply update_pledges_twice with
        (P := fun b a => String.eqb (p_id b) (id x) = true ->
                         p_id a = p_id b /\ recorded finalViews viewsCap [x] a)];
    [intros b0 a0 H0; cbv beta in H0;
     destruct (String.eqb (p_id b0) (id x)); auto|]).
  all: intros row Hrow; apply String.eqb_eq in Hrow;
    (split; [rewrite !apply_patch_id; reflexivity|]);
    exists x; split; [left; reflexivity|];
    split; [rewrite !apply_patch_id; symmetry; exact Hrow|];
    cbn [apply_patch fold_left assign p_computed_views p_computed_amount_cents
         p_charge_status p_stripe_payment_intent_id p_error_message];
    repeat split; intros; try discriminate; try lia; try tauto.
  all: try match goal with
           | H : _ \/ _ |- _ => destruct H; discriminate
           end.
Qed.

Lemma recorded_incl (xs ys : list Selected) (row : Pledge) :
  incl xs ys -> recorded finalViews viewsCap xs row ->
  recorded finalViews viewsCap ys row.
Proof.
  intros I (x & Hx & H). exists x. split; [apply I, Hx | exact H].
Qed.

Lemma loop_records (all : list Selected) (before : list Pledge) :
  Forall2 (tracked (recorded finalViews viewsCap all) (fun k => In k (map id all)))
          before
          (rows (fold_left step all {| counts := zero; rows := before; issued := [] |})).
Proof.
  apply loop_tracked_from_start. intros st x Hx.
  eapply Forall2_impl; [|apply charge_pledge_records].
  intros b a H. cbv beta in H.
  destruct (String.eqb (p_id b) (id x)); [|exact H].
  destruct H as [Hid Hr]. split; [exact Hid|].
  eapply recorded_incl; [|exact Hr].
  intros y [<-|[]]. exact Hx.
Qed.

End ChargeRunRecords.

(** X9.  After a completed run on a store that applies the updates, every
    row that was eligible carries the counted views [min(final_views,
    views_cap)] of the campaign and the amount computed for a selected
    pledge of its id; it is skipped exactly when that amount is not
    positive; a charged row holds a payment intent id and no error message;
    a failed row and a row requiring action hold an error message. *)
Theorem charge_run_records (w : World) (req : Outcome RunCharges.Body) (d : Db) :
  applies_pledge_updates w ->
  status (response (RunCharges.POST w req d)) = 200 ->
  exists body campaignId campaign finalViews,
    req = Returned body
    /\ RunCharges.campaign_id body = Some campaignId
    /\ select_campaign campaignId (campaigns d) = Some campaign
    /\ c_final_views campaign = Some finalViews
    /\ Forall2 (fun before after =>
                  RunCharges.eligible campaignId before = true ->
                  recorded finalViews (views_cap_or_default (c_views_cap campaign))
                           (RunCharges.select_eligible campaignId (pledges d)) after)
               (pledges d) (pledges (db (RunCharges.POST w req d))).
Proof.
  intros A H.
  destruct (POST_completed w req d H)
    as (body & campaignId & campaign & finalViews & (Hb & Hid & Hc & Hf) & _ & E).
  exists body, campaignId, campaign, finalViews.
  repeat (split; [assumption|]).
  rewrite E. cbv zeta. cbn [db pledges].
  eapply Forall2_impl;
    [|apply Forall2_In_left,
        (loop_records w campaign campaignId finalViews
           (views_cap_or_default (c_views_cap campaign)) A
           (RunCharges.select_eligible campaignId (pledges d)) (pledges d))].
  intros b a (Hin & _ & Hd & _) Hb'. apply Hd.
  apply selected_id; assumption.
Qed.

(** X9, witness: the fourth sample pledge, capped at 0, is skipped with a
    computed amount of 0 over 15000 counted views. *)
Lemma charge_run_records_witness :
  let run := RunCharges.POST Sample.world Sample.run_request Sample.locked_db in
  status (response run) = 200
  /\ map (fun row => (p_computed_views row, p_computed_amount_cents row))
         (pledges (db run))
     = [(Some 15000, Some 7500); (Some 15000, Some 6000); (Some 15000, Some 7500);
        (Some 15000, Some 0); (Some 15000, Some 7500); (None, None)]
  /\ Forall2 (fun before after =>
                RunCharges.eligible "c1" before = true ->
                recorded 15000 20000
                         (RunCharges.select_eligible "c1" (pledges Sample.locked_db))
                         after)
             (pledges Sample.locked_db) (pledges (db run)).
Proof.
  intros run. split; [reflexivity|]. split; [reflexivity|].
  destruct (charge_run_records Sample.world Sample.run_request Sample.locked_db
              sample_applies_pledge_updates eq_refl)
    as (body & campaignId & campaign & finalViews & E1 & E2 & E3 & E4 & F).
  injection E1 as <-. injection E2 as <-. injection E3 as <-. injection E4 as <-.
  exact F.
Defined.

(** ** Final view count *)

Lemma Qfloor_nonneg (q : Q) : Qle_bool 0%Q q = true -> 0 <= Qfloor q.
Proof.
  intros H. apply Qle_bool_iff in H.
  change 0 with (Qfloor (inject_Z 0)). apply Qfloor_resp_le. exact H.
Qed.

Lemma select_locked_campaign (v : Z) (k : string) (rows : list Campaign) :
  select_campaign k (SetViews.update_campaign v k rows)
  = option_map (SetViews.lock v) (select_campaign k rows).
Proof.
  unfold select_campaign, SetViews.update_campaign.
  assert (E : filter (fun row => String.eqb (c_id row) k)
                (map (fun row => if String.eqb (c_id row) k
                                 then SetViews.lock v row else row) rows)
              = map (SetViews.lock v) (filter (fun row => String.eqb (c_id row) k) rows)).
  { induction rows as [|row rows IH]; simpl; [reflexivity|].
    destruct (String.eqb (c_id row) k) eqn:Ek; simpl; rewrite Ek, IH; reflexivity. }
  rewrite E. destruct (filter _ rows) as [|c [|c' l]]; reflexivity.
Qed.

(** What a set-views request that answers 200 went through. *)
Lemma SetViews_completed (w : World) (update_error : option string)
    (req : Outcome SetViews.Body) (d : Db) :
  SetViews.code (SetViews.reply (SetViews.POST w update_error req d)) = 200 ->
  exists body campaignId campaign finalViews,
    (req = Returned body
     /\ SetViews.campaign_id body = Some campaignId
     /\ SetViews.final_views body = Some finalViews
     /\ select_campaign campaignId (campaigns d) = Some campaign)
    /\ (SetViews.authorized w body = true
        /\ String.eqb campaignId "" = false
        /\ Qle_bool 0%Q finalViews = true
        /\ getSupabaseAdmin w = Returned tt
        /\ campaigns_select_error w = false
        /\ c_status campaign <> CampaignStatus.charged
        /\ update_error = None)
    /\ SetViews.after (SetViews.POST w update_error req d)
       = {| campaigns := SetViews.update_campaign (Qfloor finalViews) campaignId
                           (campaigns d);
            pledges := pledges d |}.
Proof.
  unfold SetViews.POST.
  destruct req as [body|]; [|discriminate].
  destruct (SetViews.authorized w body) eqn:Ea; [|discriminate]. cbn [negb].
  destruct (SetViews.campaign_id body) as [campaignId|] eqn:Ei; [|discriminate].
  destruct (String.eqb campaignId "") eqn:En; [discriminate|]. cbn [orb].
  destruct (SetViews.final_views body) as [finalViews|] eqn:Ev; [|discriminate].
  destruct (Qle_bool 0 finalViews) eqn:Eq; [|discriminate]. cbn [negb].
  destruct (getSupabaseAdmin w) as [[]|]; [|discriminate].
  destruct (campaigns_select_error w) eqn:Es; [discriminate|].
  destruct (select_campaign campaignId (campaigns d)) as [campaign|] eqn:Ec;
    [|discriminate].
  destruct (CampaignStatus.eqb (c_status campaign) CampaignStatus.charged) eqn:Eg;
    [discriminate|].
  destruct update_error; [discriminate|].
  intros _. exists body, campaignId, campaign, finalViews.
  repeat split; try reflexivity; try assumption.
  intros K. rewrite K in Eg. discriminate Eg.
Qed.

Lemma SetViews_not_completed (w : World) (update_error : option string)
    (req : Outcome SetViews.Body) (d : Db) :
  SetViews.code (SetViews.reply (SetViews.POST w update_error req d)) <> 200 ->
  SetViews.after (SetViews.POST w update_error req d) = d.
Proof.
  unfold SetViews.POST.
  destruct req as [body|]; [|reflexivity].
  destruct (negb (SetViews.authorized w body)); [reflexivity|].
  destruct (_ || _); [reflexivity|].
  destruct (getSupabaseAdmin w); [|reflexivity].
  destruct (if campaigns_select_error w then None else _) as [campaign|];
    [|reflexivity].
  destruct (CampaignStatus.eqb _ _); [reflexivity|].
  destruct update_error; [reflexivity|].
  intros N. exfalso. apply N. reflexivity.
Qed.

(** X11.  Set-views refuses a charged campaign: the tables stay as they
    were and the reply is an error, the 400 [Campaign is already charged]
    when the request is authorized, well formed and the store answers. *)
Theorem set_views_refuses_charged (w : World) (update_error : option string)
    (body : SetViews.Body) (d : Db) (campaignId : string) (campaign : Campaign) :
  SetViews.campaign_id body = Some campaignId ->
  select_campaign campaignId (campaigns d) = Some campaign ->
  c_status campaign = CampaignStatus.charged ->
  let result := SetViews.POST w update_error (Returned body) d in
  SetViews.after result = d
  /\ SetViews.code (SetViews.reply result) <> 200
  /\ (SetViews.authorized w body = true ->
      campaignId <> "" ->
      (exists finalViews, SetViews.final_views body = Some finalViews
                          /\ Qle_bool 0%Q finalViews = true) ->
      getSupabaseAdmin w = Returned tt ->
      campaigns_select_error w = false ->
      SetViews.reply result
      = {| SetViews.code := 400;
           SetViews.error := Some "Campaign is already charged" |}).
Proof.
  intros Hid Hc Hs. cbv zeta.
  assert (N : SetViews.code (SetViews.reply
                (SetViews.POST w update_error (Returned body) d)) <> 200).
  { intros H. destruct (SetViews_completed w update_error (Returned body) d H)
      as (body' & k & c & q & (Hb & Hk & _ & Hsel) & (_ & _ & _ & _ & _ & Hn & _) & _).
    injection Hb as <-. rewrite Hid in Hk. injection Hk as <-.
    rewrite Hc in Hsel. injection Hsel as <-. contradiction. }
  split; [apply SetViews_not_completed, N|]. split; [exact N|].
  intros Ha Hne (q & Hq & Hq0) Hg He.
  unfold SetViews.POST. rewrite Ha, Hid, Hq, Hq0, Hg, He, Hc, Hs.
  destruct (String.eqb_spec campaignId ""); [contradiction|]. reflexivity.
Qed.

(** X11, witness: the charged sample campaign. *)
Lemma set_views_refuses_charged_witness :
  let body := {| SetViews.password := Some "secret";
                 SetViews.campaign_id := Some "c1";
                 SetViews.final_views := Some (99 # 1)%Q |} in
  let result := SetViews.POST Sample.world None (Returned body) Sample.charged_db in
  SetViews.after result = Sample.charged_db
  /\ SetViews.reply result
     = {| SetViews.code := 400; SetViews.error := Some "Campaign is already charged" |}.
Proof.
  intros body result.
  destruct (set_views_refuses_charged Sample.world None body Sample.charged_db "c1"
              (Sample.campaign CampaignStatus.charged (Some 15000))
              eq_refl eq_refl eq_refl) as (E1 & _ & E2).
  split; [exact E1|].
  apply E2; try reflexivity; [discriminate|].
  exists (99 # 1)%Q. split; reflexivity.
Defined.

(** X12.  A set-views request that answers 200 leaves the pledges and
    every other campaign untouched and turns the requested campaign, which
    was not charged, into a locked one whose [final_views] is the floor of
    the number sent, a non-negative integer; its other columns are kept. *)
Theorem set_views_locks (w : World) (update_error : option string)
    (req : Outcome SetViews.Body) (d : Db) :
  let result := SetViews.POST w update_error req d in
  SetViews.code (SetViews.reply result) = 200 ->
  exists body campaignId campaign finalViews,
    req = Returned body
    /\ SetViews.campaign_id body = Some campaignId
    /\ SetViews.final_views body = Some finalViews
    /\ select_campaign campaignId (campaigns d) = Some campaign
    /\ c_status campaign <> CampaignStatus.charged
    /\ 0 <= Qfloor finalViews
    /\ pledges (SetViews.after result) = pledges d
    /\ select_campaign campaignId (campaigns (SetViews.after result))
       = Some {| c_id := c_id campaign; c_name := c_name campaign;
                 c_views_cap := c_views_cap campaign;
                 c_final_views := Some (Qfloor finalViews);
                 c_status := CampaignStatus.locked |}
    /\ Forall2 (fun before after => c_id before <> campaignId -> after = before)
               (campaigns d) (campaigns (SetViews.after result)).
Proof.
  cbv zeta. intros H.
  destruct (SetViews_completed w update_error req d H)
    as (body & k & c & q & (Hb & Hk & Hq & Hsel) & (_ & _ & Hq0 & _ & _ & Hn & _) & E).
  exists body, k, c, q. rewrite E. cbn [pledges campaigns].
  repeat (split; [assumption|]).
  split; [apply Qfloor_nonneg, Hq0|]. split; [reflexivity|]. split.
  - rewrite select_locked_campaign, Hsel. reflexivity.
  - unfold SetViews.update_campaign. clear.
    induction (campaigns d) as [|row rows IH]; simpl; constructor; [|exact IH].
    destruct (String.eqb_spec (c_id row) k); [contradiction | reflexivity].
Qed.

(** X12, witness: 15000.9 views for the open sample campaign. *)
Lemma set_views_locks_witness :
  let body := {| SetViews.password := Some "secret";
                 SetViews.campaign_id := Some "c1";
                 SetViews.final_views := Some (150009 # 10)%Q |} in
  let result := SetViews.POST Sample.world None (Returned body) Sample.open_db in
  SetViews.code (SetViews.reply result) = 200
  /\ SetViews.after result = Sample.locked_db.
Proof.
  intros body result. split; [reflexivity|].
  destruct (set_views_locks Sample.world None (Returned body) Sample.open_db eq_refl)
    as (_ & _ & _ & _ & _ & _ & _ & _ & _ & _ & _ & _ & _).
  reflexivity.
Defined.



(** ** Pledge creation *)

(** X14.  Pledge creation acts only on an open campaign: against a
    campaign in any other status it writes no row, issues no provider call
    and does not answer 200. *)
Theorem pledge_creation_needs_open_campaign
    (w : World) (d : Db) (body : PledgeCreate.Body) (campaign : Campaign) :
  select_campaign (text (PledgeCreate.campaign_id body)) (campaigns d) = Some campaign ->
  c_status campaign <> CampaignStatus.open ->
  let run := PledgeCreate.POST w (Returned body) d in
  db run = d /\ calls run = [] /\ status (response run) <> 200.
Proof.
  intros Hc Hs. cbv zeta. unfold PledgeCreate.POST.
  destruct (_ || _); [repeat split; discriminate|].
  destruct (PledgeCreate.below_one (PledgeCreate.rate_per_1000 body));
    [repeat split; discriminate|].
  destruct (match PledgeCreate.cap_amount body with
            | Some capAmount => PledgeCreate.below_one capAmount
            | None => false
            end); [repeat split; discriminate|].
  destruct (getSupabaseAdmin w); [|repeat split; discriminate].
  destruct (campaigns_select_error w); [repeat split; discriminate|].
  rewrite Hc.
  destruct (c_status campaign); [contradiction| |];
    repeat split; discriminate.
Qed.

(** X14, witness: the locked sample campaign. *)
Lemma pledge_creation_needs_open_campaign_witness :
  let body := {| PledgeCreate.campaign_id := Some "c1";
                 PledgeCreate.name := Some "Ada";
                 PledgeCreate.email := Some "ada@example.org";
                 PledgeCreate.rate_per_1000 := Some (5 # 1)%Q;
                 PledgeCreate.cap_amount := None |} in
  let run := PledgeCreate.POST Sample.world (Returned body) Sample.locked_db in
  db run = Sample.locked_db /\ calls run = [] /\ status (response run) <> 200.
Proof.
  intros body run.
  apply (pledge_creation_needs_open_campaign Sample.world Sample.locked_db body
           (Sample.campaign CampaignStatus.locked (Some 15000)));
    [reflexivity | discriminate].
Defined.

Lemma sample_rounds_dollars_up : rounds_dollars_up Sample.world.
Proof.
  intros q H. apply Qle_bool_iff in H.
  change (Math_round_times_100 Sample.world q) with (Qfloor (q * 100 + (1 # 2))%Q).
  change 100 with (Qfloor (inject_Z 100)). apply Qfloor_resp_le.
  apply Qle_trans with (1 * 100)%Q; [unfold Qle; simpl; lia|].
  apply Qle_trans with (q * 100)%Q.
  - apply Qmult_le_compat_r; [exact H | unfold Qle; simpl; lia].
  - apply Qle_trans with (q * 100 + 0)%Q.
    + rewrite Qplus_0_r. apply Qle_refl.
    + apply Qplus_le_r. unfold Qle; simpl; lia.
Qed.

Lemma not_below_one (x : option Q) :
  PledgeCreate.below_one x = false -> exists q, x = Some q /\ Qle_bool 1%Q q = true.
Proof.
  destruct x as [q|]; [|discriminate]. simpl. intros H.
  exists q. split; [reflexivity|]. destruct (Qle_bool 1 q); [reflexivity|discriminate].
Qed.


(** The outcomes of pledge creation, by what was written. *)
Lemma PledgeCreate_outcomes (w : World) (body : PledgeCreate.Body) (d : Db) :
  let run := PledgeCreate.POST w (Returned body) d in
  (db run = d /\ calls run = [] /\ status (response run) <> 200)
  \/ exists campaign rate id created_at,
       select_campaign (text (PledgeCreate.campaign_id body)) (campaigns d) = Some campaign
       /\ c_status campaign = CampaignStatus.open
       /\ PledgeCreate.rate_per_1000 body = Some rate
       /\ Qle_bool 1%Q rate = true
       /\ match PledgeCreate.cap_amount body with
          | Some capAmount => PledgeCreate.below_one capAmount
          | None => false
          end = false
       /\ pledges_insert w (pledges d) = Inserted id created_at
       /\ let row := PledgeCreate.new_pledge id created_at body
                       (Math_round_times_100 w rate)
                       match PledgeCreate.cap_amount body with
                       | Some (Some q) => Some (Math_round_times_100 w q)
                       | _ => None
                       end
                       (views_cap_or_default (c_views_cap campaign)) in
          let customer_params :=
            {| cc_email := text (PledgeCreate.email body);
               cc_name := text (PledgeCreate.name body);
               cc_pledge_id := id;
               cc_campaign_id := text (PledgeCreate.campaign_id body) |} in
          (db run = set_pledges (pledges d ++ [row])%list d
           /\ status (response run) = 500
           /\ (calls run = [] \/ calls run = [customers_create_ customer_params]
               \/ exists customer,
                    calls run
                    = [customers_create_ customer_params;
                       checkout_sessions_create_
                         {| sc_mode := "setup"; sc_customer := customer;
                            sc_success_url := SUCCESS_URL w;
                            sc_cancel_url := CANCEL_URL w;
                            sc_pledge_id := id;
                            sc_campaign_id := text (PledgeCreate.campaign_id body);
                            sc_flow := "pledge_setup" |}]))
          \/ exists customer url,
               customers_create w customer_params = Returned customer
               /\ response run = json (UrlBody url) 200
               /\ db run
                  = set_pledges
                      (write_pledges w [stripe_customer_id_ (Some customer)] id
                         (pledges d ++ [row])%list) d
               /\ calls run
                  = [customers_create_ customer_params;
                     checkout_sessions_create_
                       {| sc_mode := "setup"; sc_customer := customer;
                          sc_success_url := SUCCESS_URL w;
                          sc_cancel_url := CANCEL_URL w;
                          sc_pledge_id := id;
                          sc_campaign_id := text (PledgeCreate.campaign_id body);
                          sc_flow := "pledge_setup" |}].
Proof.
  cbv zeta. unfold PledgeCreate.POST, PledgeCreate.cents.
  destruct (_ || _); [left; repeat split; discriminate|].
  destruct (PledgeCreate.below_one (PledgeCreate.rate_per_1000 body)) eqn:Er;
    [left; repeat split; discriminate|].
  destruct (match PledgeCreate.cap_amount body with
            | Some capAmount => PledgeCreate.below_one capAmount
            | None => false
            end) eqn:Ecap; [left; repeat split; discriminate|].
  destruct (getSupabaseAdmin w); [|left; repeat split; discriminate].
  destruct (campaigns_select_error w); [left; repeat split; discriminate|].
  destruct (select_campaign _ (campaigns d)) as [campaign|] eqn:Ec;
    [|left; repeat split; discriminate].
  destruct (c_status campaign) eqn:Es;
    try (left; repeat split; discriminate).
  cbn [CampaignStatus.eqb negb].
  destruct (pledges_insert w (pledges d)) as [id created_at|] eqn:Ei;
    [|left; repeat split; discriminate].
  destruct (not_below_one _ Er) as (rate & Hr & Hr1). rewrite Hr.
  right. exists campaign, rate, id, created_at.
  repeat (split; [first [assumption | reflexivity]|]).
  cbv zeta.
  destruct (getStripe w); [|left; repeat split; left; reflexivity].
  destruct (customers_create w _) as [customer|] eqn:Ecu;
    [|left; repeat split; right; left; reflexivity].
  destruct (checkout_sessions_create w _) as [url|].
  - right. exists customer, url. repeat split.
  - left. repeat split. right. right. exists customer. reflexivity.
Qed.



(** X16.  When pledge creation has written to the store and does not
    answer 200 (the provider client is not configured, or creating the
    customer or the checkout session failed), it answers 500 and the row it
    inserted stays: appended to the table, pending, not charged, without
    customer id. *)
Theorem pledge_creation_leaves_row_on_failure
    (w : World) (body : PledgeCreate.Body) (d : Db) :
  let run := PledgeCreate.POST w (Returned body) d in
  db run <> d ->
  status (response run) <> 200 ->
  status (response run) = 500
  /\ campaigns (db run) = campaigns d
  /\ exists row,
       pledges (db run) = (pledges d ++ [row])%list
       /\ p_campaign_id row = text (PledgeCreate.campaign_id body)
       /\ p_setup_status row = SetupStatus.pending
       /\ p_charge_status row = ChargeStatus.not_charged
       /\ p_stripe_customer_id row = None.
Proof.
  cbv zeta. intros Hd Hn.
  destruct (PledgeCreate_outcomes w body d)
    as [(E & _)|(campaign & rate & id & created_at & _ & _ & _ & _ & _
                 & _ & [(Ed & Es & _)|(customer & url & _ & Er & _)])].
  - contradiction.
  - rewrite Ed. split; [exact Es|]. split; [reflexivity|].
    eexists. split; [reflexivity|]. repeat split.
  - rewrite Er in Hn. exfalso. apply Hn. reflexivity.
Qed.

(** X16, witness: the sample world with a provider that refuses to create
    customers. *)
Lemma pledge_creation_leaves_row_on_failure_witness :
  let w := Sample.world_with false (fun _ => Threw (Error "rate limited"))
             Sample.event in
  let body := {| PledgeCreate.campaign_id := Some "c1";
                 PledgeCreate.name := Some "Ada";
                 PledgeCreate.email := Some "ada@example.org";
                 PledgeCreate.rate_per_1000 := Some (5 # 1)%Q;
                 PledgeCreate.cap_amount := None |} in
  let run := PledgeCreate.POST w (Returned body) Sample.open_db in
  response run = json (ErrorBody "rate limited") 500
  /\ List.length (pledges (db run)) = 7%nat
  /\ status (response run) = 500.
Proof.
  intros w body run. split; [reflexivity|]. split; [reflexivity|].
  apply (pledge_creation_leaves_row_on_failure w body Sample.open_db).
  - intros E. apply (f_equal (fun x => List.length (pledges x))) in E.
    vm_compute in E. discriminate E.
  - vm_compute. discriminate.
Defined.

Lemma eligible_ids_after_customer_update (w : World) (campaignId k : string)
    (v : option string) (rows : list Pledge) :
  map p_id (filter (RunCharges.eligible campaignId)
              (write_pledges w [stripe_customer_id_ v] k rows))
  = map p_id (filter (RunCharges.eligible campaignId) rows).
Proof.
  unfold write_pledges.
  destruct (pledges_update_error w _ _ _); [reflexivity|].
  unfold update_pledges.
  induction rows as [|row rows IH]; cbn [map filter]; [reflexivity|].
  destruct (String.eqb (p_id row) k).
  - change (RunCharges.eligible campaignId (apply_patch [stripe_customer_id_ v] row))
      with (RunCharges.eligible campaignId row).
    destruct (RunCharges.eligible campaignId row); cbn [map]; rewrite IH;
      [rewrite apply_patch_id|]; reflexivity.
  - destruct (RunCharges.eligible campaignId row); cbn [map]; rewrite IH; reflexivity.
Qed.

(** X17.  Pledge creation never makes a pledge chargeable: whatever its
    outcome, the pledges that the charge run's eligibility filter selects,
    for any campaign, are the same after as before. *)
Theorem pledge_creation_adds_no_eligible_pledge
    (w : World) (req : Outcome PledgeCreate.Body) (d : Db) (campaignId : string) :
  map RunCharges.id
      (RunCharges.select_eligible campaignId (pledges (db (PledgeCreate.POST w req d))))
  = map RunCharges.id (RunCharges.select_eligible campaignId (pledges d)).
Proof.
  destruct req as [body|e]; [|reflexivity].
  unfold RunCharges.select_eligible. rewrite !map_map.
  change (fun x => RunCharges.id (RunCharges.columns x)) with p_id.
  destruct (PledgeCreate_outcomes w body d)
    as [(E & _)|(campaign & rate & id & created_at & _ & _ & _ & _ & _
                 & _ & [(Ed & _)|(customer & url & _ & _ & Ed & _)])];
    cbv zeta in *.
  - rewrite E. reflexivity.
  - rewrite Ed. cbn [set_pledges pledges]. rewrite filter_app. cbn [filter].
    unfold RunCharges.eligible at 2. cbn [PledgeCreate.new_pledge p_setup_status
      p_campaign_id p_charge_status SetupStatus.eqb].
    rewrite andb_false_r. cbn [andb]. rewrite app_nil_r. reflexivity.
  - rewrite Ed. cbn [set_pledges pledges].
    rewrite eligible_ids_after_customer_update, filter_app. cbn [filter].
    unfold RunCharges.eligible at 2. cbn [PledgeCreate.new_pledge p_setup_status
      p_campaign_id p_charge_status SetupStatus.eqb].
    rewrite andb_false_r. cbn [andb]. rewrite app_nil_r. reflexivity.
Qed.

(** ** Setup reconciliation: what it touches *)

Lemma same_charge_side_refl (row : Pledge) : same_charge_side row row.
Proof. repeat split. Qed.

Lemma same_charge_side_trans (a b c : Pledge) :
  same_charge_side a b -> same_charge_side b c -> same_charge_side a c.
Proof.
  unfold same_charge_side.
  intros (A1 & A2 & A3 & A4 & A5 & A6 & A7 & A8 & A9 & A10 & A11 & A12)
         (B1 & B2 & B3 & B4 & B5 & B6 & B7 & B8 & B9 & B10 & B11 & B12).
  repeat split; congruence.
Qed.

Lemma setup_patch_keeps_charge_side (patch : list PledgeAssign) (row : Pledge) :
  Forall is_setup_assign patch -> same_charge_side row (apply_patch patch row).
Proof.
  unfold apply_patch. intros H. revert row.
  induction H as [|a patch Ha _ IH]; intros row; simpl.
  - apply same_charge_side_refl.
  - eapply same_charge_side_trans; [|apply IH].
    destruct a; try contradiction; repeat split.
Qed.

Lemma run_plan_setup_only (w : World) (plan : Plan) (d : Db) :
  setup_only plan ->
  campaigns (run_plan w plan d) = campaigns d
  /\ Forall2 (fun before after =>
                same_charge_side before after
                /\ (Some (p_id before) <> target plan -> after = before))
             (pledges d) (pledges (run_plan w plan d)).
Proof.
  destruct plan as [[patch k]|]; simpl; intros H; (split; [reflexivity|]).
  - eapply Forall2_impl;
      [|apply write_pledges_rows with (P := same_charge_side);
        [apply same_charge_side_refl
        |intros row; apply setup_patch_keeps_charge_side, H]].
    intros b a Hba. cbv beta in Hba.
    destruct (String.eqb_spec (p_id b) k) as [E|E].
    + split; [exact Hba|].
      intros N. exfalso. apply N. rewrite E. reflexivity.
    + subst a. split; [apply same_charge_side_refl | reflexivity].
  - apply Forall2_same. intros row. split; [apply same_charge_side_refl | reflexivity].
Qed.

Ltac plan_found :=
  solve [ exists None; split; [reflexivity | exact I]
        | eexists (Some (_, _)); split; [reflexivity | repeat constructor] ].

Lemma ConfirmSession_plan (w : World) (req : Outcome ConfirmSession.Body) (d : Db) :
  exists plan, db (ConfirmSession.POST w req d) = run_plan w plan d /\ setup_only plan.
Proof. unfold ConfirmSession.POST. branches; plan_found. Qed.

Lemma ConfirmSetup_plan (w : World) (req : Outcome ConfirmSetup.Body) (d : Db) :
  exists plan, db (ConfirmSetup.POST w req d) = run_plan w plan d /\ setup_only plan.
Proof.
  unfold ConfirmSetup.POST, ConfirmSetup.resolve, ConfirmSetup.reconcile.
  branches; plan_found.
Qed.

Lemma Webhook_plan (w : World) (req : Webhook.Request) (d : Db) :
  exists plan, db (Webhook.POST w req d) = run_plan w plan d /\ setup_only plan.
Proof. unfold Webhook.POST. branches; plan_found. Qed.

(** X19.  Whatever their outcome, the three setup handlers leave the
    campaigns as they were and write to the rows of at most one pledge id;
    on those rows they never write the charge side (charge status, payment
    intent id, computed views and amount) nor the identity and terms of the
    pledge. *)
Theorem setup_reconciliation_frame (w : World) (d : Db) :
  let kept (after : Db) :=
    campaigns after = campaigns d
    /\ exists touched : option string,
         Forall2 (fun before row =>
                    same_charge_side before row
                    /\ (Some (p_id before) <> touched -> row = before))
                 (pledges d) (pledges after) in
  (forall req, kept (db (ConfirmSession.POST w req d)))
  /\ (forall req, kept (db (ConfirmSetup.POST w req d)))
  /\ (forall req, kept (db (Webhook.POST w req d))).
Proof.
  cbv zeta. split; [|split]; intros req.
  - destruct (ConfirmSession_plan w req d) as (plan & -> & H).
    destruct (run_plan_setup_only w plan d H) as [E F].
    split; [exact E|]. exists (target plan). exact F.
  - destruct (ConfirmSetup_plan w req d) as (plan & -> & H).
    destruct (run_plan_setup_only w plan d H) as [E F].
    split; [exact E|]. exists (target plan). exact F.
  - destruct (Webhook_plan w req d) as (plan & -> & H).
    destruct (run_plan_setup_only w plan d H) as [E F].
    split; [exact E|]. exists (target plan). exact F.
Qed.

(** X18.  The webhook acts only on a signed [checkout.session.completed]
    event of flow [pledge_setup] that names a pledge: when it changes the
    tables or calls the provider, the request carried a signature, the
    provider accepted it, and the event is of that kind. *)
Theorem webhook_acts_on_pledge_setup_only (w : World) (req : Webhook.Request) (d : Db) :
  db (Webhook.POST w req d) <> d \/ calls (Webhook.POST w req d) <> [] ->
  falsy (Webhook.signature req) = false
  /\ exists event,
       webhooks_constructEvent w (Webhook.rawBody req) (text (Webhook.signature req))
         (STRIPE_WEBHOOK_SECRET w) = Returned event
       /\ ev_type event = "checkout.session.completed"
       /\ flow_of (es_metadata (ev_object event)) = Some "pledge_setup"
       /\ falsy (pledge_id_of (es_metadata (ev_object event))) = false.
Proof.
  unfold Webhook.POST.
  destruct (getStripe w); [|intros [N|N]; exfalso; apply N; reflexivity].
  destruct (getSupabaseAdmin w); [|intros [N|N]; exfalso; apply N; reflexivity].
  destruct (falsy (Webhook.signature req)) eqn:Es;
    [intros [N|N]; exfalso; apply N; reflexivity|].
  destruct (webhooks_constructEvent w _ _ _) as [event|] eqn:Ee;
    [|intros [N|N]; exfalso; apply N; reflexivity].
  destruct (String.eqb_spec (ev_type event) "checkout.session.completed") as [Et|Et];
    [|intros [N|N]; exfalso; apply N; reflexivity].
  destruct (is_pledge_setup _ && negb _) eqn:Ef;
    [|intros [N|N]; exfalso; apply N; reflexivity].
  intros _. split; [reflexivity|]. exists event.
  apply andb_prop in Ef. destruct Ef as [Ef Ep]. apply negb_true_iff in Ep.
  repeat split; try assumption.
  unfold is_pledge_setup in Ef.
  destruct (flow_of _) as [f|]; [|discriminate].
  apply String.eqb_eq in Ef. congruence.
Qed.

(** X18, witness: the sample event. *)
Lemma webhook_acts_on_pledge_setup_only_witness :
  let req := {| Webhook.signature := Some "t=1,v1=0"; Webhook.rawBody := "{}" |} in
  calls (Webhook.POST Sample.world req Sample.open_db)
  = [setupIntents_retrieve_ "seti_down"]
  /\ falsy (Webhook.signature req) = false
  /\ exists event,
       webhooks_constructEvent Sample.world (Webhook.rawBody req)
         (text (Webhook.signature req)) (STRIPE_WEBHOOK_SECRET Sample.world)
       = Returned event
       /\ ev_type event = "checkout.session.completed"
       /\ flow_of (es_metadata (ev_object event)) = Some "pledge_setup"
       /\ falsy (pledge_id_of (es_metadata (ev_object event))) = false.
Proof.
  intros req. split; [reflexivity|].
  apply (webhook_acts_on_pledge_setup_only Sample.world req Sample.open_db).
  right. discriminate.
Defined.

(** X20.  The second confirm handler extends the first: whenever the
    session handler answers 200 for a session id, the session-or-intent
    handler, given the same session id (and any [setup_intent] field),
    answers the same, issues the same provider calls and leaves the same
    tables. *)
Theorem confirm_setup_extends_confirm_session
    (w : World) (session_id setup_intent : option string) (d : Db) :
  let run := ConfirmSession.POST w
               (Returned {| ConfirmSession.session_id := session_id |}) d in
  status (response run) = 200 ->
  ConfirmSetup.POST w
    (Returned {| ConfirmSetup.session_id := session_id;
                 ConfirmSetup.setup_intent := setup_intent |}) d
  = run.
Proof. apply ConfirmSetup_on_session. Qed.

(** X20, witness: the sample session. *)
Lemma confirm_setup_extends_confirm_session_witness :
  ConfirmSetup.POST Sample.world
    (Returned {| ConfirmSetup.session_id := Some "cs_1";
                 ConfirmSetup.setup_intent := Some "seti_down" |}) Sample.open_db
  = ConfirmSession.POST Sample.world
      (Returned {| ConfirmSession.session_id := Some "cs_1" |}) Sample.open_db.
Proof.
  apply (confirm_setup_extends_confirm_session Sample.world (Some "cs_1")
           (Some "seti_down") Sample.open_db).
  reflexivity.
Defined.

(** ** The fallback lookup by customer *)

Lemma has_customer_iff (c : string) (row : Pledge) :
  ConfirmSetup.has_customer c row = true <-> p_stripe_customer_id row = Some c.
Proof.
  unfold ConfirmSetup.has_customer.
  destruct (p_stripe_customer_id row) as [c'|]; [|split; discriminate].
  rewrite String.eqb_eq. split; congruence.
Qed.

Lemma most_recent_spec (rows : list Pledge) (best : option Pledge) (found : Pledge) :
  ConfirmSetup.most_recent best rows = Some found ->
  (best = Some found \/ In found rows)
  /\ (forall b, best = Some b -> p_created_at b <= p_created_at found)
  /\ (forall r, In r rows -> p_created_at r <= p_created_at found).
Proof.
  revert best. induction rows as [|x rows IH]; intros best H; simpl in H.
  - subst best. repeat split.
    + left. reflexivity.
    + intros b [= <-]. lia.
    + intros r [].
  - apply IH in H. destruct H as (H1 & H2 & H3).
    destruct best as [b|].
    + destruct (Z.ltb_spec (p_created_at b) (p_created_at x)) as [L|L].
      * specialize (H2 x eq_refl). repeat split.
        -- destruct H1 as [[= <-]|H1]; right; [left; reflexivity | right; exact H1].
        -- intros b0 [= <-]. lia.
        -- intros r [<-|Hr]; [exact H2 | apply H3, Hr].
      * specialize (H2 b eq_refl). repeat split.
        -- destruct H1 as [H1|H1]; [left; exact H1 | right; right; exact H1].
        -- intros b0 [= <-]. exact H2.
        -- intros r [<-|Hr]; [lia | apply H3, Hr].
    + specialize (H2 x eq_refl). repeat split.
      * destruct H1 as [[= <-]|H1]; right; [left; reflexivity | right; exact H1].
      * discriminate.
      * intros r [<-|Hr]; [exact H2 | apply H3, Hr].
Qed.

Lemma most_recent_none (rows : list Pledge) (best : option Pledge) :
  ConfirmSetup.most_recent best rows = None -> best = None /\ rows = [].
Proof.
  revert best. induction rows as [|x rows IH]; intros best H; simpl in H.
  - split; [exact H | reflexivity].
  - apply IH in H. destruct H as [H _].
    destruct best as [b|]; [destruct (_ <? _)|]; discriminate H.
Qed.

(** X21.  The fallback query answers with the id of a pledge stored with
    the given customer id and created no earlier than any other such pledge;
    when the store answers, it finds nothing exactly when no pledge is
    stored with that customer id. *)
Theorem lookup_by_customer_most_recent (w : World) (c : string) (rows : list Pledge) :
  (forall k,
      ConfirmSetup.lookup_by_customer w c rows = Some k ->
      exists row,
        In row rows /\ p_id row = k /\ p_stripe_customer_id row = Some c
        /\ forall r, In r rows -> p_stripe_customer_id r = Some c ->
                     p_created_at r <= p_created_at row)
  /\ (pledges_lookup_error w = false ->
      (ConfirmSetup.lookup_by_customer w c rows = None
       <-> forall r, In r rows -> p_stripe_customer_id r <> Some c)).
Proof.
  unfold ConfirmSetup.lookup_by_customer. split.
  - intros k H. destruct (pledges_lookup_error w); [discriminate|].
    destruct (ConfirmSetup.most_recent None _) as [row|] eqn:E; [|discriminate].
    injection H as <-.
    apply most_recent_spec in E. destruct E as ([E|Hin] & _ & Hmax); [discriminate|].
    apply filter_In in Hin. destruct Hin as [Hin Hc].
    exists row. repeat split; [exact Hin | apply has_customer_iff, Hc |].
    intros r Hr Hrc. apply Hmax. apply filter_In.
    split; [exact Hr | apply has_customer_iff, Hrc].
  - intros ->. split.
    + intros H r Hr Hrc.
      destruct (ConfirmSetup.most_recent None _) as [row|] eqn:E; [discriminate|].
      apply most_recent_none in E. destruct E as [_ E].
      assert (K : In r (filter (ConfirmSetup.has_customer c) rows)).
      { apply filter_In. split; [exact Hr | apply has_customer_iff, Hrc]. }
      rewrite E in K. destruct K.
    + intros H.
      destruct (ConfirmSetup.most_recent None _) as [row|] eqn:E; [|reflexivity].
      apply most_recent_spec in E. destruct E as ([E|Hin] & _); [discriminate|].
      apply filter_In in Hin. destruct Hin as [Hin Hc].
      exfalso. apply (H row Hin). apply has_customer_iff, Hc.
Qed.

(** ** From setup to charge *)

(** X22.  On a store that applies the updates, a pledge the session
    handler confirmed is ready to be charged: its rows are complete and hold
    a non-empty customer id and payment method id, so an iteration of the
    charge run over such a row with a positive amount always reaches the
    provider, never the branch for a missing customer or payment method. *)
Theorem confirmed_pledge_is_chargeable
    (w : World) (req : Outcome ConfirmSession.Body) (d : Db) (k : string) :
  applies_pledge_updates w ->
  response (ConfirmSession.POST w req d) = json (PledgeBody k) 200 ->
  Forall (fun row =>
            p_id row = k ->
            p_setup_status row = SetupStatus.complete
            /\ falsy (p_stripe_customer_id row) = false
            /\ falsy (p_stripe_payment_method_id row) = false
            /\ forall w' campaign campaignId finalViews viewsCap st,
                 let x := RunCharges.columns row in
                 let r := RunCharges.amount_of finalViews viewsCap x in
                 0 < Amount.amountCents r ->
                 RunCharges.issued
                   (RunCharges.charge_pledge w' campaign campaignId finalViews viewsCap st x)
                 = (RunCharges.issued st
                    ++ [paymentIntents_create_
                          (RunCharges.charge_params campaign campaignId x
                             (Amount.computedViews r) (Amount.amountCents r))])%list)
         (pledges (db (ConfirmSession.POST w req d))).
Proof.
  intros A H.
  destruct (ConfirmSession_uniform w req) as (resp & plan & issued & E & _ & B).
  rewrite E in H |- *. cbn [response db] in H |- *.
  destruct (B k H) as (customer & method & Fc & Fm & Hb).
  pose proof (binds_rows w customer method k plan d A Hb) as F.
  eapply Forall_impl; [|exact F].
  intros row Hrow Hk. destruct (Hrow Hk) as (Hs & Hc & Hm & _).
  rewrite Hc, Hm. repeat split; try assumption.
  intros w' campaign campaignId finalViews viewsCap st. cbv zeta. intros Hpos.
  unfold RunCharges.charge_pledge.
  destruct (Z.leb_spec
              (Amount.amountCents
                 (RunCharges.amount_of finalViews viewsCap (RunCharges.columns row))) 0)
    as [L|_]; [lia|].
  cbn [RunCharges.columns RunCharges.stripe_customer_id
       RunCharges.stripe_payment_method_id].
  rewrite Hc, Hm, Fc, Fm. cbn [orb].
  destruct (paymentIntents_create w' _); [reflexivity|].
  destruct (RunCharges.needsAction _); reflexivity.
Qed.

(** X22, witness: the sample session confirms pledge [p1]. *)
Lemma confirmed_pledge_is_chargeable_witness :
  let req := Returned {| ConfirmSession.session_id := Some "cs_1" |} in
  response (ConfirmSession.POST Sample.world req Sample.open_db)
  = json (PledgeBody "p1") 200
  /\ Forall (fun row =>
               p_id row = "p1" ->
               p_setup_status row = SetupStatus.complete
               /\ falsy (p_stripe_customer_id row) = false
               /\ falsy (p_stripe_payment_method_id row) = false)
            (pledges (db (ConfirmSession.POST Sample.world req Sample.open_db))).
Proof.
  intros req. split; [reflexivity|].
  eapply Forall_impl;
    [|apply (confirmed_pledge_is_chargeable Sample.world req Sample.open_db "p1"
               sample_applies_pledge_updates);
      reflexivity].
  intros row H Hk. destruct (H Hk) as (H1 & H2 & H3 & _). repeat split; assumption.
Defined.

(** ** One-off donation *)


(** ** CORS headers *)

(** X24.  The origin the public handlers allow is always one of the four
    listed origins: the request's own origin when it is listed, the
    production origin otherwise; the requested headers are echoed, with
    [Content-Type] when none are named; a preflight is answered 204. *)
Theorem cors_origin_is_listed (req : Cors.Request) :
  let headers := Cors.corsHeaders req in
  In (Cors.Access_Control_Allow_Origin headers) Cors.allowed
  /\ (forall o, Cors.origin req = Some o -> In o Cors.allowed ->
                Cors.Access_Control_Allow_Origin headers = o)
  /\ ((forall o, Cors.origin req = Some o -> ~ In o Cors.allowed) ->
      Cors.Access_Control_Allow_Origin headers = "https://www.sixplusone.com")
  /\ (forall h, Cors.access_control_request_headers req = Some h ->
                Cors.Access_Control_Allow_Headers headers = h)
  /\ (Cors.access_control_request_headers req = None ->
      Cors.Access_Control_Allow_Headers headers = "Content-Type")
  /\ Cors.OPTIONS req = (204, headers).
Proof.
  cbv zeta. unfold Cors.corsHeaders, Cors.OPTIONS.
  cbn [Cors.Access_Control_Allow_Origin Cors.Access_Control_Allow_Headers].
  set (origin := match Cors.origin req with Some o => o | None => "" end).
  assert (L : existsb (String.eqb origin) Cors.allowed = true <-> In origin Cors.allowed).
  { rewrite existsb_exists. split.
    - intros (x & Hx & E). apply String.eqb_eq in E. subst x. exact Hx.
    - intros H. exists origin. split; [exact H | apply String.eqb_refl]. }
  repeat split.
  - destruct (existsb _ _) eqn:E; [apply L; reflexivity | left; reflexivity].
  - intros o Ho Hin. subst origin. rewrite Ho in *.
    destruct (existsb _ _); [reflexivity|].
    apply L in Hin. discriminate Hin.
  - intros H. destruct (existsb _ _) eqn:E; [|reflexivity].
    exfalso. apply proj1 in L. specialize (L eq_refl). subst origin.
    destruct (Cors.origin req) as [o|] eqn:Eo.
    + exact (H o eq_refl L).
    + simpl in L. intuition discriminate.
  - intros h ->. reflexivity.
  - intros ->. reflexivity.
Qed.

(** ** The cached clients *)

(** X25.  The clients are built once: a call of [getStripe] that finds no
    cached client and no key throws and caches nothing; from the first call
    that finds a key on, every call returns the client built from that key,
    whatever the environment holds by then.  Likewise a store client, once
    built, is what every later call of [getSupabaseAdmin] returns. *)
Theorem clients_are_cached (env : Clients.Env) (envs : list Clients.Env) :
  (forall client,
      Clients.stripe_calls envs (Some client) = map (fun _ => Returned client) envs)
  /\ (falsy (Clients.env_STRIPE_SECRET_KEY env) = true ->
      Clients.stripe_calls (env :: envs) None
      = Threw (Error "Missing STRIPE_SECRET_KEY") :: Clients.stripe_calls envs None)
  /\ (falsy (Clients.env_STRIPE_SECRET_KEY env) = false ->
      Clients.stripe_calls (env :: envs) None
      = map (fun _ => Returned (text (Clients.env_STRIPE_SECRET_KEY env))) (env :: envs))
  /\ (forall client cached env',
      Clients.getSupabaseAdmin env None = (Returned client, cached) ->
      Clients.getSupabaseAdmin env' cached = (Returned client, cached)
      /\ client = (text (Clients.env_SUPABASE_URL env),
                   text (Clients.env_SUPABASE_SERVICE_ROLE_KEY env))).
Proof.
  assert (Hit : forall l client,
            Clients.stripe_calls l (Some client) = map (fun _ => Returned client) l).
  { induction l as [|e l IH]; intros client; simpl; [reflexivity|].
    rewrite IH. reflexivity. }
  split; [apply Hit|]. split; [|split].
  - intros H. cbn [Clients.stripe_calls Clients.getStripe]. rewrite H. reflexivity.
  - intros H. cbn [Clients.stripe_calls Clients.getStripe]. rewrite H.
    rewrite Hit. reflexivity.
  - intros client cached env'. unfold Clients.getSupabaseAdmin at 1.
    destruct (_ || _); [discriminate|].
    intros [= <- <-]. split; reflexivity.
Qed.

(** ** Further error behaviour of the setup handlers *)

(** X26.  The two confirm handlers write only when they answer 200 or 409:
    with any other status (400, 500, 502) the tables are as they were. *)
Theorem confirm_handlers_write_on_200_or_409 (w : World) (d : Db) :
  (forall req,
      status (response (ConfirmSession.POST w req d)) <> 200 ->
      status (response (ConfirmSession.POST w req d)) <> 409 ->
      db (ConfirmSession.POST w req d) = d)
  /\ (forall req,
      status (response (ConfirmSetup.POST w req d)) <> 200 ->
      status (response (ConfirmSetup.POST w req d)) <> 409 ->
      db (ConfirmSetup.POST w req d) = d).
Proof.
  split; intros req.
  - unfold ConfirmSession.POST. branches; cbn [response status json reject db];
      intros N1 N2; try reflexivity; exfalso; auto.
  - unfold ConfirmSetup.POST, ConfirmSetup.resolve, ConfirmSetup.reconcile.
    branches; cbn [response status json reject db];
      intros N1 N2; try reflexivity; exfalso; auto.
Qed.

(** X26, witness: a session id the provider does not know. *)
Lemma confirm_handlers_write_on_200_or_409_witness :
  let req := Returned {| ConfirmSession.session_id := Some "cs_unknown" |} in
  status (response (ConfirmSession.POST Sample.world req Sample.open_db)) = 502
  /\ db (ConfirmSession.POST Sample.world req Sample.open_db) = Sample.open_db.
Proof.
  intros req. split; [reflexivity|].
  apply (proj1 (confirm_handlers_write_on_200_or_409 Sample.world Sample.open_db) req);
    discriminate.
Defined.

(** X27.  Once the clients are configured and the provider has verified
    the signature, the webhook always acknowledges the event with 200
    [received], whatever the event holds and however its processing ends. *)
Theorem webhook_acknowledges_verified_events
    (w : World) (req : Webhook.Request) (d : Db) (event : Event) :
  getStripe w = Returned tt ->
  getSupabaseAdmin w = Returned tt ->
  falsy (Webhook.signature req) = false ->
  webhooks_constructEvent w (Webhook.rawBody req) (text (Webhook.signature req))
    (STRIPE_WEBHOOK_SECRET w) = Returned event ->
  response (Webhook.POST w req d) = json ReceivedBody 200.
Proof.
  intros Hs Hg Hf He. unfold Webhook.POST. rewrite Hs, Hg, Hf, He.
  branches; reflexivity.
Qed.

(** X27, witness: the sample event, whose setup intent cannot be fetched. *)
Lemma webhook_acknowledges_verified_events_witness :
  let req := {| Webhook.signature := Some "t=1,v1=0"; Webhook.rawBody := "{}" |} in
  response (Webhook.POST Sample.world req Sample.open_db) = json ReceivedBody 200.
Proof.
  intros req.
  apply (webhook_acknowledges_verified_events Sample.world req Sample.open_db
           Sample.event); reflexivity.
Defined.

(** ** Across the lifecycle *)

(** X28.  After a completed charge run whose campaign update the store
    applied, the campaign's view count is frozen: set-views for that
    campaign is refused and changes nothing. *)
Theorem charged_campaign_views_are_frozen
    (w : World) (req : Outcome RunCharges.Body) (d : Db)
    (update_error : option string) (body : SetViews.Body) :
  applies_campaign_updates w ->
  status (response (RunCharges.POST w req d)) = 200 ->
  (exists rbody, req = Returned rbody
                 /\ SetViews.campaign_id body = RunCharges.campaign_id rbody) ->
  let result := SetViews.POST w update_error (Returned body)
                  (db (RunCharges.POST w req d)) in
  SetViews.code (SetViews.reply result) <> 200
  /\ SetViews.after result = db (RunCharges.POST w req d).
Proof.
  intros A H (rbody & Hr & Hid). cbv zeta.
  destruct (POST_completed w req d H)
    as (rbody' & k & c & fv & (Hb & Hk & Hc & _) & _ & E).
  rewrite (write_campaign_status_applied w _ _ _ (A _ _ _)) in E.
  rewrite Hr in Hb. injection Hb as <-. rewrite Hk in Hid.
  assert (N : SetViews.code (SetViews.reply
                (SetViews.POST w update_error (Returned body)
                   (db (RunCharges.POST w req d)))) <> 200).
  { intros H'.
    destruct (SetViews_completed w update_error (Returned body) _ H')
      as (body' & k' & c' & q & (Hb' & Hk' & _ & Hsel) & (_ & _ & _ & _ & _ & Hn & _) & _).
    injection Hb' as <-. rewrite Hid in Hk'. injection Hk' as <-.
    rewrite E in Hsel. cbv zeta in Hsel. cbn [db campaigns] in Hsel.
    rewrite select_updated_campaign, Hc in Hsel. injection Hsel as <-.
    apply Hn. reflexivity. }
  split; [exact N | apply SetViews_not_completed, N].
Qed.

(** X28, witness: the sample run, then set-views. *)
Lemma charged_campaign_views_are_frozen_witness :
  let body := {| SetViews.password := Some "secret";
                 SetViews.campaign_id := Some "c1";
                 SetViews.final_views := Some (1 # 1)%Q |} in
  let charged := db (RunCharges.POST Sample.world Sample.run_request Sample.locked_db) in
  SetViews.reply (SetViews.POST Sample.world None (Returned body) charged)
  = {| SetViews.code := 400; SetViews.error := Some "Campaign is already charged" |}
  /\ SetViews.after (SetViews.POST Sample.world None (Returned body) charged) = charged.
Proof.
  intros body charged. split; [reflexivity|].
  apply (charged_campaign_views_are_frozen Sample.world Sample.run_request
           Sample.locked_db None body sample_applies_campaign_updates eq_refl).
  eexists. split; reflexivity.
Defined.

(** ** Updates whose result is discarded *)

Lemma charge_pledge_answer (w w' : World) (campaign : Campaign) (campaignId : string)
    (finalViews viewsCap : Z) (st st' : RunCharges.Loop) (x : RunCharges.Selected) :
  (forall params, paymentIntents_create w' params = paymentIntents_create w params) ->
  RunCharges.counts st' = RunCharges.counts st ->
  RunCharges.issued st' = RunCharges.issued st ->
  let next := RunCharges.charge_pledge w campaign campaignId finalViews viewsCap st x in
  let next' := RunCharges.charge_pledge w' campaign campaignId finalViews viewsCap st' x in
  RunCharges.counts next' = RunCharges.counts next
  /\ RunCharges.issued next' = RunCharges.issued next.
Proof.
  intros Hp Hc Hi. cbv zeta. unfold RunCharges.charge_pledge.
  rewrite Hp, Hc, Hi.
  destruct (_ <=? 0); [split; reflexivity|].
  destruct (_ || _); [split; reflexivity|].
  destruct (paymentIntents_create w _); [split; reflexivity|].
  destruct (RunCharges.needsAction _); split; reflexivity.
Qed.

Lemma loop_answer (w w' : World) (campaign : Campaign) (campaignId : string)
    (finalViews viewsCap : Z) (xs : list RunCharges.Selected)
    (st st' : RunCharges.Loop) :
  (forall params, paymentIntents_create w' params = paymentIntents_create w params) ->
  RunCharges.counts st' = RunCharges.counts st ->
  RunCharges.issued st' = RunCharges.issued st ->
  let final :=
    fold_left (RunCharges.charge_pledge w campaign campaignId finalViews viewsCap) xs st in
  let final' :=
    fold_left (RunCharges.charge_pledge w' campaign campaignId finalViews viewsCap) xs st' in
  RunCharges.counts final' = RunCharges.counts final
  /\ RunCharges.issued final' = RunCharges.issued final.
Proof.
  intros Hp. revert st st'.
  induction xs as [|x xs IH]; intros st st' Hc Hi; cbv zeta; [split; assumption|].
  cbn [fold_left].
  destruct (charge_pledge_answer w w' campaign campaignId finalViews viewsCap st st' x
              Hp Hc Hi) as [Hc' Hi'].
  apply IH; assumption.
Qed.

(** X30.  A charge run never looks at what the store did with its
    updates: in two worlds that differ at most in which updates the store
    refuses, the same request on the same tables gets the same response and
    issues the same provider calls. *)
Theorem charge_run_answer_ignores_update_results
    (w w' : World) (req : Outcome RunCharges.Body) (d : Db) :
  same_but_updates w w' ->
  response (RunCharges.POST w' req d) = response (RunCharges.POST w req d)
  /\ calls (RunCharges.POST w' req d) = calls (RunCharges.POST w req d).
Proof.
  intros (E1 & E2 & E3 & E4 & E5 & E6 & Hp).
  unfold RunCharges.POST, getStripe, getSupabaseAdmin, RunCharges.authorized.
  rewrite E1, E2, E3, E4, E5, E6.
  destruct (falsy (STRIPE_SECRET_KEY w)); [split; reflexivity|].
  destruct (falsy (SUPABASE_URL w) || falsy (SUPABASE_SERVICE_ROLE_KEY w));
    [split; reflexivity|].
  destruct req as [body|]; [|split; reflexivity].
  destruct (negb _); [split; reflexivity|].
  destruct (String.eqb _ ""); [split; reflexivity|].
  destruct (if campaigns_select_error w then None else _) as [campaign|];
    [|split; reflexivity].
  destruct (c_final_views campaign) as [finalViews|]; [|split; reflexivity].
  destruct (pledges_select_error w); [split; reflexivity|].
  cbn [response calls].
  destruct (loop_answer w w' campaign
              match RunCharges.campaign_id body with Some s0 => s0 | None => "" end
              finalViews (views_cap_or_default (c_views_cap campaign))
              (RunCharges.select_eligible
                 match RunCharges.campaign_id body with Some s0 => s0 | None => "" end
                 (pledges d))
              {| RunCharges.counts := RunCharges.zero; RunCharges.rows := pledges d;
                 RunCharges.issued := [] |}
              {| RunCharges.counts := RunCharges.zero; RunCharges.rows := pledges d;
                 RunCharges.issued := [] |}
              Hp eq_refl eq_refl) as [Hc Hi].
  cbv zeta in Hc, Hi. rewrite Hc, Hi. split; reflexivity.
Qed.

(** X30, witness: the sample run on a store that applies the updates and
    on one that refuses them. *)
Lemma charge_run_answer_ignores_update_results_witness :
  same_but_updates Sample.world Sample.refusing
  /\ response (RunCharges.POST Sample.refusing Sample.run_request Sample.locked_db)
     = json (CountsBody 1 1 2 1) 200
  /\ response (RunCharges.POST Sample.refusing Sample.run_request Sample.locked_db)
     = response (RunCharges.POST Sample.world Sample.run_request Sample.locked_db)
  /\ calls (RunCharges.POST Sample.refusing Sample.run_request Sample.locked_db)
     = calls (RunCharges.POST Sample.world Sample.run_request Sample.locked_db).
Proof.
  assert (S : same_but_updates Sample.world Sample.refusing)
    by (repeat split).
  split; [exact S|]. split; [reflexivity|].
  apply (charge_run_answer_ignores_update_results Sample.world Sample.refusing
           Sample.run_request Sample.locked_db S).
Defined.

Lemma unique_id (rows : list Pledge) (p q : Pledge) :
  NoDup (map p_id rows) -> In p rows -> In q rows -> p_id p = p_id q -> p = q.
Proof.
  induction rows as [|r rows IH]; intros Hn Hp Hq E; [destruct Hp|].
  simpl in Hn. inversion Hn as [|? ? Hnot Hn']; subst.
  destruct Hp as [<-|Hp]; destruct Hq as [<-|Hq].
  - reflexivity.
  - exfalso. apply Hnot. rewrite E. apply in_map, Hq.
  - exfalso. apply Hnot. rewrite <- E. apply in_map, Hp.
  - apply IH; assumption.
Qed.

(** X29.  When pledge ids are unique, a charge run rewrites only the
    pledges it selected: a row that was not eligible for the requested
    campaign (another campaign, setup not complete, or already charged,
    skipped, failed or requiring action) is left exactly as it was. *)
Theorem charge_run_leaves_ineligible_rows
    (w : World) (body : RunCharges.Body) (d : Db) (campaignId : string) :
  NoDup (map p_id (pledges d)) ->
  RunCharges.campaign_id body = Some campaignId ->
  Forall2 (fun before after =>
             RunCharges.eligible campaignId before = false -> after = before)
          (pledges d) (pledges (db (RunCharges.POST w (Returned body) d))).
Proof.
  intros Hn Hid.
  destruct (Z.eq_dec (status (response (RunCharges.POST w (Returned body) d))) 200)
    as [H|H].
  - destruct (POST_completed w (Returned body) d H)
      as (body' & k & c & fv & (Hb & Hk & _) & _ & E).
    injection Hb as <-. rewrite Hid in Hk. injection Hk as <-.
    rewrite E. cbv zeta. cbn [db pledges].
    eapply Forall2_impl; [|apply Forall2_In_left, loop_settles].
    intros b a (Hin & _ & _ & Hkeep) Hne. apply Hkeep. intros Hsel.
    unfold RunCharges.select_eligible in Hsel. rewrite map_map in Hsel.
    apply in_map_iff in Hsel. destruct Hsel as (q & Hq & Hqin).
    apply filter_In in Hqin. destruct Hqin as [Hqin Hqe].
    assert (q = b) by (apply (unique_id (pledges d)); assumption).
    subst q. rewrite Hqe in Hne. discriminate Hne.
  - destruct (POST_not_completed w (Returned body) d H) as [-> _].
    apply Forall2_same. reflexivity.
Qed.

(** X29, witness: the sample run leaves the pending sixth pledge alone. *)
Lemma charge_run_leaves_ineligible_rows_witness :
  nth_error (pledges (db (RunCharges.POST Sample.world Sample.run_request
                            Sample.locked_db))) 5
  = nth_error (pledges Sample.locked_db) 5
  /\ Forall2 (fun before after =>
                RunCharges.eligible "c1" before = false -> after = before)
             (pledges Sample.locked_db)
             (pledges (db (RunCharges.POST Sample.world Sample.run_request
                             Sample.locked_db))).
Proof.
  split; [reflexivity|].
  apply (charge_run_leaves_ineligible_rows Sample.world
           {| RunCharges.password := Some "secret"; RunCharges.campaign_id := Some "c1" |}
           Sample.locked_db "c1"); [|reflexivity].
  repeat constructor; simpl; intuition discriminate.
Defined.
